(** * pint: line ranges of the rule parser and the [promql/series] check

    A shallow embedding of [internal/parser/models.go] ([nodeLines]) and of
    the series check ([SeriesCheck.Check] with its helpers [stripLabels],
    [getSelectors], [isDisabled], [getMinAge], [avgLife], ...), followed by
    the properties of the specification that were checked against them.

    Go values are modelled as follows.
    - [int], [int64] and [time.Duration] are [Z] with the two's complement
      wrap-around of 64 bits written out ([wrap64]).
    - [time.Time] is an instant in nanoseconds counted from Go's zero time,
      so that [IsZero] is a comparison with 0.
    - strings are byte strings ([string]), [fmt.Sprintf] with [%s] only is
      concatenation.
    - a [map[string]bool] is a [gmap string bool].
    - the Prometheus client, the PromQL printer and the other packages the
      check calls into are fields of the record [Env]. *)

From Stdlib Require Import ZArith Lia String Ascii List.
From stdpp Require Import base gmap strings list.

Local Open Scope Z_scope.

(** ** Go integers *)

Module GoInt.

Definition minInt64 : Z := - 2 ^ 63.
Definition maxInt64 : Z := 2 ^ 63 - 1.

(** Two's complement wrap-around of a 64-bit signed integer. *)
Definition wrap64 (z : Z) : Z := (z + 2 ^ 63) mod 2 ^ 64 - 2 ^ 63.

Definition inInt64 (z : Z) : Prop := minInt64 <= z <= maxInt64.

Definition add (a b : Z) : Z := wrap64 (a + b).
Definition sub (a b : Z) : Z := wrap64 (a - b).
Definition mul (a b : Z) : Z := wrap64 (a * b).

(** Go's [/] on integers truncates towards zero. *)
Definition div (a b : Z) : Z := wrap64 (Z.quot a b).

End GoInt.

(** ** Go strings *)

Module GoStrings.

Definition nl : string := String (ascii_of_nat 10) EmptyString.

(** [strings.HasPrefix(s, p)] *)
Definition HasPrefix (s p : string) : bool := String.prefix p s.

(** [strings.TrimPrefix(s, p)] *)
Definition TrimPrefix (s p : string) : string :=
  if HasPrefix s p
  then String.substring (String.length p) (String.length s - String.length p) s
  else s.

Fixpoint revString (s acc : string) : string :=
  match s with
  | EmptyString => acc
  | String c s' => revString s' (String c acc)
  end.

(** [strings.HasSuffix(s, p)] *)
Definition HasSuffix (s p : string) : bool :=
  String.prefix (revString p EmptyString) (revString s EmptyString).

(** [strings.TrimSuffix(s, p)] *)
Definition TrimSuffix (s p : string) : string :=
  if HasSuffix s p
  then String.substring 0 (String.length s - String.length p) s
  else s.

(** [strings.Split(s, sep)] for a separator of one byte: the pieces of [s]
    between the occurrences of [sep], one more than there are occurrences. *)
Fixpoint Split1 (s : string) (sep : ascii) : list string :=
  match s with
  | EmptyString => [EmptyString]
  | String c s' =>
      if Ascii.eqb c sep then EmptyString :: Split1 s' sep
      else match Split1 s' sep with
           | [] => [String c EmptyString]
           | p :: ps => String c p :: ps
           end
  end.

(** The number of occurrences of the byte [c] in [s]. *)
Fixpoint countByte (c : ascii) (s : string) : nat :=
  match s with
  | EmptyString => 0%nat
  | String a s' => ((if Ascii.eqb a c then 1 else 0) + countByte c s')%nat
  end.

End GoStrings.

Import GoInt GoStrings.

(** ** Go slices of strings *)

Module GoSlices.

(** [slices.Sort] on strings sorts in the order of [<] on Go strings,
    which compares byte by byte. The order is total, so every sort returns
    the same list; this one inserts. *)
Fixpoint insertSorted (x : string) (l : list string) : list string :=
  match l with
  | [] => [x]
  | y :: l' => if String.leb x y then x :: l else y :: insertSorted x l'
  end.

Definition Sort (l : list string) : list string := fold_right insertSorted [] l.

(** [slices.Equal] *)
Fixpoint Equal (a b : list string) : bool :=
  match a, b with
  | [], [] => true
  | x :: a', y :: b' => String.eqb x y && Equal a' b'
  | _, _ => false
  end.

End GoSlices.

(** ** Packages the check calls into

    [labels] and [promParser] are Prometheus packages, [comments] and
    [discovery] are packages of pint whose declarations the check only
    reads. *)

Definition error : Type := string.
Definition Duration : Type := Z.
Definition Time : Type := Z.

Module labels.

Inductive MatchType := MatchEqual | MatchNotEqual | MatchRegexp | MatchNotRegexp.

#[global] Instance MatchType_eq_dec : EqDecision MatchType.
Proof. solve_decision. Defined.

Record Matcher := mkMatcher {
  Type_ : MatchType;
  Name : string;
  Value : string
}.

#[global] Instance Matcher_eq_dec : EqDecision Matcher.
Proof. solve_decision. Defined.

Definition MetricName : string := "__name__".

(** [labels.MustNewMatcher]: the patterns the check passes always compile. *)
Definition MustNewMatcher (t : MatchType) (n v : string) : Matcher :=
  mkMatcher t n v.

End labels.

Module promParser.

(** [VectorSelector]: the metric name, the offset modifier and the label
    matchers in the order they were written. *)
Record VectorSelector := mkVectorSelector {
  Name : string;
  Offset : Duration;
  LabelMatchers : list labels.Matcher
}.

#[global] Instance VectorSelector_eq_dec : EqDecision VectorSelector.
Proof. solve_decision. Defined.

(** [promParser.Expr], as far as the check distinguishes its variants. *)
Inductive Expr :=
| VectorSelectorExpr (vs : VectorSelector)
| OtherExpr.

End promParser.

Module comments.

(** A parsed comment: its [Type] decides the type of its [Value], which
    the constructor records. *)
Inductive Comment :=
| DisableComment (Match : string)
| SnoozeComment (Until : Time) (Match : string)
| RuleSetComment (Value : string)
| OtherComment (text : string).

(** [comments.Only[comments.Disable](src, comments.DisableType)] *)
Fixpoint OnlyDisable (src : list Comment) : list string :=
  match src with
  | [] => []
  | DisableComment m :: rest => m :: OnlyDisable rest
  | _ :: rest => OnlyDisable rest
  end.

(** [comments.Only[comments.RuleSet](src, comments.RuleSetType)] *)
Fixpoint OnlyRuleSet (src : list Comment) : list string :=
  match src with
  | [] => []
  | RuleSetComment v :: rest => v :: OnlyRuleSet rest
  | _ :: rest => OnlyRuleSet rest
  end.

End comments.

(** ** internal/parser/models.go *)

Module parser.

Record LineRange := mkLineRange { First : Z; Last : Z }.

(** The fields of [yaml.Node] that [nodeLines] reads. [Style] is the bit
    set of yaml.v3 ([TaggedStyle] = 1, ..., [LiteralStyle] = 8,
    [FoldedStyle] = 16). *)
Record yamlNode := mkYamlNode {
  Style : N;
  Value : string;
  Line : Z
}.

Definition LiteralStyle : N := 8.
Definition FoldedStyle : N := 16.

Definition newline : ascii := ascii_of_nat 10.

Definition nodeLines (node : yamlNode) (offset : Z) : LineRange :=
  let first :=
    if String.eqb (Value node) ""
    then GoInt.add (Line node) offset
    else if (N.eqb (Style node) LiteralStyle || N.eqb (Style node) FoldedStyle)%bool
    then GoInt.add (GoInt.add (Line node) 1) offset
    else GoInt.add (Line node) offset in
  let pieces := Split1 (TrimSuffix (Value node) nl) newline in
  {| First := first;
     Last := GoInt.sub (GoInt.add first (Z.of_nat (length pieces))) 1 |}.

Record YamlNode := mkYamlNodeV {
  YValue : string;
  YLines : LineRange
}.

Record YamlKeyValue := mkYamlKeyValue {
  KVKey : YamlNode;
  KVValue : YamlNode
}.

Record YamlMap := mkYamlMap {
  MapKey : YamlNode;
  Items : list YamlKeyValue;
  MapLines : LineRange
}.

#[local] Set Warnings "-register-all".

Inductive PromQLNode :=
| mkPromQLNode (Expr : string) (Node : promParser.Expr) (Children : list PromQLNode).

(** [Value] is never nil in a parsed rule; [Query] is nil when the
    expression did not parse. *)
Record PromQLExpr := mkPromQLExpr {
  EValue : YamlNode;
  SyntaxError : option error;
  Query : option PromQLNode
}.

Record AlertingRule := mkAlertingRule {
  AExpr : PromQLExpr;
  For : option YamlNode;
  KeepFiringFor : option YamlNode;
  ALabels : option YamlMap;
  Annotations : option YamlMap;
  Alert : YamlNode
}.

Record RecordingRule := mkRecordingRule {
  RExpr : PromQLExpr;
  RLabels : option YamlMap;
  Record_ : YamlNode
}.

Record ParseError := mkParseError {
  Err : option error;
  Fragment : string;
  ErrLine : Z
}.

Record Rule := mkRule {
  AlertingRule_ : option AlertingRule;
  RecordingRule_ : option RecordingRule;
  Error : ParseError;
  Comments : list comments.Comment;
  Lines : LineRange
}.

(** [Rule.Expr]: dereferences [AlertingRule] when there is no recording
    rule; [None] is the nil pointer panic of a rule with neither. *)
Definition Rule_Expr (r : Rule) : option PromQLExpr :=
  match RecordingRule_ r with
  | Some rr => Some (RExpr rr)
  | None =>
      match AlertingRule_ r with
      | Some ar => Some (AExpr ar)
      | None => None
      end
  end.

(** [yaml.Node] as the parser walks it: the fields of [yamlNode], the
    node an alias points to, the comments, and the children. *)
Inductive yamlTree :=
| mkYamlTree (fields : yamlNode) (Alias : option yamlTree)
             (HeadComment LineComment FootComment : string)
             (Content : list yamlTree).

Definition treeFields (t : yamlTree) : yamlNode :=
  match t with mkYamlTree n _ _ _ _ _ => n end.

Definition treeAlias (t : yamlTree) : option yamlTree :=
  match t with mkYamlTree _ a _ _ _ _ => a end.

Definition treeContent (t : yamlTree) : list yamlTree :=
  match t with mkYamlTree _ _ _ _ _ c => c end.

Fixpoint mergeComments (node : yamlTree) : list string :=
  match node with
  | mkYamlTree _ _ head line foot content =>
      (if String.eqb head "" then [] else [head]) ++
      (if String.eqb line "" then [] else [line]) ++
      (if String.eqb foot "" then [] else [foot]) ++
      flat_map mergeComments content
  end.

(** The value of a node, or of the node it is an alias of. *)
Definition aliasedValue (node : yamlTree) : string :=
  match treeAlias node with
  | Some a => Value (treeFields a)
  | None => Value (treeFields node)
  end.

Definition newYamlNode (node : yamlTree) (offset : Z) : YamlNode :=
  {| YValue := aliasedValue node;
     YLines := nodeLines (treeFields node) offset |}.

Definition newYamlNodeWithKey (key node : yamlTree) (offset : Z) : YamlNode :=
  let keyLines := nodeLines (treeFields key) offset in
  let valLines := nodeLines (treeFields node) offset in
  {| YValue := aliasedValue node;
     YLines := {| First := Z.min (First keyLines) (First valLines);
                  Last := Z.max (Last keyLines) (Last valLines) |} |}.

(** [YamlNode.IsIdentical], on pointers that may be nil. *)
Definition YamlNode_IsIdentical (yn b : option YamlNode) : bool :=
  match yn, b with
  | None, None => true
  | Some x, Some y => String.eqb (YValue x) (YValue y)
  | _, _ => false
  end.

(** The text [fmt.Sprintf("%s: %s", key, value)] of an item. *)
Definition itemText (kv : YamlKeyValue) : string :=
  YValue (KVKey kv) +:+ ": " +:+ YValue (KVValue kv).

Definition sortedItemTexts (ym : option YamlMap) : list string :=
  match ym with
  | Some m => GoSlices.Sort (map itemText (Items m))
  | None => []
  end.

(** [YamlMap.IsIdentical], on pointers that may be nil. *)
Definition YamlMap_IsIdentical (ym b : option YamlMap) : bool :=
  GoSlices.Equal (sortedItemTexts ym) (sortedItemTexts b).

(** [YamlMap.GetValue]; [None] is the nil it returns for a missing key. *)
Definition GetValue (ym : YamlMap) (key : string) : option YamlNode :=
  match find (fun child => String.eqb (YValue (KVKey child)) key) (Items ym) with
  | Some child => Some (KVValue child)
  | None => None
  end.

(** The loop of [newYamlMap] over [value.Content]: the items so far, the
    last line so far, and the key that waits for its value. *)
Definition newYamlMapStep (offset : Z)
    (acc : list YamlKeyValue * Z * option yamlTree) (child : yamlTree)
  : list YamlKeyValue * Z * option yamlTree :=
  let '(items, last, ckey) := acc in
  match ckey with
  | Some k =>
      let kv := {| KVKey := newYamlNode k offset; KVValue := newYamlNode child offset |} in
      (items ++ [kv],
       if last <? Last (YLines (KVValue kv)) then Last (YLines (KVValue kv)) else last,
       None)
  | None => (items, last, Some child)
  end.

Definition newYamlMap (key value : yamlTree) (offset : Z) : YamlMap :=
  let first := GoInt.add (Line (treeFields key)) offset in
  let '(items, last, _) :=
    fold_left (newYamlMapStep offset) (treeContent value) ([], first, None) in
  {| MapKey := newYamlNode key offset;
     Items := items;
     MapLines := {| First := first; Last := last |} |}.

(** [LineRange.Expand]. [make([]int, 0, n)] panics when the capacity
    [n = lr.Last-lr.First+1], computed in [int], is negative or above what
    the runtime allocates: [maxCap] stands for the greatest capacity it
    gives, at most 2^45 on a 64-bit platform (where [maxAlloc] is 2^48
    bytes and an [int] takes 8), and no more than the memory holds. The
    loop does not end when [lr.Last] is the greatest [int]. All of these
    are [None]. *)
Fixpoint expandFrom (i : Z) (n : nat) : list Z :=
  match n with
  | O => []
  | S n' => i :: expandFrom (GoInt.add i 1) n'
  end.

Definition Expand (maxCap : Z) (lr : LineRange) : option (list Z) :=
  let cap := GoInt.add (GoInt.sub (Last lr) (First lr)) 1 in
  if (cap <? 0) || (maxCap <? cap) then None
  else if (Last lr =? maxInt64) && (First lr <=? Last lr) then None
  else Some (expandFrom (First lr) (Z.to_nat (Last lr - First lr + 1))).

Definition RuleType : Type := string.
Definition AlertingRuleType : RuleType := "alerting".
Definition RecordingRuleType : RuleType := "recording".
Definition InvalidRuleType : RuleType := "invalid".

(** [Rule.Type] *)
Definition Rule_Type (r : Rule) : RuleType :=
  match AlertingRule_ r with
  | Some _ => AlertingRuleType
  | None =>
      match RecordingRule_ r with
      | Some _ => RecordingRuleType
      | None => InvalidRuleType
      end
  end.

(** [Rule.Name] *)
Definition Rule_Name (r : Rule) : string :=
  match RecordingRule_ r with
  | Some rr => YValue (Record_ rr)
  | None =>
      match AlertingRule_ r with
      | Some ar => YValue (Alert ar)
      | None => ""
      end
  end.

End parser.

Module discovery.

Record Entry := mkEntry {
  Rule : parser.Rule;
  SourcePath : string
}.

End discovery.

Module promapi.

Record MetricTimeRange := mkMetricTimeRange {
  Fingerprint : Z;
  Labels : list (string * string);
  Start : Time;
  End_ : Time
}.

Record TimeRange := mkTimeRange {
  TStart : Time;
  TEnd : Time
}.

Record SeriesTimeRanges := mkSeriesTimeRanges {
  From : Time;
  Until : Time;
  Step : Duration;
  Ranges : list MetricTimeRange;
  Gaps : list TimeRange
}.

Record RangeQueryResult := mkRangeQueryResult {
  RURI : string;
  Series : SeriesTimeRanges
}.

(** A sample of an instant query. [Value] is the sample's float value
    after Go's conversion [int(s.Value)]. *)
Record Sample := mkSample {
  SLabels : list (string * string);
  Value : Z
}.

Record QueryResult := mkQueryResult {
  QURI : string;
  QSeries : list Sample
}.

(** [promapi.RangeQueryTimes] as built by [NewRelativeRange]. *)
Record RangeParams := mkRangeParams {
  PStart : Time;
  PEnd : Time;
  PStep : Duration
}.

(** What the check uses of a [promapi.FailoverGroup]. A query either
    fails with an error or returns a result. *)
Record FailoverGroup := mkFailoverGroup {
  Name : string;
  PublicURI : string;
  UptimeMetric : string;
  Query : string -> error + QueryResult;
  RangeQuery : string -> RangeParams -> error + RangeQueryResult
}.

End promapi.

(** ** internal/checks *)

Module checks.

Inductive Severity := Information | Warning | Bug | Fatal.

#[global] Instance Severity_eq_dec : EqDecision Severity.
Proof. solve_decision. Defined.

Record Problem := mkProblem {
  Lines : parser.LineRange;
  Reporter : string;
  Text : string;
  Details : string;
  Severity_ : Severity
}.

(** A compiled regular expression, kept as its source text. *)
Definition Regexp : Type := string.

(** Functions of other packages, which the check treats as given. *)
Record Env := mkEnv {
  (** [VectorSelector.String] of promParser *)
  selString : promParser.VectorSelector -> string;
  (** [Matcher.String] of labels *)
  matcherString : labels.Matcher -> string;
  (** [promParser.ParseMetricSelector] *)
  ParseMetricSelector : string -> error + list labels.Matcher;
  (** [model.ParseDuration] *)
  ParseDuration : string -> error + Duration;
  (** [regexp.Compile] and [Regexp.MatchString] *)
  regexpCompile : string -> error + Regexp;
  MatchString : Regexp -> string -> bool;
  (** [output.HumanizeDuration] *)
  HumanizeDuration : Duration -> string;
  (** [time.Duration.Round] *)
  DurationRound : Duration -> Duration -> Duration;
  (** [int(d.Seconds())]: the duration as a float64 number of seconds,
      converted to an integer. *)
  SecondsInt : Duration -> Z;
  (** the instant [time.Since] reads the clock at *)
  now : Time;
  (** [promText] and [textAndSeverityFromError] of the package *)
  promText : string -> string -> string;
  textAndSeverityFromError : error -> string -> string -> Severity -> string * Severity;
  (** [promapi.NewRelativeRange], [promapi.Overlaps] and
      [SeriesTimeRanges.FindGaps], the latter as the gaps it stores *)
  NewRelativeRange : Duration -> Duration -> promapi.RangeParams;
  Overlaps : promapi.MetricTimeRange -> promapi.MetricTimeRange -> Duration ->
             promapi.MetricTimeRange * bool;
  FindGaps : promapi.SeriesTimeRanges -> promapi.SeriesTimeRanges -> Time -> Time ->
             list promapi.TimeRange
}.

(** [time] constants, in nanoseconds. *)
Definition Second : Duration := 1000000000.
Definition Minute : Duration := 60 * Second.
Definition Hour : Duration := 60 * Minute.

(** [time.Time] methods. *)
Definition Time_Add (t : Time) (d : Duration) : Time := t + d.
Definition Time_After (t u : Time) : bool := u <? t.
Definition Time_Before (t u : Time) : bool := t <? u.
Definition Time_IsZero (t : Time) : bool := t =? 0.

(** [t.Sub(u)] saturates at the bounds of [Duration]. *)
Definition Time_Sub (t u : Time) : Duration :=
  Z.max minInt64 (Z.min maxInt64 (t - u)).

Record PromqlSeriesSettings := mkSettings {
  LookbackRange : string;
  LookbackStep : string;
  IgnoreMetrics : list string;
  ignoreMetricsRe : list Regexp;
  lookbackRangeDuration : Duration;
  lookbackStepDuration : Duration
}.

Definition emptySettings : PromqlSeriesSettings :=
  mkSettings "" "" [] [] 0 0.

Definition SeriesCheckName : string := "promql/series".

Definition SeriesCheckRuleDetails : string :=
  "This usually means that you're deploying a set of rules where one is using the metric produced by another rule." +:+ nl +:+
  "To avoid false positives pint won't run series checks here but that doesn't guarantee that there are no problems here." +:+ nl +:+
  "To fully validate your changes it's best to first deploy the rules that generate the time series needed by other rules." +:+ nl +:+
  "[Click here](https://cloudflare.github.io/pint/checks/promql/series.html#your-query-is-using-recording-rules) for more details." +:+ nl.

Definition SeriesCheckCommonProblemDetails : string :=
  "[Click here](https://cloudflare.github.io/pint/checks/promql/series.html#common-problems) to see a list of common problems that might cause this.".

Definition SeriesCheckMinAgeDetails : string :=
  "You have a comment that tells pint how long can a metric be missing before it warns you about it but this comment is not formatted correctly." +:+ nl +:+
  "[Click here](https://cloudflare.github.io/pint/checks/promql/series.html#min-age) to see supported syntax.".

(** The check's view of [context.Context]: its settings and the list
    stored under [promapi.AllPrometheusServers]. *)
Record Context := mkContext {
  ctxSettings : option PromqlSeriesSettings;
  ctxServers : option (list promapi.FailoverGroup)
}.

(** A request sent to a server, by the server's name. *)
Inductive Request :=
| InstantQuery (server query : string)
| RangeQuery (server query : string).

#[global] Instance Request_eq_dec : EqDecision Request.
Proof. solve_decision. Defined.

(** The state [Check] threads through its loop: the problems appended so
    far, and the requests issued so far. *)
Record State := mkState {
  problems : list Problem;
  requests : list Request
}.

Definition emit (p : Problem) (st : State) : State :=
  mkState (problems st ++ [p]) (requests st).

Definition emitAll (ps : list Problem) (st : State) : State :=
  mkState (problems st ++ ps) (requests st).

Definition request (r : Request) (st : State) : State :=
  mkState (problems st) (requests st ++ [r]).

Section SeriesCheck.

(** The environment and the receiver [c SeriesCheck] with its field
    [c.prom]. *)
Variable E : Env.
Variable prom : promapi.FailoverGroup.

(** [PromqlSeriesSettings.Validate]: the settings as the method leaves
    them, and the error it returns. *)
Fixpoint compileIgnoreMetrics (res : list string) (acc : list Regexp)
  : list Regexp * option error :=
  match res with
  | [] => (acc, None)
  | re :: rest =>
      match regexpCompile E ("^" +:+ re +:+ "$") with
      | inl err => (acc, Some err)
      | inr r => compileIgnoreMetrics rest (acc ++ [r])
      end
  end.

Definition Validate (c : PromqlSeriesSettings) : PromqlSeriesSettings * option error :=
  let '(res, err) := compileIgnoreMetrics (IgnoreMetrics c) (ignoreMetricsRe c) in
  let c1 := mkSettings (LookbackRange c) (LookbackStep c) (IgnoreMetrics c) res
              (lookbackRangeDuration c) (lookbackStepDuration c) in
  match err with
  | Some e => (c1, Some e)
  | None =>
      let c2 := mkSettings (LookbackRange c) (LookbackStep c) (IgnoreMetrics c) res
                  (GoInt.mul (GoInt.mul Hour 24) 7) (lookbackStepDuration c) in
      match (if String.eqb (LookbackRange c) "" then inr (lookbackRangeDuration c2)
             else ParseDuration E (LookbackRange c)) with
      | inl e => (c2, Some e)
      | inr range =>
          let c3 := mkSettings (LookbackRange c) (LookbackStep c) (IgnoreMetrics c) res
                      range (GoInt.mul Minute 5) in
          match (if String.eqb (LookbackStep c) "" then inr (lookbackStepDuration c3)
                 else ParseDuration E (LookbackStep c)) with
          | inl e => (c3, Some e)
          | inr step =>
              (mkSettings (LookbackRange c) (LookbackStep c) (IgnoreMetrics c) res
                 range step, None)
          end
      end
  end.

Definition Reporter_ : string := SeriesCheckName.

(** ** Helpers of the check *)

Definition stripLabels (selector : promParser.VectorSelector) : promParser.VectorSelector :=
  fold_left
    (fun s lm =>
       if String.eqb (labels.Name lm) labels.MetricName
       then promParser.mkVectorSelector
              (if decide (labels.Type_ lm = labels.MatchEqual)
               then labels.Value lm else promParser.Name s)
              (promParser.Offset s)
              (promParser.LabelMatchers s ++ [lm])
       else s)
    (promParser.LabelMatchers selector)
    (promParser.mkVectorSelector (promParser.Name selector) 0 []).

Fixpoint getSelectors (n : parser.PromQLNode) : list promParser.VectorSelector :=
  match n with
  | parser.mkPromQLNode _ node children =>
      match node with
      | promParser.VectorSelectorExpr vs =>
          [promParser.mkVectorSelector (promParser.Name vs) 0 (promParser.LabelMatchers vs)]
      | promParser.OtherExpr => []
      end ++ flat_map getSelectors children
  end.

Definition matcherEq (s l : labels.Matcher) : bool :=
  bool_decide (labels.Type_ s = labels.Type_ l)
  && String.eqb (labels.Name s) (labels.Name l)
  && String.eqb (labels.Value s) (labels.Value l).

Fixpoint isDisabledBy (disables : list string) (selector : promParser.VectorSelector) : bool :=
  match disables with
  | [] => false
  | m :: rest =>
      if HasPrefix m (SeriesCheckName +:+ "(") && HasSuffix m ")"
      then
        let cs := TrimSuffix (TrimPrefix m (SeriesCheckName +:+ "(")) ")" in
        if String.eqb cs (selString E selector) || String.eqb cs (promParser.Name selector)
        then true
        else match ParseMetricSelector E cs with
             | inl _ => isDisabledBy rest selector
             | inr ms =>
                 if forallb (fun l => existsb (fun s => matcherEq s l)
                                        (promParser.LabelMatchers selector)) ms
                 then true
                 else isDisabledBy rest selector
             end
      else isDisabledBy rest selector
  end.

Definition isDisabled (rule : parser.Rule) (selector : promParser.VectorSelector) : bool :=
  isDisabledBy (comments.OnlyDisable (parser.Comments rule)) selector.

Definition sinceDesc (t : Time) : string :=
  let dur := Time_Sub (now E) t in
  if GoInt.mul Hour 24 <? dur
  then HumanizeDuration E (DurationRound E dur Hour)
  else HumanizeDuration E (DurationRound E dur Minute).

Definition avgLife (ranges : list promapi.MetricTimeRange) : Duration :=
  let d := fold_left
             (fun d r => GoInt.add d (GoInt.add (Time_Sub (promapi.End_ r) (promapi.Start r)) Second))
             ranges 0 in
  if Nat.eqb (length ranges) 0 then 0
  else GoInt.mul Second (GoInt.div (SecondsInt E d) (Z.of_nat (length ranges))).

Definition oldest (ranges : list promapi.MetricTimeRange) : Time :=
  fold_left
    (fun ts r => if Time_IsZero ts || Time_Before (promapi.Start r) ts
                 then promapi.Start r else ts)
    ranges 0.

Definition newest (ranges : list promapi.MetricTimeRange) : Time :=
  fold_left
    (fun ts r => if Time_IsZero ts || Time_After (promapi.End_ r) ts
                 then promapi.End_ r else ts)
    ranges 0.

Definition addNameSelectorIfNeeded (selector : promParser.VectorSelector)
    (matchers : list labels.Matcher) : promParser.VectorSelector :=
  if negb (String.eqb (promParser.Name selector) "") then selector
  else if existsb (fun lm => String.eqb (labels.Name lm) labels.MetricName)
            (promParser.LabelMatchers selector)
  then selector
  else promParser.mkVectorSelector (promParser.Name selector) (promParser.Offset selector)
         (promParser.LabelMatchers selector ++
          filter (fun lm => labels.Name lm = labels.MetricName) matchers).

Definition textAndSeverity (settings : PromqlSeriesSettings) (name text : string)
    (s : Severity) : string * Severity :=
  match find (fun re => negb (String.eqb name "") && MatchString E re name)
             (ignoreMetricsRe settings) with
  | Some re =>
      (text +:+ " Metric name `" +:+ name +:+ "` matches `" +:+ Reporter_ +:+
       "` check ignore regexp `" +:+ re +:+ "`.", Warning)
  | None => (text, s)
  end.

Definition queryProblem (err : error) (expr : parser.PromQLExpr) : Problem :=
  let '(text, severity) :=
    textAndSeverityFromError E err Reporter_ (promapi.Name prom) Bug in
  mkProblem (parser.YLines (parser.EValue expr)) Reporter_ text "" severity.

Definition sumSamples (series : list promapi.Sample) : Z :=
  fold_left (fun n s => GoInt.add n (promapi.Value s)) series 0.

Definition instantSeriesCount (query : string) (st : State)
  : (error + Z * string) * State :=
  let st := request (InstantQuery (promapi.Name prom) query) st in
  match promapi.Query prom query with
  | inl err => (inl err, st)
  | inr qr => (inr (sumSamples (promapi.QSeries qr), promapi.QURI qr), st)
  end.

Definition getMinAge (rule : parser.Rule) (selector : promParser.VectorSelector)
  : Duration * list Problem :=
  let bareSelector := stripLabels selector in
  let prefixes :=
    [ Reporter_ +:+ " min-age ";
      Reporter_ +:+ "(" +:+ selString E bareSelector +:+ ") min-age ";
      Reporter_ +:+ "(" +:+ selString E selector +:+ ") min-age " ] in
  fold_left
    (fun acc ruleSet =>
       fold_left
         (fun acc pfx =>
            if HasPrefix ruleSet pfx
            then match ParseDuration E (TrimPrefix ruleSet pfx) with
                 | inl err =>
                     (fst acc,
                      snd acc ++
                      [mkProblem (parser.Lines rule) Reporter_
                         ("Failed to parse pint comment as duration: " +:+ err)
                         SeriesCheckMinAgeDetails Warning])
                 | inr dur => (dur, snd acc)
                 end
            else acc)
         prefixes acc)
    (comments.OnlyRuleSet (parser.Comments rule))
    (GoInt.mul Hour 2, []).

Definition isLabelValueIgnored (rule : parser.Rule) (selector : promParser.VectorSelector)
    (labelName : string) : bool :=
  let bareSelector := stripLabels selector in
  let values :=
    [ Reporter_ +:+ " ignore/label-value " +:+ labelName;
      Reporter_ +:+ "(" +:+ selString E bareSelector +:+ ") ignore/label-value " +:+ labelName;
      Reporter_ +:+ "(" +:+ selString E selector +:+ ") ignore/label-value " +:+ labelName ] in
  existsb (fun ruleSet => existsb (fun val => String.eqb ruleSet val) values)
    (comments.OnlyRuleSet (parser.Comments rule)).

(** [checkOtherServer]: the text for the details, and the requests sent
    to the other servers. *)
Definition checkOtherServer (ctx : Context) (query : string) (st : State) : string * State :=
  match ctxServers ctx with
  | None | Some [] => (SeriesCheckCommonProblemDetails, st)
  | Some servers =>
      let buf0 := "`" +:+ query +:+ "` was found on other prometheus servers:" +:+ nl +:+ nl in
      let '(buf, matches, st) :=
        fold_left
          (fun '(buf, matches, st) p =>
             let q := "count(" +:+ query +:+ ")" in
             let st := request (InstantQuery (promapi.Name p) q) st in
             match promapi.Query p q with
             | inl _ => (buf, matches, st)
             | inr qr =>
                 if 0 <? sumSamples (promapi.QSeries qr)
                 then (buf +:+ "- [" +:+ promapi.Name p +:+ "](" +:+ promapi.PublicURI p +:+
                       "/graph?g0.expr=" +:+ query +:+ ")" +:+ nl,
                       GoInt.add matches 1, st)
                 else (buf, matches, st)
             end)
          servers (buf0, 0, st) in
      let buf := buf +:+ nl +:+
        "You might be trying to deploy this rule to the wrong Prometheus server instance." +:+ nl in
      if 0 <? matches then (buf, st) else (SeriesCheckCommonProblemDetails, st)
  end.

(** ** The body of the loop of [Check], step by step *)

(** The metric a selector names: its [Name], or else the value of its
    first equality matcher on [__name__]. *)
Definition metricNameOf (selector : promParser.VectorSelector) : string :=
  if String.eqb (promParser.Name selector) ""
  then match find (fun lm => String.eqb (labels.Name lm) labels.MetricName
                             && bool_decide (labels.Type_ lm = labels.MatchEqual))
                  (promParser.LabelMatchers selector) with
       | Some lm => labels.Value lm
       | None => ""
       end
  else promParser.Name selector.

Definition isAlertsMetric (metricName : string) : bool :=
  String.eqb metricName "ALERTS" || String.eqb metricName "ALERTS_FOR_STATE".

(** The loop over the matchers in step 0: every matcher on [alertname]
    that is not a regexp matcher overwrites the value found before. *)
Definition alertnameOf (lms : list labels.Matcher) : string :=
  fold_left
    (fun alertname lm =>
       if String.eqb (labels.Name lm) "alertname"
          && negb (bool_decide (labels.Type_ lm = labels.MatchRegexp))
          && negb (bool_decide (labels.Type_ lm = labels.MatchNotRegexp))
       then labels.Value lm else alertname)
    lms "".

Definition isAlertingRuleNamed (alertname : string) (entry : discovery.Entry) : bool :=
  match parser.AlertingRule_ (discovery.Rule entry) with
  | Some ar =>
      bool_decide (parser.Err (parser.Error (discovery.Rule entry)) = None)
      && String.eqb (parser.YValue (parser.Alert ar)) alertname
  | None => false
  end.

Definition isRecordingRuleNamed (record : string) (entry : discovery.Entry) : bool :=
  match parser.RecordingRule_ (discovery.Rule entry) with
  | Some rr =>
      bool_decide (parser.Err (parser.Error (discovery.Rule entry)) = None)
      && String.eqb (parser.YValue (parser.Record_ rr)) record
  | None => false
  end.

Definition exprLines (expr : parser.PromQLExpr) : parser.LineRange :=
  parser.YLines (parser.EValue expr).

Definition alertsProblem (expr : parser.PromQLExpr) (selector : promParser.VectorSelector)
    (alertname : string) : Problem :=
  mkProblem (exprLines expr) Reporter_
    ("`" +:+ selString E selector +:+
     "` metric is generated by alerts but didn't found any rule named `" +:+
     alertname +:+ "`.")
    SeriesCheckCommonProblemDetails Bug.

(** Step 0, the special case for alert metrics. *)
Definition checkAlerts (expr : parser.PromQLExpr) (entries : list discovery.Entry)
    (selector : promParser.VectorSelector) (st : State) : State :=
  let alertname := alertnameOf (promParser.LabelMatchers selector) in
  if negb (String.eqb alertname "")
  then match find (isAlertingRuleNamed alertname) entries with
       | Some _ => st
       | None => emit (alertsProblem expr selector alertname) st
       end
  else st.

Definition labelNamesOf (lms : list labels.Matcher) : list string :=
  fold_left
    (fun labelNames lm =>
       if String.eqb (labels.Name lm) labels.MetricName then labelNames
       else if bool_decide (labels.Type_ lm = labels.MatchNotEqual)
               || bool_decide (labels.Type_ lm = labels.MatchNotRegexp) then labelNames
       else if existsb (String.eqb (labels.Name lm)) labelNames then labelNames
       else labelNames ++ [labels.Name lm])
    lms [].

Definition withGaps (s : promapi.SeriesTimeRanges) (gaps : list promapi.TimeRange)
  : promapi.SeriesTimeRanges :=
  promapi.mkSeriesTimeRanges (promapi.From s) (promapi.Until s) (promapi.Step s)
    (promapi.Ranges s) gaps.

(** [s.FindGaps(baseline, s.From, s.Until)] *)
Definition findGaps (s baseline : promapi.SeriesTimeRanges) : promapi.SeriesTimeRanges :=
  withGaps s (FindGaps E s baseline (promapi.From s) (promapi.Until s)).

Definition rangeQuery (query : string) (params : promapi.RangeParams) (st : State)
  : (error + promapi.RangeQueryResult) * State :=
  (promapi.RangeQuery prom query params,
   request (RangeQuery (promapi.Name prom) query) st).

Definition dummyUptime (params : promapi.RangeParams) : promapi.SeriesTimeRanges :=
  promapi.mkSeriesTimeRanges (promapi.PStart params) (promapi.PEnd params)
    (promapi.PStep params)
    [promapi.mkMetricTimeRange 0 [] (promapi.PStart params) (promapi.PEnd params)]
    [].

(** The uptime series of the server, or the dummy one without gaps. *)
Definition uptimeSeries (params : promapi.RangeParams) (st : State)
  : promapi.SeriesTimeRanges * State :=
  let '(r, st) := rangeQuery ("count(" +:+ promapi.UptimeMetric prom +:+ ")") params st in
  match r with
  | inl _ => (dummyUptime params, st)
  | inr promUptime =>
      if Nat.eqb (length (promapi.Ranges (promapi.Series promUptime))) 0
      then (dummyUptime params, st)
      else (promapi.Series promUptime, st)
  end.

Definition gapRange (g : promapi.TimeRange) : promapi.MetricTimeRange :=
  promapi.mkMetricTimeRange 0 [] (promapi.TStart g) (promapi.TEnd g).

Definition hasProblems (st : State) : bool :=
  negb (Nat.eqb (length (problems st)) 0).

Section Selector.

Variable ctx : Context.
Variable settings : PromqlSeriesSettings.
Variable rule : parser.Rule.
Variable entries : list discovery.Entry.
Variable expr : parser.PromQLExpr.
Variable params : promapi.RangeParams.
Variable selector : promParser.VectorSelector.

Definition providedByRuleProblem (trs : promapi.RangeQueryResult) : Problem :=
  let bareSelector := stripLabels selector in
  mkProblem (exprLines expr) Reporter_
    (promText E (promapi.Name prom) (promapi.RURI trs) +:+
     " didn't have any series for `" +:+ selString E bareSelector +:+
     "` metric in the last " +:+ sinceDesc (promapi.From (promapi.Series trs)) +:+
     " but found recording rule that generates it, skipping further checks.")
    SeriesCheckRuleDetails Information.

(** The body of the loop over [labelNames] (the required labels). *)
Definition requiredLabelStep (promUptime : promapi.SeriesTimeRanges)
    (trs : promapi.RangeQueryResult) (st : State) (name : string) : State :=
  let bareSelector := stripLabels selector in
  let l0 := stripLabels selector in
  let l := promParser.mkVectorSelector (promParser.Name l0) (promParser.Offset l0)
             (promParser.LabelMatchers l0 ++
              [labels.MustNewMatcher labels.MatchRegexp name ".+"]) in
  let '(r, st) := rangeQuery ("absent(" +:+ selString E l +:+ ")") params st in
  match r with
  | inl err => emit (queryProblem err expr) st
  | inr trsLabelCount =>
      let series := findGaps (promapi.Series trsLabelCount) promUptime in
      let isAbsentInsideSeriesRange :=
        existsb
          (fun lr => existsb (fun str => snd (Overlaps E lr str (promapi.Step series)))
                       (promapi.Ranges (promapi.Series trs)))
          (promapi.Ranges series) in
      if negb isAbsentInsideSeriesRange then st
      else if Nat.eqb (length (promapi.Ranges series)) 1
              && Nat.eqb (length (promapi.Gaps series)) 0
      then emit
             (mkProblem (exprLines expr) Reporter_
                (promText E (promapi.Name prom) (promapi.RURI trsLabelCount) +:+
                 " has `" +:+ selString E bareSelector +:+
                 "` metric but there are no series with `" +:+ name +:+
                 "` label in the last " +:+ sinceDesc (promapi.From series) +:+ ".")
                SeriesCheckCommonProblemDetails Bug)
             st
      else st
  end.

(** The body of the loop over the label matchers of the selector. [trs]
    is the result for the base metric with its gaps found. *)
Definition matcherStep (promUptime : promapi.SeriesTimeRanges)
    (trs : promapi.RangeQueryResult) (st : State) (lm : labels.Matcher) : State :=
  let bareSelector := stripLabels selector in
  let metricName := metricNameOf selector in
  if String.eqb (labels.Name lm) labels.MetricName then st
  else if negb (bool_decide (labels.Type_ lm = labels.MatchEqual))
          && negb (bool_decide (labels.Type_ lm = labels.MatchRegexp)) then st
  else if isLabelValueIgnored rule selector (labels.Name lm) then st
  else
    let labelSelector :=
      addNameSelectorIfNeeded (promParser.mkVectorSelector metricName 0 [lm])
        (promParser.LabelMatchers selector) in
    let '(r, st) := rangeQuery ("count(" +:+ selString E labelSelector +:+ ")") params st in
    match r with
    | inl err => emit (queryProblem err expr) st
    | inr trsLabel =>
        let series := findGaps (promapi.Series trsLabel) promUptime in
        if Nat.eqb (length (promapi.Ranges series)) 0
        then
          let '(text, severity) :=
            textAndSeverity settings (selString E bareSelector)
              (promText E (promapi.Name prom) (promapi.RURI trsLabel) +:+
               " has `" +:+ selString E bareSelector +:+ "` metric with `" +:+
               labels.Name lm +:+ "` label but there are no series matching `{" +:+
               matcherString E lm +:+ "}` in the last " +:+
               sinceDesc (promapi.From (promapi.Series trs)) +:+ ".")
              Bug in
          emit (mkProblem (exprLines expr) Reporter_ text
                  SeriesCheckCommonProblemDetails severity) st
        else if Nat.eqb (length (promapi.Ranges series)) 1
                && negb (Time_After (oldest (promapi.Ranges series))
                           (Time_Add
                              (Time_Add (promapi.Until series)
                                 (GoInt.sub (lookbackRangeDuration settings) 1))
                              (lookbackStepDuration settings)))
                && Time_Before (newest (promapi.Ranges series))
                     (Time_Add (promapi.Until series)
                        (GoInt.mul (lookbackStepDuration settings) (-1)))
        then
          let labelGapOutsideBaseGaps :=
            existsb
              (fun lg =>
                 negb (existsb
                         (fun bg => snd (Overlaps E (gapRange lg) (gapRange bg)
                                           (promapi.Step (promapi.Series trs))))
                         (promapi.Gaps (promapi.Series trs))))
              (promapi.Gaps series) in
          if negb labelGapOutsideBaseGaps then st
          else
            let '(minAge, p) := getMinAge rule selector in
            let st := emitAll p st in
            if negb (Time_Before (newest (promapi.Ranges series))
                       (Time_Add (promapi.Until series) (GoInt.mul minAge (-1))))
            then st
            else
              let '(text, severity) :=
                textAndSeverity settings (selString E bareSelector)
                  (promText E (promapi.Name prom) (promapi.RURI trs) +:+
                   " has `" +:+ selString E bareSelector +:+
                   "` metric but doesn't currently have series matching `{" +:+
                   matcherString E lm +:+ "}`, such series was last present " +:+
                   sinceDesc (newest (promapi.Ranges series)) +:+ " ago.")
                  Bug in
              emit (mkProblem (exprLines expr) Reporter_ text
                      SeriesCheckCommonProblemDetails severity) st
        else if (1 <? length (promapi.Ranges series))%nat
                && (0 <? length (promapi.Gaps series))%nat
        then emit
               (mkProblem (exprLines expr) Reporter_
                  ("Metric `" +:+ selString E bareSelector +:+ "` with label `{" +:+
                   matcherString E lm +:+ "}` is only sometimes present on " +:+
                   promText E (promapi.Name prom) (promapi.RURI trs) +:+
                   " with average life span of " +:+
                   HumanizeDuration E (avgLife (promapi.Ranges series)) +:+ ".")
                  SeriesCheckCommonProblemDetails Warning)
               st
        else st
    end.

End Selector.

Section Body.

Variable ctx : Context.
Variable settings : PromqlSeriesSettings.
Variable rule : parser.Rule.
Variable entries : list discovery.Entry.
Variable expr : parser.PromQLExpr.
Variable params : promapi.RangeParams.

(** Steps 3 to 7 for a base metric that has series in its history:
    everything after the [if len(trs.Series.Ranges) == 0] block. [trs] has
    its gaps found. *)
Definition checkHistory (selector : promParser.VectorSelector)
    (promUptime : promapi.SeriesTimeRanges) (trs : promapi.RangeQueryResult)
    (st : State) : State :=
  let bareSelector := stripLabels selector in
  let ranges := promapi.Ranges (promapi.Series trs) in
  let st := fold_left (requiredLabelStep expr params selector promUptime trs)
              (labelNamesOf (promParser.LabelMatchers selector)) st in
  if hasProblems st then st
  else if Nat.eqb (length ranges) 1
          && negb (Time_After (oldest ranges)
                     (Time_Add (promapi.From (promapi.Series trs))
                        (lookbackStepDuration settings)))
          && Time_Before (newest ranges)
               (Time_Add (promapi.Until (promapi.Series trs))
                  (GoInt.mul (lookbackStepDuration settings) (-1)))
  then
    let '(minAge, p) := getMinAge rule selector in
    let st := emitAll p st in
    if negb (Time_Before (newest ranges)
               (Time_Add (promapi.Until (promapi.Series trs)) (GoInt.mul minAge (-1))))
    then st
    else
      let '(text, severity) :=
        textAndSeverity settings (selString E bareSelector)
          (promText E (promapi.Name prom) (promapi.RURI trs) +:+
           " doesn't currently have `" +:+ selString E bareSelector +:+
           "`, it was last present " +:+ sinceDesc (newest ranges) +:+ " ago.")
          Bug in
      emit (mkProblem (exprLines expr) Reporter_ text
              SeriesCheckCommonProblemDetails severity) st
  else
    let st := fold_left (matcherStep settings rule expr params selector promUptime trs)
                (promParser.LabelMatchers selector) st in
    if hasProblems st then st
    else if (0 <? length ranges)%nat
            && (0 <? length (promapi.Gaps (promapi.Series trs)))%nat
    then emit
           (mkProblem (exprLines expr) Reporter_
              ("Metric `" +:+ selString E bareSelector +:+
               "` is only sometimes present on " +:+
               promText E (promapi.Name prom) (promapi.RURI trs) +:+
               " with average life span of " +:+
               HumanizeDuration E (avgLife ranges) +:+ " in the last " +:+
               sinceDesc (promapi.From (promapi.Series trs)) +:+ ".")
              SeriesCheckCommonProblemDetails Warning)
           st
    else st.

(** The base metric has no series at all: a recording rule among the
    entries explains it, or else it is reported. *)
Definition checkNoHistory (selector : promParser.VectorSelector)
    (trs : promapi.RangeQueryResult) (st : State) : State :=
  let bareSelector := stripLabels selector in
  match find (isRecordingRuleNamed (selString E bareSelector)) entries with
  | Some _ => emit (providedByRuleProblem expr selector trs) st
  | None =>
      let '(text, severity) :=
        textAndSeverity settings (selString E bareSelector)
          (promText E (promapi.Name prom) (promapi.RURI trs) +:+
           " didn't have any series for `" +:+ selString E bareSelector +:+
           "` metric in the last " +:+
           sinceDesc (promapi.From (promapi.Series trs)) +:+ ".")
          Bug in
      let '(details, st) := checkOtherServer ctx (selString E selector) st in
      emit (mkProblem (exprLines expr) Reporter_ text details severity) st
  end.

(** The queries of a selector that is not an alert metric: everything
    from the comment [1. If foo{bar, baz} is there] on. *)
Definition checkSeries (selector : promParser.VectorSelector) (st : State) : State :=
  let '(r, st) := instantSeriesCount ("count(" +:+ selString E selector +:+ ")") st in
  match r with
  | inl err => emit (queryProblem err expr) st
  | inr (count, _) =>
      if 0 <? count then st
      else
        let '(promUptime, st) := uptimeSeries params st in
        let bareSelector := stripLabels selector in
        let '(r, st) := rangeQuery ("count(" +:+ selString E bareSelector +:+ ")") params st in
        match r with
        | inl err => emit (queryProblem err expr) st
        | inr trs0 =>
            let trs := promapi.mkRangeQueryResult (promapi.RURI trs0)
                         (findGaps (promapi.Series trs0) promUptime) in
            if Nat.eqb (length (promapi.Ranges (promapi.Series trs))) 0
            then checkNoHistory selector trs st
            else checkHistory selector promUptime trs st
        end
  end.

(** The loop body for a selector that is new and not disabled. *)
Definition checkSelector (selector : promParser.VectorSelector) (st : State) : State :=
  if isAlertsMetric (metricNameOf selector)
  then checkAlerts expr entries selector st
  else checkSeries selector st.

(** The loop of [Check] over the selectors of the expression, with the
    map [done] of the selectors seen. *)
Fixpoint checkSelectors (selectors : list promParser.VectorSelector)
    (done : gmap string bool) (st : State) : State :=
  match selectors with
  | [] => st
  | selector :: rest =>
      match done !! selString E selector with
      | Some _ => checkSelectors rest done st
      | None =>
          let done := <[selString E selector := true]> done in
          if isDisabled rule selector
          then checkSelectors rest (<[selString E selector := true]> done) st
          else checkSelectors rest done (checkSelector selector st)
      end
  end.

End Body.

Definition settingsOf (ctx : Context) : PromqlSeriesSettings :=
  match ctxSettings ctx with
  | Some s => s
  | None => fst (Validate emptySettings)
  end.

(** [SeriesCheck.Check]: the problems it returns and the requests it has
    sent; [None] when it dereferences a nil pointer (a rule that is neither
    alerting nor recording, an expression without error and without
    query). *)
Definition Check (ctx : Context) (rule : parser.Rule) (entries : list discovery.Entry)
  : option State :=
  let settings := settingsOf ctx in
  match parser.Rule_Expr rule with
  | None => None
  | Some expr =>
      match parser.SyntaxError expr with
      | Some _ => Some (mkState [] [])
      | None =>
          let params := NewRelativeRange E (lookbackRangeDuration settings)
                          (lookbackStepDuration settings) in
          match parser.Query expr with
          | None => None
          | Some q =>
              Some (checkSelectors ctx settings rule entries expr params
                      (getSelectors q) ∅ (mkState [] []))
          end
      end
  end.

End SeriesCheck.

End checks.

(** ** A scripted server and environment

    The tests of the check substitute a scripted server that answers
    queries from a table. [Fixture] does the same: a printer for selectors
    in the concrete syntax of PromQL, a clock, and servers given by their
    tables. *)

Module Fixture.

Import checks.

Definition dq : string := String (ascii_of_nat 34) EmptyString.

Definition opString (t : labels.MatchType) : string :=
  match t with
  | labels.MatchEqual => "="
  | labels.MatchNotEqual => "!="
  | labels.MatchRegexp => "=~"
  | labels.MatchNotRegexp => "!~"
  end.

Definition matcherString (m : labels.Matcher) : string :=
  labels.Name m +:+ opString (labels.Type_ m) +:+ dq +:+ labels.Value m +:+ dq.

Fixpoint join (sep : string) (l : list string) : string :=
  match l with
  | [] => ""
  | [x] => x
  | x :: rest => x +:+ sep +:+ join sep rest
  end.

(** A selector printed as [name{matchers}], without the matcher that
    repeats the name. *)
Definition selString (vs : promParser.VectorSelector) : string :=
  let shown :=
    List.filter
      (fun m => negb (String.eqb (labels.Name m) labels.MetricName
                      && bool_decide (labels.Type_ m = labels.MatchEqual)
                      && String.eqb (labels.Value m) (promParser.Name vs)))
      (promParser.LabelMatchers vs) in
  match shown with
  | [] => promParser.Name vs
  | _ => promParser.Name vs +:+ "{" +:+ join "," (map matcherString shown) +:+ "}"
  end.

Definition Day : Duration := 24 * Hour.

(** The clock, in nanoseconds since Go's zero time (a day of 2024). *)
Definition now : Time := 63839664000 * Second.

Definition ParseDuration (s : string) : error + Duration :=
  if String.eqb s "1h" then inr Hour
  else if String.eqb s "2h" then inr (2 * Hour)
  else if String.eqb s "1d" then inr Day
  else inl ("not a valid duration string: " +:+ s).

Definition HumanizeDuration (d : Duration) : string :=
  if d =? 7 * Day then "1w"
  else if d =? 4 * Day then "4d"
  else if d =? 3 * Day then "3d"
  else if d =? Day then "1d"
  else "some time".

(** Rounding to the nearest multiple of [m], halves away from zero. *)
Definition DurationRound (d m : Duration) : Duration :=
  if m <=? 0 then d
  else if 0 <=? d then m * ((d + m / 2) / m)
  else - (m * ((- d + m / 2) / m)).

(** Two ranges overlap when they are less than a step apart; the result
    is their cover. *)
Definition Overlaps (a b : promapi.MetricTimeRange) (step : Duration)
  : promapi.MetricTimeRange * bool :=
  if (promapi.Start a <=? promapi.End_ b + step)
     && (promapi.Start b <=? promapi.End_ a + step)
  then (promapi.mkMetricTimeRange (promapi.Fingerprint a) (promapi.Labels a)
          (Z.min (promapi.Start a) (promapi.Start b))
          (Z.max (promapi.End_ a) (promapi.End_ b)), true)
  else (promapi.mkMetricTimeRange 0 [] 0 0, false).

(** The gaps of ranges sorted by their start, for a baseline that covers
    the whole window: the stretches of at least a step between [from],
    the ranges and [until]. *)
Fixpoint gapsFrom (ranges : list promapi.MetricTimeRange) (cursor until : Time)
    (step : Duration) : list promapi.TimeRange :=
  match ranges with
  | [] => if cursor + step <=? until then [promapi.mkTimeRange cursor until] else []
  | r :: rest =>
      (if cursor + step <=? promapi.Start r
       then [promapi.mkTimeRange cursor (promapi.Start r)] else [])
      ++ gapsFrom rest (Z.max cursor (promapi.End_ r)) until step
  end.

Definition FindGaps (s baseline : promapi.SeriesTimeRanges) (from until : Time)
  : list promapi.TimeRange :=
  gapsFrom (promapi.Ranges s) from until (promapi.Step s).

Definition env : Env :=
  {| checks.selString := selString;
     checks.matcherString := matcherString;
     checks.ParseMetricSelector := fun _ => inl "unsupported";
     checks.ParseDuration := ParseDuration;
     checks.regexpCompile := fun re => inr re;
     checks.MatchString := fun re name => String.eqb re ("^" +:+ name +:+ "$");
     checks.HumanizeDuration := HumanizeDuration;
     checks.DurationRound := DurationRound;
     checks.SecondsInt := fun d => Z.quot d Second;
     checks.now := now;
     checks.promText := fun name uri => "`" +:+ name +:+ "` Prometheus server at " +:+ uri;
     checks.textAndSeverityFromError :=
       fun err reporter name s =>
         ("Couldn't run " +:+ dq +:+ reporter +:+ dq +:+ " checks due to `" +:+ name +:+
          "` connection error: " +:+ err, s);
     checks.NewRelativeRange :=
       fun range step => promapi.mkRangeParams (now - range) now step;
     checks.Overlaps := Overlaps;
     checks.FindGaps := FindGaps |}.

(** A server answering from two tables; a query that is in neither has
    an empty result. *)
Definition server (name : string) (instant : list (string * Z))
    (history : list (string * list (Time * Time))) : promapi.FailoverGroup :=
  {| promapi.Name := name;
     promapi.PublicURI := "http://" +:+ name;
     promapi.UptimeMetric := "up";
     promapi.Query := fun q =>
       inr (promapi.mkQueryResult ("http://" +:+ name)
              match List.find (fun e => String.eqb (fst e) q) instant with
              | Some e => [promapi.mkSample [] (snd e)]
              | None => []
              end);
     promapi.RangeQuery := fun q p =>
       inr (promapi.mkRangeQueryResult ("http://" +:+ name)
              (promapi.mkSeriesTimeRanges (promapi.PStart p) (promapi.PEnd p)
                 (promapi.PStep p)
                 match List.find (fun e => String.eqb (fst e) q) history with
                 | Some e => map (fun r => promapi.mkMetricTimeRange 0 [] (fst r) (snd r)) (snd e)
                 | None => []
                 end
                 [])) |}.

Definition selectorOf (name : string) (matchers : list labels.Matcher)
  : promParser.VectorSelector :=
  promParser.mkVectorSelector name 0
    (matchers ++ [labels.mkMatcher labels.MatchEqual labels.MetricName name]).

Definition leaf (text : string) (vs : promParser.VectorSelector) : parser.PromQLNode :=
  parser.mkPromQLNode text (promParser.VectorSelectorExpr vs) [].

Definition exprOf (text : string) (q : parser.PromQLNode) : parser.PromQLExpr :=
  parser.mkPromQLExpr (parser.mkYamlNodeV text (parser.mkLineRange 2 2)) None (Some q).

Definition noError : parser.ParseError := parser.mkParseError None "" 0.

Definition recordingRule (record : string) (e : parser.PromQLExpr)
    (cs : list comments.Comment) : parser.Rule :=
  parser.mkRule None
    (Some (parser.mkRecordingRule e None
             (parser.mkYamlNodeV record (parser.mkLineRange 1 1))))
    noError cs (parser.mkLineRange 1 2).

Definition alertingRule (alert : string) (e : parser.PromQLExpr)
    (cs : list comments.Comment) : parser.Rule :=
  parser.mkRule
    (Some (parser.mkAlertingRule e None None None None
             (parser.mkYamlNodeV alert (parser.mkLineRange 1 1))))
    None noError cs (parser.mkLineRange 1 2).

Definition noContext : Context := mkContext None None.

End Fixture.

(** ** Scenarios

    Rules and servers in the manner of the tests of the check, over a
    window of a week that ends at the clock of [Fixture]. *)

Module Scenarios.

Import checks Fixture.

Definition windowStart : Time := now - 7 * Day.

Definition settings : PromqlSeriesSettings := settingsOf env noContext.

Definition params : promapi.RangeParams :=
  checks.NewRelativeRange env (lookbackRangeDuration settings) (lookbackStepDuration settings).

Definition noState : State := mkState [] [].

Definition foo : promParser.VectorSelector := selectorOf "foo" [].
Definition bar : promParser.VectorSelector := selectorOf "bar" [].

Definition fooExpr : parser.PromQLExpr := exprOf "foo" (leaf "foo" foo).

(** [foo] has a series now. *)
Definition promPresent : promapi.FailoverGroup := server "prom" [("count(foo)", 1)] [].

(** Nothing was ever there. *)
Definition promEmpty : promapi.FailoverGroup := server "prom" [] [].

(** A sibling rule that records [foo]. *)
Definition fooRecorded : discovery.Entry :=
  discovery.mkEntry (recordingRule "foo" (exprOf "sum(bar)" (leaf "bar" bar)) []) "rules.yml".

(** [ALERTS{alertname="Missing"}] *)
Definition alertsMissing : promParser.VectorSelector :=
  selectorOf "ALERTS" [labels.mkMatcher labels.MatchEqual "alertname" "Missing"].

(** [ALERTS{alertname=""}] *)
Definition alertsUnnamed : promParser.VectorSelector :=
  selectorOf "ALERTS" [labels.mkMatcher labels.MatchEqual "alertname" ""].

Definition fooRule : parser.Rule := recordingRule "sum" fooExpr [].

Definition alertsMissingExpr : parser.PromQLExpr :=
  exprOf "ALERTS{alertname=Missing}" (leaf "ALERTS{alertname=Missing}" alertsMissing).

Definition alertsMissingProblem : Problem :=
  mkProblem (parser.mkLineRange 2 2) "promql/series"
    ("`" +:+ selString alertsMissing +:+
     "` metric is generated by alerts but didn't found any rule named `Missing`.")
    SeriesCheckCommonProblemDetails Bug.

Definition alertsUnnamedRule : parser.Rule :=
  recordingRule "sum"
    (exprOf "ALERTS{alertname=}" (leaf "ALERTS{alertname=}" alertsUnnamed)) [].

(** A rule whose expression did not parse. *)
Definition brokenRule : parser.Rule :=
  recordingRule "foo"
    (parser.mkPromQLExpr (parser.mkYamlNodeV "sum(foo) without(" (parser.mkLineRange 2 2))
       (Some "unclosed left parenthesis") None)
    [].

(** [foo] was never there; [bar] was there on the first day and on the
    fourth and fifth day of the week. *)
Definition promBarSometimes : promapi.FailoverGroup :=
  server "prom" []
    [("count(bar)", [(windowStart, windowStart + Day);
                     (windowStart + 3 * Day, windowStart + 5 * Day)])].

Definition fooPlusBar : parser.Rule :=
  recordingRule "sum" (exprOf "foo + bar"
    (parser.mkPromQLNode "foo + bar" promParser.OtherExpr [leaf "foo" foo; leaf "bar" bar])) [].

Definition barPlusFoo : parser.Rule :=
  recordingRule "sum" (exprOf "bar + foo"
    (parser.mkPromQLNode "bar + foo" promParser.OtherExpr [leaf "bar" bar; leaf "foo" foo])) [].

Definition fooNeverThere : Problem :=
  mkProblem (parser.mkLineRange 2 2) "promql/series"
    "`prom` Prometheus server at http://prom didn't have any series for `foo` metric in the last 1w."
    SeriesCheckCommonProblemDetails Bug.

Definition barSometimesThere : Problem :=
  mkProblem (parser.mkLineRange 2 2) "promql/series"
    "Metric `bar` is only sometimes present on `prom` Prometheus server at http://prom with average life span of some time in the last 1w."
    SeriesCheckCommonProblemDetails Warning.

(** [foo{job="x"}], on a server where [foo] was there all week and its
    series with [job="x"] only on the fourth day. *)
Definition jobX : labels.Matcher := labels.mkMatcher labels.MatchEqual "job" "x".

Definition fooJobX : promParser.VectorSelector := selectorOf "foo" [jobX].

Definition promJobXFourthDay : promapi.FailoverGroup :=
  server "prom" []
    [("count(foo)", [(windowStart, now)]);
     ("count(" +:+ selString fooJobX +:+ ")",
      [(windowStart + 3 * Day, windowStart + 4 * Day)])].

Definition fooJobXRule : parser.Rule :=
  recordingRule "sum" (exprOf "foo{job=x}" (leaf "foo{job=x}" fooJobX)) [].

Definition jobXDisappeared : Problem :=
  mkProblem (parser.mkLineRange 2 2) "promql/series"
    ("`prom` Prometheus server at http://prom has `foo` metric but doesn't currently have series matching `{" +:+
     matcherString jobX +:+ "}`, such series was last present 3d ago.")
    SeriesCheckCommonProblemDetails Bug.

Definition alertsMissingRule : parser.Rule := recordingRule "sum" alertsMissingExpr [].

(** A server that cannot be reached, and one that answers instant
    queries and fails range queries. *)
Definition promDown : promapi.FailoverGroup :=
  {| promapi.Name := "prom";
     promapi.PublicURI := "http://prom";
     promapi.UptimeMetric := "up";
     promapi.Query := fun _ => inl "connection refused";
     promapi.RangeQuery := fun _ _ => inl "connection refused" |}.

Definition promRangeDown : promapi.FailoverGroup :=
  {| promapi.Name := "prom";
     promapi.PublicURI := "http://prom";
     promapi.UptimeMetric := "up";
     promapi.Query := fun _ => inr (promapi.mkQueryResult "http://prom" []);
     promapi.RangeQuery := fun _ _ => inl "timeout" |}.

(** Rules with comments for the check. *)
Definition fooDisabledRule : parser.Rule :=
  recordingRule "sum" fooExpr [comments.DisableComment "promql/series(foo)"].

Definition checkDisabledRule : parser.Rule :=
  recordingRule "sum" fooExpr [comments.DisableComment "promql/series"].

Definition jobIgnoredRule : parser.Rule :=
  recordingRule "sum" (exprOf "foo{job=x}" (leaf "foo{job=x}" fooJobX))
    [comments.RuleSetComment "promql/series ignore/label-value job"].

(** Results for a base metric: there during the first three days of the
    week, and there on the first and on the fourth day. *)
Definition firstThreeDays : promapi.RangeQueryResult :=
  promapi.mkRangeQueryResult "http://prom"
    (promapi.mkSeriesTimeRanges windowStart now (5 * Minute)
       [promapi.mkMetricTimeRange 0 [] windowStart (windowStart + 3 * Day)]
       [promapi.mkTimeRange (windowStart + 3 * Day) now]).

Definition firstAndFourthDay : promapi.RangeQueryResult :=
  promapi.mkRangeQueryResult "http://prom"
    (promapi.mkSeriesTimeRanges windowStart now (5 * Minute)
       [promapi.mkMetricTimeRange 0 [] windowStart (windowStart + Day);
        promapi.mkMetricTimeRange 0 [] (windowStart + 3 * Day) (windowStart + 4 * Day)]
       [promapi.mkTimeRange (windowStart + Day) (windowStart + 3 * Day);
        promapi.mkTimeRange (windowStart + 4 * Day) now]).

(** No series of [foo] had a [job] label during the week; and the series
    of [foo] with [job="x"] were there on the first and on the fourth
    day. *)
Definition promJobAbsent : promapi.FailoverGroup :=
  server "prom" []
    [("absent(" +:+
      selString (promParser.mkVectorSelector "foo" 0
                   [labels.mkMatcher labels.MatchEqual labels.MetricName "foo";
                    labels.mkMatcher labels.MatchRegexp "job" ".+"]) +:+ ")",
      [(windowStart, now)])].

Definition promJobXSometimes : promapi.FailoverGroup :=
  server "prom" []
    [("count(" +:+ selString fooJobX +:+ ")",
      [(windowStart, windowStart + Day);
       (windowStart + 3 * Day, windowStart + 4 * Day)])].

(** [{__name__="foo", __name__=~"f.+"}]: the metric is named by an
    equality matcher inside the braces, beside a regexp matcher on the
    name; the bare selector prints as [foo{__name__=~"f.+"}]. *)
Definition fooNamedTwice : promParser.VectorSelector :=
  promParser.mkVectorSelector "" 0
    [labels.mkMatcher labels.MatchEqual labels.MetricName "foo";
     labels.mkMatcher labels.MatchRegexp labels.MetricName "f.+"].

Definition fooNamedTwiceRule : parser.Rule :=
  recordingRule "sum"
    (exprOf "{__name__=foo, __name__=~f.+}" (leaf "{__name__=foo, __name__=~f.+}" fooNamedTwice))
    [].

End Scenarios.

(** ** Notions the properties are stated with *)

Module Notions.

(** A matcher on the metric name, and an equality matcher on it. *)
Definition isNameMatcher (lm : labels.Matcher) : bool :=
  String.eqb (labels.Name lm) labels.MetricName.

Definition isNameEquality (lm : labels.Matcher) : bool :=
  isNameMatcher lm && bool_decide (labels.Type_ lm = labels.MatchEqual).

(** The life of a range, with the second its end falls short of the
    next step, and the sum of the lives of a list of ranges. *)
Definition life (r : promapi.MetricTimeRange) : Z :=
  promapi.End_ r - promapi.Start r + checks.Second.

Definition totalLife (ranges : list promapi.MetricTimeRange) : Z :=
  fold_right (fun r acc => life r + acc) 0 ranges.

(** [SecondsInt] is exact on whole seconds: a whole number of seconds
    below 2^53 is a float64, and its conversion back gives it again. *)
Definition exactOnSeconds (E : checks.Env) : Prop :=
  forall j : Z, inInt64 (j * checks.Second) -> checks.SecondsInt E (j * checks.Second) = j.

(** The style of a node is a set of bits: a style has the bit [flag], one
    of [parser.LiteralStyle] and [parser.FoldedStyle] here. An explicit tag
    sets the lowest bit beside them. *)
Definition TaggedStyle : N := 1.

Definition hasStyle (s flag : N) : bool := negb (N.eqb (N.land s flag) 0).

(** A matcher that makes its label a required one. *)
Definition isRequiredLabel (lm : labels.Matcher) : bool :=
  negb (String.eqb (labels.Name lm) labels.MetricName)
  && (bool_decide (labels.Type_ lm = labels.MatchEqual)
      || bool_decide (labels.Type_ lm = labels.MatchRegexp)).

(** [st'] continues [st]: it has the problems and the requests of [st],
    followed by more requests and by problems that satisfy [P]. *)
Definition extends (P : checks.Problem -> Prop) (st st' : checks.State) : Prop :=
  exists ps rs,
    checks.problems st' = checks.problems st ++ ps /\
    checks.requests st' = checks.requests st ++ rs /\
    Forall P ps.

(** The vector selector nodes of an expression, parents before
    children, and their number. *)
Fixpoint selectorNodes (t : parser.PromQLNode) : list promParser.VectorSelector :=
  match t with
  | parser.mkPromQLNode _ node children =>
      match node with
      | promParser.VectorSelectorExpr vs => [vs]
      | promParser.OtherExpr => []
      end ++ flat_map selectorNodes children
  end.

Fixpoint countSelectorNodes (t : parser.PromQLNode) : nat :=
  match t with
  | parser.mkPromQLNode _ node children =>
      (match node with
       | promParser.VectorSelectorExpr _ => 1
       | promParser.OtherExpr => 0
       end + list_sum (map countSelectorNodes children))%nat
  end.

Definition withoutOffset (vs : promParser.VectorSelector) : promParser.VectorSelector :=
  promParser.mkVectorSelector (promParser.Name vs) 0 (promParser.LabelMatchers vs).

(** The nodes of a document tree, a node before its children. *)
Fixpoint treeNodes (t : parser.yamlTree) : list parser.yamlTree :=
  match t with
  | parser.mkYamlTree _ _ _ _ _ content => t :: flat_map treeNodes content
  end.

(** The comments a single node carries. *)
Definition ownComments (t : parser.yamlTree) : list string :=
  match t with
  | parser.mkYamlTree _ _ head line foot _ => [head; line; foot]
  end.

(** The children of a mapping node taken two by two, a key and its
    value; a key without value at the end is left out. *)
Fixpoint pairUp (content : list parser.yamlTree) : list (parser.yamlTree * parser.yamlTree) :=
  match content with
  | k :: v :: rest => (k, v) :: pairUp rest
  | _ => []
  end.

(** Line numbers, offsets and numbers of newlines that stay far from the
    bounds of [int]. *)
Definition smallLines (node : parser.yamlNode) (offset : Z) : Prop :=
  0 <= parser.Line node <= 2 ^ 31 /\
  - 2 ^ 31 <= offset <= 2 ^ 31 /\
  Z.of_nat (countByte parser.newline (TrimSuffix (parser.Value node) nl)) <= 2 ^ 31.

End Notions.

(** * Properties *)

(** ** Go integers and strings *)

Lemma wrap64_id z : inInt64 z -> wrap64 z = z.
Proof.
  unfold inInt64, minInt64, maxInt64, wrap64. intros H.
  rewrite Z.mod_small; lia.
Qed.

Lemma wrap64_range z : inInt64 (wrap64 z).
Proof.
  unfold inInt64, minInt64, maxInt64, wrap64.
  pose proof (Z.mod_pos_bound (z + 2 ^ 63) (2 ^ 64) ltac:(lia)). lia.
Qed.

Lemma Split1_length s sep : length (Split1 s sep) = S (countByte sep s).
Proof.
  induction s as [|c s IH]; simpl; [reflexivity|].
  destruct (Ascii.eqb c sep); simpl.
  - now rewrite IH.
  - destruct (Split1 s sep) as [|p ps]; simpl in *; [discriminate|].
    exact IH.
Qed.

(** Removes the wrap-arounds of a goal, innermost first, where [lia] shows
    that the value is in range. *)
Ltac unwrap64 :=
  unfold GoInt.add, GoInt.sub, GoInt.mul, GoInt.div;
  repeat match goal with
         | |- context [wrap64 ?z] =>
             lazymatch z with
             | context [wrap64 _] => fail
             | _ => rewrite (wrap64_id z) by (unfold inInt64, minInt64, maxInt64; lia)
             end
         end.

(** ** Line ranges of scalar nodes *)

Section NodeLines.

Import parser Notions.

(** C8, as stated, fails: a literal block scalar whose value is empty
    starts at its declared line, not at the line after the marker. *)
Lemma nodeLines_empty_literal_starts_at_line :
  Style (mkYamlNode LiteralStyle "" 3) = LiteralStyle /\
  First (nodeLines (mkYamlNode LiteralStyle "" 3) 0) = 3 /\
  First (nodeLines (mkYamlNode LiteralStyle "" 3) 0) <> 3 + 1 + 0.
Proof. repeat split; vm_compute; congruence. Qed.

(** What the code does for a block scalar with an explicit tag, a case
    the property below leaves open: the style has the literal bit and the
    tag bit, [nodeLines] compares the whole style with [LiteralStyle], and
    the range of the value, which is not empty, starts at the declared
    line. *)
Lemma nodeLines_tagged_literal_starts_at_line :
  hasStyle (N.lor TaggedStyle LiteralStyle) LiteralStyle = true /\
  First (nodeLines (mkYamlNode (N.lor TaggedStyle LiteralStyle) ("a" +:+ nl) 3) 0) = 3.
Proof. split; vm_compute; reflexivity. Qed.

Lemma hasStyle_none (s flag : N) :
  flag <> 0%N -> hasStyle s flag = false -> s <> flag.
Proof.
  unfold hasStyle. intros Hf H e. subst s.
  rewrite N.land_diag in H. apply negb_false_iff, N.eqb_eq in H. contradiction.
Qed.

(** C8, amended: for a node and an offset whose line numbers fit Go's
    [int], the range starts at the line after the declared one when the
    value is not empty and the style is exactly the literal or exactly the
    folded one, at the declared line when the value is empty or the style
    has neither the literal nor the folded bit (both plus the offset), and
    it ends as many lines later as the value, without one trailing newline,
    has newlines. *)
Theorem nodeLines_first_last (node : yamlNode) (offset : Z) :
  0 <= Line node <= 2 ^ 31 ->
  - 2 ^ 31 <= offset <= 2 ^ 31 ->
  Z.of_nat (countByte newline (TrimSuffix (Value node) nl)) <= 2 ^ 31 ->
  (Value node <> "" -> Style node = LiteralStyle \/ Style node = FoldedStyle ->
   First (nodeLines node offset) = Line node + 1 + offset) /\
  (Value node = "" \/
   (hasStyle (Style node) LiteralStyle = false /\ hasStyle (Style node) FoldedStyle = false) ->
   First (nodeLines node offset) = Line node + offset) /\
  Last (nodeLines node offset) =
    First (nodeLines node offset)
    + Z.of_nat (countByte newline (TrimSuffix (Value node) nl)).
Proof.
  intros HL HO HC.
  assert (HF : First (nodeLines node offset) =
               if String.eqb (Value node) "" then Line node + offset
               else if (N.eqb (Style node) LiteralStyle || N.eqb (Style node) FoldedStyle)%bool
                    then Line node + 1 + offset else Line node + offset).
  { unfold nodeLines; simpl.
    destruct (String.eqb (Value node) "");
      [|destruct (N.eqb (Style node) LiteralStyle || N.eqb (Style node) FoldedStyle)%bool];
      unwrap64; reflexivity. }
  split; [|split].
  - intros HV HS. rewrite HF.
    destruct (String.eqb_spec (Value node) "") as [e|_]; [congruence|].
    destruct HS as [-> | ->]; reflexivity.
  - intros H. rewrite HF.
    destruct (String.eqb_spec (Value node) "") as [e|ne]; [reflexivity|].
    destruct H as [H|[H1 H2]]; [congruence|].
    apply hasStyle_none in H1, H2; [|discriminate|discriminate].
    apply N.eqb_neq in H1, H2. rewrite H1, H2. reflexivity.
  - assert (HLast : Last (nodeLines node offset) =
                    GoInt.sub
                      (GoInt.add (First (nodeLines node offset))
                         (Z.of_nat (length (Split1 (TrimSuffix (Value node) nl) newline))))
                      1) by reflexivity.
    rewrite HLast, Split1_length.
    assert (HB : - 2 ^ 32 <= First (nodeLines node offset) <= 2 ^ 33).
    { rewrite HF.
      destruct (String.eqb (Value node) "");
        [|destruct (N.eqb (Style node) LiteralStyle || N.eqb (Style node) FoldedStyle)%bool];
        lia. }
    clear HF HLast. revert HB. generalize (First (nodeLines node offset)). intros f HB.
    unwrap64. lia.
Qed.

Lemma nodeLines_first_last_witness :
  Last (nodeLines (mkYamlNode LiteralStyle ("a" +:+ nl +:+ "b" +:+ nl) 4) 10) = 16.
Proof.
  pose proof (nodeLines_first_last (mkYamlNode LiteralStyle ("a" +:+ nl +:+ "b" +:+ nl) 4) 10
                ltac:(simpl; lia) ltac:(lia) ltac:(vm_compute; discriminate)) as [H1 [_ H3]].
  rewrite H3, H1; [reflexivity | vm_compute; discriminate | left; reflexivity].
Defined.

End NodeLines.

(** ** Bare selectors *)

Section StripLabels.

Import Notions.

Lemma last_cons {A} (x d : A) (l : list A) : List.last (x :: l) d = List.last l x.
Proof.
  revert x d. induction l as [|y l IH]; intros x d; [reflexivity|].
  change (List.last (x :: y :: l) d) with (List.last (y :: l) d).
  rewrite !IH. reflexivity.
Qed.

Lemma last_last {A} (d : A) (l : list A) : List.last l (List.last l d) = List.last l d.
Proof.
  destruct l as [|x l]; [reflexivity|]. now rewrite !last_cons.
Qed.

Lemma stripLabels_fold (lms acc : list labels.Matcher) (n : string) (o : Duration) :
  fold_left
    (fun s lm =>
       if String.eqb (labels.Name lm) labels.MetricName
       then promParser.mkVectorSelector
              (if decide (labels.Type_ lm = labels.MatchEqual)
               then labels.Value lm else promParser.Name s)
              (promParser.Offset s)
              (promParser.LabelMatchers s ++ [lm])
       else s)
    lms (promParser.mkVectorSelector n o acc)
  = promParser.mkVectorSelector
      (List.last (map labels.Value (List.filter isNameEquality lms)) n) o
      (acc ++ List.filter isNameMatcher lms).
Proof.
  revert acc n. induction lms as [|lm lms IH]; intros acc n.
  - simpl. now rewrite app_nil_r.
  - cbn [fold_left promParser.Name promParser.Offset promParser.LabelMatchers].
    destruct (String.eqb (labels.Name lm) labels.MetricName) eqn:Hn.
    + assert (HN : List.filter isNameMatcher (lm :: lms)
                   = lm :: List.filter isNameMatcher lms).
      { simpl. unfold isNameMatcher at 1. now rewrite Hn. }
      rewrite IH, HN, <- app_assoc. simpl. f_equal.
      unfold isNameEquality at 2. unfold isNameMatcher at 1. rewrite Hn. simpl.
      destruct (decide (labels.Type_ lm = labels.MatchEqual)) as [e|ne].
      * rewrite bool_decide_true by assumption. simpl map. now rewrite last_cons.
      * now rewrite bool_decide_false by assumption.
    + assert (HN : List.filter isNameMatcher (lm :: lms) = List.filter isNameMatcher lms).
      { simpl. unfold isNameMatcher at 1. now rewrite Hn. }
      assert (HQ : List.filter isNameEquality (lm :: lms) = List.filter isNameEquality lms).
      { simpl. unfold isNameEquality at 1, isNameMatcher at 1. now rewrite Hn. }
      now rewrite IH, HN, HQ.
Qed.

Lemma stripLabels_eq (S : promParser.VectorSelector) :
  checks.stripLabels S =
  promParser.mkVectorSelector
    (List.last (map labels.Value (List.filter isNameEquality (promParser.LabelMatchers S)))
       (promParser.Name S))
    0
    (List.filter isNameMatcher (promParser.LabelMatchers S)).
Proof. unfold checks.stripLabels. now rewrite stripLabels_fold. Qed.

Lemma filter_filter_same {A} (f : A -> bool) (l : list A) :
  List.filter f (List.filter f l) = List.filter f l.
Proof.
  induction l as [|x l IH]; simpl; [reflexivity|].
  destruct (f x) eqn:Hx; simpl; [rewrite Hx|]; now rewrite ?IH.
Qed.

Lemma filter_equality_name (l : list labels.Matcher) :
  List.filter isNameEquality (List.filter isNameMatcher l) = List.filter isNameEquality l.
Proof.
  induction l as [|x l IH]; simpl; [reflexivity|].
  unfold isNameEquality at 2. destruct (isNameMatcher x) eqn:Hx; simpl.
  - unfold isNameEquality at 1. rewrite Hx. simpl. now rewrite IH.
  - exact IH.
Qed.

(** C7: [stripLabels] is idempotent; its result keeps the matchers on
    [__name__], in their order, and no other matcher; and its name is the
    value of the last equality matcher on [__name__], or the name of the
    selector when there is none. *)
Theorem stripLabels_idempotent (S : promParser.VectorSelector) :
  checks.stripLabels (checks.stripLabels S) = checks.stripLabels S /\
  promParser.LabelMatchers (checks.stripLabels S)
    = List.filter isNameMatcher (promParser.LabelMatchers S) /\
  promParser.Name (checks.stripLabels S)
    = List.last (map labels.Value (List.filter isNameEquality (promParser.LabelMatchers S)))
        (promParser.Name S).
Proof.
  split; [|rewrite stripLabels_eq; split; reflexivity].
  rewrite (stripLabels_eq (checks.stripLabels S)), (stripLabels_eq S). simpl.
  now rewrite filter_filter_same, filter_equality_name, last_last.
Qed.

End StripLabels.

(** ** The average life of ranges *)

Section AvgLife.

Import Notions checks.

(** C6, as stated, fails: two ranges that live one and two seconds have
    a mean life of a second and a half, and [avgLife] gives one second. *)
Lemma avgLife_drops_half_second :
  avgLife Fixture.env
    [promapi.mkMetricTimeRange 0 [] 0 0; promapi.mkMetricTimeRange 0 [] 0 Second]
    = Second /\
  2 * avgLife Fixture.env
        [promapi.mkMetricTimeRange 0 [] 0 0; promapi.mkMetricTimeRange 0 [] 0 Second]
    <> totalLife
         [promapi.mkMetricTimeRange 0 [] 0 0; promapi.mkMetricTimeRange 0 [] 0 Second].
Proof. split; vm_compute; congruence. Qed.

Lemma totalLife_nonneg ranges :
  Forall (fun r => promapi.Start r <= promapi.End_ r) ranges -> 0 <= totalLife ranges.
Proof.
  induction 1 as [|r l Hr _ IH]; simpl; [lia|]. unfold life, Second. lia.
Qed.

Lemma avgLife_sum ranges d :
  Forall (fun r => promapi.Start r <= promapi.End_ r) ranges ->
  0 <= d -> d + totalLife ranges <= maxInt64 ->
  fold_left
    (fun d r => GoInt.add d (GoInt.add (Time_Sub (promapi.End_ r) (promapi.Start r)) Second))
    ranges d
  = d + totalLife ranges.
Proof.
  intros HF. revert d. induction HF as [|r l Hr HF IH]; intros d Hd Hmax; simpl.
  - lia.
  - pose proof (totalLife_nonneg l HF) as Hl.
    simpl in Hmax. unfold life in *. unfold maxInt64, Second in *.
    assert (HS : Time_Sub (promapi.End_ r) (promapi.Start r)
                 = promapi.End_ r - promapi.Start r).
    { unfold Time_Sub, minInt64, maxInt64. lia. }
    rewrite HS. unfold Second. unwrap64. rewrite IH; unfold maxInt64, Second; lia.
Qed.

(** C6, amended: for ranges that end no earlier than they start, whose
    lives (end - start + one second) add up, within the range of a
    duration, to a whole number [k] of seconds, [avgLife] returns [k]
    divided by the number of ranges, without the remainder, as seconds; it
    returns zero for no ranges. *)
Theorem avgLife_whole_seconds (E : Env) (ranges : list promapi.MetricTimeRange) (k : Z) :
  exactOnSeconds E ->
  Forall (fun r => promapi.Start r <= promapi.End_ r) ranges ->
  totalLife ranges <= maxInt64 ->
  totalLife ranges = k * Second ->
  avgLife E ranges =
    match ranges with
    | [] => 0
    | _ => Second * (k ÷ Z.of_nat (length ranges))
    end.
Proof.
  intros HE HF Hmax Hk. unfold avgLife.
  destruct ranges as [|r l] eqn:Hr; [reflexivity|]. rewrite <- Hr in *.
  assert (Hlen : (0 < length ranges)%nat) by (subst; simpl; lia).
  replace (Nat.eqb (length ranges) 0) with false
    by (symmetry; apply Nat.eqb_neq; lia).
  rewrite avgLife_sum by (auto; lia). rewrite Z.add_0_l, Hk.
  pose proof (totalLife_nonneg ranges HF) as Hnn.
  rewrite HE by (unfold inInt64, minInt64; lia).
  assert (Hk0 : 0 <= k) by (unfold Second in *; lia).
  unfold GoInt.mul, GoInt.div. rewrite !Z.quot_div_nonneg by lia.
  assert (Hq : 0 <= k / Z.of_nat (length ranges) <= k).
  { split; [apply Z.div_pos; lia|].
    apply Z.div_le_upper_bound; [lia|]. nia. }
  unfold maxInt64, Second in *. unwrap64. reflexivity.
Qed.

Lemma avgLife_whole_seconds_witness :
  avgLife Fixture.env
    [promapi.mkMetricTimeRange 0 [] 0 0; promapi.mkMetricTimeRange 0 [] 0 Second]
  = Second * (3 ÷ 2).
Proof.
  apply (avgLife_whole_seconds Fixture.env
           [promapi.mkMetricTimeRange 0 [] 0 0; promapi.mkMetricTimeRange 0 [] 0 Second] 3).
  - intros j _. simpl. apply Z.quot_mul. discriminate.
  - repeat constructor; simpl; unfold Second; lia.
  - vm_compute; discriminate.
  - reflexivity.
Defined.

End AvgLife.

(** ** The loop of the series check *)

Section Loop.

Import checks.

Variable E : Env.
Variable prom : promapi.FailoverGroup.
Variable ctx : Context.
Variable settings : PromqlSeriesSettings.
Variable rule : parser.Rule.
Variable entries : list discovery.Entry.
Variable expr : parser.PromQLExpr.
Variable params : promapi.RangeParams.

#[local] Abbreviation loop := (checkSelectors E prom ctx settings rule entries expr params).
#[local] Abbreviation body := (checkSelector E prom ctx settings rule entries expr params).

(** A selector whose string is in [done] is passed over. *)
Lemma checkSelectors_seen selector rest (done : gmap string bool) st :
  is_Some (done !! selString E selector) ->
  loop (selector :: rest) done st = loop rest done st.
Proof. intros [b Hb]. simpl. now rewrite Hb. Qed.

(** A selector that is new and not disabled is marked and checked. *)
Lemma checkSelectors_visit selector rest (done : gmap string bool) st :
  done !! selString E selector = None ->
  isDisabled E rule selector = false ->
  loop (selector :: rest) done st
  = loop rest (<[selString E selector := true]> done) (body selector st).
Proof. intros Hd Hdis. simpl. now rewrite Hd, Hdis. Qed.

Lemma checkSelectors_skip l selector l' (done : gmap string bool) st :
  is_Some (done !! selString E selector) ->
  loop (l ++ selector :: l') done st = loop (l ++ l') done st.
Proof.
  revert done st. induction l as [|a l IH]; intros done st Hs.
  - now apply checkSelectors_seen.
  - simpl. destruct (done !! selString E a) eqn:Ha; [now apply IH|].
    destruct (isDisabled E rule a); apply IH;
      rewrite ?lookup_insert_is_Some;
      destruct (decide (selString E a = selString E selector)); auto.
Qed.

(** C10: a selector whose string occurred earlier in the list adds
    nothing: the loop gives the same problems and sends the same requests
    as on the list without the later occurrence. *)
Theorem checkSelectors_repeated l1 s l2 s' l3 (done : gmap string bool) st :
  selString E s = selString E s' ->
  loop (l1 ++ s :: l2 ++ s' :: l3) done st = loop (l1 ++ s :: l2 ++ l3) done st.
Proof.
  intros Heq. revert done st. induction l1 as [|a l1 IH]; intros done st.
  - simpl. destruct (done !! selString E s) eqn:Hs.
    + apply checkSelectors_skip. rewrite <- Heq, Hs. eauto.
    + destruct (isDisabled E rule s); apply checkSelectors_skip;
        rewrite <- Heq, ?lookup_insert_is_Some; auto.
  - simpl. destruct (done !! selString E a); [apply IH|].
    destruct (isDisabled E rule a); apply IH.
Qed.

(** C1: for a selector that is not an alert metric and whose [count(S)]
    succeeds with a count above zero, the check of the selector is that
    one request and no problem, and the loop goes on with the next
    selector: a selector seen before is passed over, a new one is marked as
    seen and, unless a comment disables it, costs the one request; in each
    case the problems are those from before. *)
Theorem count_positive_no_problem selector rest (done : gmap string bool) st qr :
  isAlertsMetric (metricNameOf selector) = false ->
  promapi.Query prom ("count(" +:+ selString E selector +:+ ")") = inr qr ->
  0 < sumSamples (promapi.QSeries qr) ->
  body selector st
    = mkState (problems st)
        (requests st ++
           [InstantQuery (promapi.Name prom) ("count(" +:+ selString E selector +:+ ")")])
  /\ loop (selector :: rest) done st
     = match done !! selString E selector with
       | Some _ => loop rest done st
       | None =>
           loop rest (<[selString E selector := true]> done)
             (if isDisabled E rule selector then st
              else mkState (problems st)
                     (requests st ++
                        [InstantQuery (promapi.Name prom)
                           ("count(" +:+ selString E selector +:+ ")")]))
       end.
Proof.
  intros Ha Hq Hc.
  assert (Hb : body selector st
               = mkState (problems st)
                   (requests st ++
                      [InstantQuery (promapi.Name prom)
                         ("count(" +:+ selString E selector +:+ ")")])).
  { unfold checkSelector. rewrite Ha. unfold checkSeries, instantSeriesCount.
    rewrite Hq. apply Z.ltb_lt in Hc. now rewrite Hc. }
  split; [exact Hb|].
  destruct (done !! selString E selector) eqn:Hd.
  - apply checkSelectors_seen. rewrite Hd. eauto.
  - destruct (isDisabled E rule selector) eqn:Hdis.
    + simpl. rewrite Hd, Hdis. now rewrite insert_insert_eq.
    + rewrite checkSelectors_visit by assumption. now rewrite Hb.
Qed.

(** The alert name step 0 looks for, when the matchers on [alertname]
    that are not regexp matchers agree on it. *)
Lemma alertnameOf_agree (X : string) (lms : list labels.Matcher) :
  (forall lm, In lm lms -> labels.Name lm = "alertname" ->
              labels.Type_ lm = labels.MatchEqual \/ labels.Type_ lm = labels.MatchNotEqual ->
              labels.Value lm = X) ->
  In (labels.mkMatcher labels.MatchEqual "alertname" X) lms ->
  alertnameOf lms = X.
Proof.
  unfold alertnameOf. intros Hall Hin.
  assert (G : forall acc, acc = X \/ In (labels.mkMatcher labels.MatchEqual "alertname" X) lms ->
              fold_left
                (fun alertname lm =>
                   if String.eqb (labels.Name lm) "alertname"
                      && negb (bool_decide (labels.Type_ lm = labels.MatchRegexp))
                      && negb (bool_decide (labels.Type_ lm = labels.MatchNotRegexp))
                   then labels.Value lm else alertname)
                lms acc = X).
  { clear Hin. induction lms as [|lm lms IH]; intros acc Hacc; simpl.
    - destruct Hacc as [?|[]]; assumption.
    - apply IH; [intros; apply Hall; simpl; auto|].
      destruct (String.eqb_spec (labels.Name lm) "alertname") as [Hn|Hn]; simpl.
      + destruct (labels.Type_ lm) eqn:Ht; simpl.
        * left. apply Hall; simpl; auto.
        * left. apply Hall; simpl; auto.
        * destruct Hacc as [?|[Hl|?]]; auto. subst lm. discriminate.
        * destruct Hacc as [?|[Hl|?]]; auto. subst lm. discriminate.
      + destruct Hacc as [?|[Hl|?]]; auto. subst lm. simpl in Hn. congruence. }
  apply G. now right.
Qed.

Lemma find_existsb {A B} (f : A -> bool) (l : list A) (a b : B) :
  match find f l with Some _ => a | None => b end = if existsb f l then a else b.
Proof.
  induction l as [|x l IH]; simpl; [reflexivity|]. now destruct (f x).
Qed.

(** C4, amended: for a selector of [ALERTS] or [ALERTS_FOR_STATE] that
    is new and not disabled, with an equality matcher [alertname=X] where
    [X] is not empty and no equality or inequality matcher on [alertname]
    has another value: the loop appends the one problem of severity [Bug]
    with the text on the missing rule (which ends with a full stop) when
    no entry is an alerting rule without parse error named [X], nothing
    otherwise, and goes on with the next selector without any request. *)
Theorem alerts_selector_checked selector rest (done : gmap string bool) st (X : string) :
  isAlertsMetric (metricNameOf selector) = true ->
  In (labels.mkMatcher labels.MatchEqual "alertname" X) (promParser.LabelMatchers selector) ->
  (forall lm, In lm (promParser.LabelMatchers selector) ->
              labels.Name lm = "alertname" ->
              labels.Type_ lm = labels.MatchEqual \/ labels.Type_ lm = labels.MatchNotEqual ->
              labels.Value lm = X) ->
  X <> "" ->
  done !! selString E selector = None ->
  isDisabled E rule selector = false ->
  loop (selector :: rest) done st
  = loop rest (<[selString E selector := true]> done)
      (if existsb (isAlertingRuleNamed X) entries then st
       else emit
              (mkProblem (parser.YLines (parser.EValue expr)) "promql/series"
                 ("`" +:+ selString E selector +:+
                  "` metric is generated by alerts but didn't found any rule named `" +:+
                  X +:+ "`.")
                 SeriesCheckCommonProblemDetails Bug)
              st).
Proof.
  intros Ha Hin Hall HX Hd Hdis.
  rewrite checkSelectors_visit by assumption. f_equal.
  unfold checkSelector. rewrite Ha. unfold checkAlerts.
  rewrite (alertnameOf_agree X) by assumption.
  destruct (String.eqb_spec X "") as [?|_]; [contradiction|]. simpl.
  apply find_existsb.
Qed.

End Loop.

(** ** A base metric without history *)

Section NoHistory.

Import checks.

Variable E : Env.
Variable prom : promapi.FailoverGroup.
Variable ctx : Context.
Variable settings : PromqlSeriesSettings.
Variable rule : parser.Rule.
Variable entries : list discovery.Entry.
Variable expr : parser.PromQLExpr.
Variable params : promapi.RangeParams.

#[local] Abbreviation loop := (checkSelectors E prom ctx settings rule entries expr params).

Lemma find_In_true {A} (f : A -> bool) (l : list A) (x : A) :
  In x l -> f x = true -> exists y, find f l = Some y.
Proof.
  intros Hin Hx. destruct (find f l) eqn:Hf; [eauto|].
  pose proof (find_none f l Hf x Hin). congruence.
Qed.

Lemma uptimeSeries_requests (st : State) :
  snd (uptimeSeries prom params st)
  = request (RangeQuery (promapi.Name prom)
               ("count(" +:+ promapi.UptimeMetric prom +:+ ")")) st.
Proof.
  unfold uptimeSeries, rangeQuery.
  destruct (promapi.RangeQuery prom ("count(" +:+ promapi.UptimeMetric prom +:+ ")") params)
    as [e|r]; [reflexivity|].
  now destruct (Nat.eqb (length (promapi.Ranges (promapi.Series r))) 0).
Qed.

(** C3, amended: for a selector that is new, not disabled and not an
    alert metric, whose [count(S)] gives no series, when the range query
    for the bare selector succeeds without ranges and an entry is a
    recording rule without parse error whose [record] is the bare selector
    as printed (its metric name alone when it has no other matcher on the
    name to print): the loop appends one problem of severity
    [Information], with the details on recording rules, after the three
    requests, and goes on with the next selector. *)
Theorem recording_rule_explains_absence selector rest (done : gmap string bool) st
    qr trs entry rr :
  done !! selString E selector = None ->
  isDisabled E rule selector = false ->
  isAlertsMetric (metricNameOf selector) = false ->
  promapi.Query prom ("count(" +:+ selString E selector +:+ ")") = inr qr ->
  sumSamples (promapi.QSeries qr) <= 0 ->
  promapi.RangeQuery prom ("count(" +:+ selString E (stripLabels selector) +:+ ")") params
    = inr trs ->
  promapi.Ranges (promapi.Series trs) = [] ->
  In entry entries ->
  parser.RecordingRule_ (discovery.Rule entry) = Some rr ->
  parser.Err (parser.Error (discovery.Rule entry)) = None ->
  parser.YValue (parser.Record_ rr) = selString E (stripLabels selector) ->
  exists p st',
    loop (selector :: rest) done st
      = loop rest (<[selString E selector := true]> done) st' /\
    problems st' = problems st ++ [p] /\
    Severity_ p = Information /\
    Details p = SeriesCheckRuleDetails /\
    Text p = promText E (promapi.Name prom) (promapi.RURI trs) +:+
             " didn't have any series for `" +:+ selString E (stripLabels selector) +:+
             "` metric in the last " +:+ sinceDesc E (promapi.From (promapi.Series trs)) +:+
             " but found recording rule that generates it, skipping further checks." /\
    requests st' = requests st ++
      [InstantQuery (promapi.Name prom) ("count(" +:+ selString E selector +:+ ")");
       RangeQuery (promapi.Name prom) ("count(" +:+ promapi.UptimeMetric prom +:+ ")");
       RangeQuery (promapi.Name prom) ("count(" +:+ selString E (stripLabels selector) +:+ ")")].
Proof.
  intros Hd Hdis Ha Hq Hc Hr Hnil Hin Hrr Herr Hrec.
  rewrite checkSelectors_visit by assumption.
  unfold checkSelector. rewrite Ha. unfold checkSeries, instantSeriesCount.
  rewrite Hq. replace (0 <? sumSamples (promapi.QSeries qr)) with false
    by (symmetry; apply Z.ltb_ge; exact Hc).
  destruct (uptimeSeries prom params _) as [promUptime st1] eqn:Hup.
  assert (Hst1 : problems st1 = problems st /\
                 requests st1 = requests st ++
                   [InstantQuery (promapi.Name prom) ("count(" +:+ selString E selector +:+ ")");
                    RangeQuery (promapi.Name prom)
                      ("count(" +:+ promapi.UptimeMetric prom +:+ ")")]).
  { apply (f_equal snd) in Hup. rewrite uptimeSeries_requests in Hup. simpl in Hup.
    subst st1. simpl. rewrite <- app_assoc. auto. }
  destruct Hst1 as [Hp1 Hr1].
  unfold rangeQuery. rewrite Hr. simpl promapi.Ranges. rewrite Hnil. simpl.
  unfold checkNoHistory.
  destruct (find_In_true (isRecordingRuleNamed (selString E (stripLabels selector)))
              entries entry Hin) as [y Hy].
  { unfold isRecordingRuleNamed. rewrite Hrr, Herr, Hrec.
    rewrite bool_decide_true by reflexivity. simpl. apply String.eqb_refl. }
  rewrite Hy.
  eexists _, _. split; [reflexivity|].
  simpl. rewrite Hp1, Hr1, <- app_assoc. simpl. repeat split; reflexivity.
Qed.

(** C9: for a rule whose expression carries a syntax error, [Check]
    returns without any problem and without any request. *)
Theorem syntax_error_no_problems (r : parser.Rule) (e : parser.PromQLExpr) (err : error) :
  parser.Rule_Expr r = Some e ->
  parser.SyntaxError e = Some err ->
  Check E prom ctx r entries = Some (mkState [] []).
Proof. intros He Hs. unfold Check. now rewrite He, Hs. Qed.

End NoHistory.

(** ** The steps after the required labels *)

Section History.

Import checks.

Variable E : Env.
Variable prom : promapi.FailoverGroup.
Variable settings : PromqlSeriesSettings.
Variable rule : parser.Rule.
Variable expr : parser.PromQLExpr.
Variable params : promapi.RangeParams.

Lemma requiredLabelStep_keeps_problems selector promUptime trs st name :
  hasProblems st = true ->
  hasProblems (requiredLabelStep E prom expr params selector promUptime trs st name) = true.
Proof.
  intros H.
  assert (G : forall p r, hasProblems (emit p (request r st)) = true).
  { intros p r. unfold hasProblems. simpl. rewrite length_app. simpl.
    apply negb_true_iff, Nat.eqb_neq. lia. }
  unfold requiredLabelStep, rangeQuery.
  destruct (promapi.RangeQuery prom _ params) as [e|r]; [apply G|].
  destruct (negb _); [exact H|].
  destruct (_ && _); [apply G | exact H].
Qed.

(** What the code does where C2 expects otherwise: once the list of
    problems of the rule is not empty, whichever selector they are for,
    the check of a base metric with history ends after the loop over the
    required labels. *)
Lemma checkHistory_ends_after_any_problem selector promUptime trs st :
  hasProblems st = true ->
  checkHistory E prom settings rule expr params selector promUptime trs st
  = fold_left (requiredLabelStep E prom expr params selector promUptime trs)
      (labelNamesOf (promParser.LabelMatchers selector)) st.
Proof.
  intros H. unfold checkHistory.
  assert (G : hasProblems
                (fold_left (requiredLabelStep E prom expr params selector promUptime trs)
                   (labelNamesOf (promParser.LabelMatchers selector)) st) = true).
  { revert st H. induction (labelNamesOf (promParser.LabelMatchers selector)) as [|n l IH];
      intros st H; simpl; [exact H|].
    apply IH. now apply requiredLabelStep_keeps_problems. }
  now rewrite G.
Qed.

End History.

(** ** The properties on the scenarios *)

Section OnScenarios.

Import checks Fixture Scenarios.

Lemma count_positive_no_problem_witness :
  checkSelectors env promPresent noContext settings fooRule [] fooExpr params [foo] ∅ noState
  = mkState [] [InstantQuery "prom" "count(foo)"].
Proof.
  destruct (count_positive_no_problem env promPresent noContext settings fooRule []
              fooExpr params foo [] ∅ noState
              (promapi.mkQueryResult "http://prom" [promapi.mkSample [] 1]))
    as [_ H]; [reflexivity | reflexivity | vm_compute; reflexivity |].
  rewrite H. reflexivity.
Defined.

Lemma checkSelectors_repeated_witness :
  checkSelectors env promEmpty noContext settings fooRule [] fooExpr params
    [foo; bar; foo] ∅ noState
  = checkSelectors env promEmpty noContext settings fooRule [] fooExpr params
      [foo; bar] ∅ noState.
Proof.
  apply (checkSelectors_repeated env promEmpty noContext settings fooRule [] fooExpr params
           [] foo [bar] foo [] ∅ noState).
  reflexivity.
Defined.

Lemma syntax_error_no_problems_witness :
  Check env promEmpty noContext brokenRule [fooRecorded] = Some (mkState [] []).
Proof.
  apply (syntax_error_no_problems env promEmpty noContext [fooRecorded] brokenRule
           (parser.mkPromQLExpr
              (parser.mkYamlNodeV "sum(foo) without(" (parser.mkLineRange 2 2))
              (Some "unclosed left parenthesis") None)
           "unclosed left parenthesis"); reflexivity.
Defined.

(** C3, as stated, fails: the bare selector of
    [{__name__="foo", __name__=~"f.+"}] has the metric name [foo], its range
    query gives no ranges, and the one sibling rule is a recording rule
    without parse error whose [record] is [foo]; the check reports one
    problem, a [Bug], and no [Information]. *)
Lemma recording_rule_naming_metric_not_enough :
  promParser.Name (stripLabels fooNamedTwice) = "foo" /\
  parser.RecordingRule_ (discovery.Rule fooRecorded)
    = Some (parser.mkRecordingRule (exprOf "sum(bar)" (leaf "bar" bar)) None
              (parser.mkYamlNodeV "foo" (parser.mkLineRange 1 1))) /\
  parser.Err (parser.Error (discovery.Rule fooRecorded)) = None /\
  promapi.RangeQuery promEmpty ("count(" +:+ selString (stripLabels fooNamedTwice) +:+ ")") params
    = inr (promapi.mkRangeQueryResult "http://prom"
             (promapi.mkSeriesTimeRanges (promapi.PStart params) (promapi.PEnd params)
                (promapi.PStep params) [] [])) /\
  option_map (fun st => map Severity_ (problems st))
    (Check env promEmpty noContext fooNamedTwiceRule [fooRecorded]) = Some [Bug].
Proof. repeat split; vm_compute; reflexivity. Qed.

Lemma recording_rule_explains_absence_witness :
  exists p,
    problems (checkSelectors env promEmpty noContext settings fooRule [fooRecorded]
                fooExpr params [foo] ∅ noState) = [p] /\
    Severity_ p = Information.
Proof.
  destruct (recording_rule_explains_absence env promEmpty noContext settings fooRule
              [fooRecorded] fooExpr params foo [] ∅ noState
              (promapi.mkQueryResult "http://prom" [])
              (promapi.mkRangeQueryResult "http://prom"
                 (promapi.mkSeriesTimeRanges (promapi.PStart params) (promapi.PEnd params)
                    (promapi.PStep params) [] []))
              fooRecorded
              (parser.mkRecordingRule (exprOf "sum(bar)" (leaf "bar" bar)) None
                 (parser.mkYamlNodeV "foo" (parser.mkLineRange 1 1))))
    as (p & st' & H1 & H2 & H3 & _);
    [reflexivity | reflexivity | reflexivity | reflexivity | vm_compute; discriminate
    | reflexivity | reflexivity | left; reflexivity | reflexivity | reflexivity
    | reflexivity |].
  exists p. rewrite H1. simpl. rewrite H2. split; [reflexivity | exact H3].
Defined.

(** C4, as stated, fails: [ALERTS{alertname=""}] carries an equality
    matcher on [alertname], no rule at all is among the entries, and the
    check reports nothing. *)
Lemma alerts_empty_alertname_not_reported :
  isAlertsMetric (metricNameOf alertsUnnamed) = true /\
  In (labels.mkMatcher labels.MatchEqual "alertname" "")
     (promParser.LabelMatchers alertsUnnamed) /\
  Check env promEmpty noContext alertsUnnamedRule [] = Some (mkState [] []).
Proof. split; [reflexivity | split; [left; reflexivity | vm_compute; reflexivity]]. Qed.

Lemma alerts_selector_checked_witness :
  problems (checkSelectors env promEmpty noContext settings fooRule [] alertsMissingExpr
              params [alertsMissing] ∅ noState) = [alertsMissingProblem].
Proof.
  rewrite (alerts_selector_checked env promEmpty noContext settings fooRule []
             alertsMissingExpr params alertsMissing [] ∅ noState "Missing");
    [reflexivity | reflexivity | left; reflexivity | | discriminate
    | reflexivity | reflexivity].
  intros lm [<-|[<-|[]]]; [reflexivity | discriminate].
Defined.

(** C2 at its failing input. On [foo + bar] the problem reported for
    [foo] ends the check of [bar] after step 4, which reported nothing for
    [bar]: the warning of step 7 is missing. On [bar + foo], the same two
    selectors in the other order, [bar] gets its warning. *)
Theorem earlier_problem_hides_later_selector :
  problems <$> Check env promBarSometimes noContext fooPlusBar [] = Some [fooNeverThere] /\
  problems <$> Check env promBarSometimes noContext barPlusFoo []
    = Some [barSometimesThere; fooNeverThere].
Proof. split; vm_compute; reflexivity. Qed.

(** C5 at its failing input. The one range of the series with
    [job="x"] begins three days after the start of the window, and the
    check still reports that the series disappeared. *)
Theorem range_not_at_window_start_reported :
  oldest [promapi.mkMetricTimeRange 0 [] (windowStart + 3 * Day) (windowStart + 4 * Day)]
    = promapi.PStart params + 3 * Day /\
  problems <$> Check env promJobXFourthDay noContext fooJobXRule [] = Some [jobXDisappeared].
Proof. split; vm_compute; reflexivity. Qed.

End OnScenarios.

(** * Further properties of the series check *)

(** ** The helpers of the check *)

Section Helpers.

Import Notions checks.

Variable E : Env.

Lemma existsb_eqb_In (n : string) (l : list string) :
  existsb (String.eqb n) l = true <-> In n l.
Proof.
  rewrite existsb_exists. split.
  - intros (x & Hx & He). apply String.eqb_eq in He. now subst.
  - intros H. exists n. split; [assumption | apply String.eqb_refl].
Qed.

Lemma isRequiredLabel_spec (lm : labels.Matcher) :
  isRequiredLabel lm = true <->
  labels.Name lm <> labels.MetricName /\
  (labels.Type_ lm = labels.MatchEqual \/ labels.Type_ lm = labels.MatchRegexp).
Proof.
  unfold isRequiredLabel.
  destruct (String.eqb_spec (labels.Name lm) labels.MetricName) as [Hn|Hn];
    destruct (labels.Type_ lm); simpl; split;
    try discriminate; try tauto; intros [? [?|?]]; congruence.
Qed.

Lemma labelNamesOf_fold (lms : list labels.Matcher) (acc : list string) :
  NoDup acc ->
  NoDup (fold_left
           (fun labelNames lm =>
              if String.eqb (labels.Name lm) labels.MetricName then labelNames
              else if bool_decide (labels.Type_ lm = labels.MatchNotEqual)
                      || bool_decide (labels.Type_ lm = labels.MatchNotRegexp) then labelNames
              else if existsb (String.eqb (labels.Name lm)) labelNames then labelNames
              else labelNames ++ [labels.Name lm])
           lms acc) /\
  forall n,
    In n (fold_left
            (fun labelNames lm =>
               if String.eqb (labels.Name lm) labels.MetricName then labelNames
               else if bool_decide (labels.Type_ lm = labels.MatchNotEqual)
                       || bool_decide (labels.Type_ lm = labels.MatchNotRegexp) then labelNames
               else if existsb (String.eqb (labels.Name lm)) labelNames then labelNames
               else labelNames ++ [labels.Name lm])
            lms acc)
    <-> In n acc \/ exists lm, In lm lms /\ labels.Name lm = n /\ isRequiredLabel lm = true.
Proof.
  revert acc. induction lms as [|lm lms IH]; intros acc Hnd.
  - simpl. split; [assumption|]. intros n. split; [auto|].
    intros [H|(lm & [] & _)]. assumption.
  - cbn [fold_left].
    set (acc' := if String.eqb (labels.Name lm) labels.MetricName then acc else _).
    assert (Hacc : acc' = if isRequiredLabel lm
                          then (if existsb (String.eqb (labels.Name lm)) acc
                                then acc else acc ++ [labels.Name lm])
                          else acc).
    { unfold acc', isRequiredLabel.
      destruct (String.eqb (labels.Name lm) labels.MetricName);
        destruct (labels.Type_ lm); reflexivity. }
    clearbody acc'. subst acc'.
    destruct (isRequiredLabel lm) eqn:Hreq.
    + destruct (existsb (String.eqb (labels.Name lm)) acc) eqn:Hex.
      * apply existsb_eqb_In in Hex.
        destruct (IH acc Hnd) as [H1 H2]. split; [assumption|].
        intros n. rewrite H2. split.
        -- intros [H|(x & Hx & Hxn & Hxr)]; [auto|]. right. exists x. simpl. auto.
        -- intros [H|(x & [->|Hx] & Hxn & Hxr)]; [auto | left; now subst |].
           right. exists x. auto.
      * assert (Hni : ~ In (labels.Name lm) acc).
        { intros Hi. apply existsb_eqb_In in Hi. congruence. }
        assert (Hnd' : NoDup (acc ++ [labels.Name lm])).
        { apply NoDup_app. repeat split; [assumption | | apply NoDup_singleton].
          intros x Hx Hx'. apply list_elem_of_In in Hx, Hx'.
          destruct Hx' as [<-|[]]. contradiction. }
        destruct (IH _ Hnd') as [H1 H2]. split; [assumption|].
        intros n. rewrite H2, in_app_iff. simpl. split.
        -- intros [[H|[<-|[]]]|(x & Hx & Hxn & Hxr)]; [auto | | ].
           ++ right. exists lm. auto.
           ++ right. exists x. auto.
        -- intros [H|(x & [->|Hx] & Hxn & Hxr)]; [auto | auto |].
           right. exists x. auto.
    + destruct (IH acc Hnd) as [H1 H2]. split; [assumption|].
      intros n. rewrite H2. split.
      * intros [H|(x & Hx & Hxn & Hxr)]; [auto|]. right. exists x. simpl. auto.
      * intros [H|(x & [->|Hx] & Hxn & Hxr)]; [auto | congruence |].
        right. exists x. auto.
Qed.

(** X1: the required labels of a selector are listed once each, never
    contain [__name__], and are the names of its equality and regexp
    matchers. *)
Theorem labelNamesOf_names (lms : list labels.Matcher) :
  NoDup (labelNamesOf lms) /\
  forall n,
    In n (labelNamesOf lms) <->
    n <> labels.MetricName /\
    exists lm, In lm lms /\ labels.Name lm = n /\
               (labels.Type_ lm = labels.MatchEqual \/ labels.Type_ lm = labels.MatchRegexp).
Proof.
  destruct (labelNamesOf_fold lms [] (NoDup_nil_2)) as [H1 H2].
  split; [exact H1|]. intros n. unfold labelNamesOf. rewrite H2. simpl. split.
  - intros [[]|(lm & Hin & Hn & Hr)]. apply isRequiredLabel_spec in Hr.
    destruct Hr as [Hne Ht]. split; [congruence|]. exists lm. auto.
  - intros (Hne & lm & Hin & Hn & Ht). right. exists lm. repeat split; auto.
    apply isRequiredLabel_spec. split; [congruence | assumption].
Qed.

End Helpers.

Section Helpers2.

Import Notions checks.

Variable E : Env.

Lemma oldest_fold (ranges : list promapi.MetricTimeRange) (ts : Time) :
  Forall (fun r => 0 < promapi.Start r) ranges -> 0 < ts ->
  let m := fold_left
             (fun ts r => if Time_IsZero ts || Time_Before (promapi.Start r) ts
                          then promapi.Start r else ts)
             ranges ts in
  0 < m /\ m <= ts /\ Forall (fun r => m <= promapi.Start r) ranges /\
  (m = ts \/ In m (map promapi.Start ranges)).
Proof.
  set (f := fun (ts : Time) r => if Time_IsZero ts || Time_Before (promapi.Start r) ts
                                 then promapi.Start r else ts).
  intros HF. revert ts. induction HF as [|r l Hr HF IH]; intros ts Hts; cbv zeta.
  - simpl. split; [lia|split; [lia|split; [constructor|auto]]].
  - cbn [fold_left map In].
    assert (Hf : f ts r = Z.min ts (promapi.Start r)).
    { unfold f, Time_IsZero, Time_Before.
      destruct (Z.eqb_spec ts 0) as [?|_]; [lia|]. simpl.
      destruct (Z.ltb_spec (promapi.Start r) ts); lia. }
    rewrite Hf.
    destruct (IH (Z.min ts (promapi.Start r)) ltac:(lia)) as (H1 & H2 & H3 & H4).
    cbv zeta in *.
    split; [assumption|split; [lia|split; [constructor; [lia|assumption]|]]].
    destruct H4 as [H4|H4]; [|auto]. rewrite H4.
    destruct (Z.min_spec ts (promapi.Start r)) as [[_ ->]|[_ ->]]; auto.
Qed.

Lemma newest_fold (ranges : list promapi.MetricTimeRange) (ts : Time) :
  Forall (fun r => 0 < promapi.End_ r) ranges -> 0 < ts ->
  let m := fold_left
             (fun ts r => if Time_IsZero ts || Time_After (promapi.End_ r) ts
                          then promapi.End_ r else ts)
             ranges ts in
  ts <= m /\ Forall (fun r => promapi.End_ r <= m) ranges /\
  (m = ts \/ In m (map promapi.End_ ranges)).
Proof.
  set (f := fun (ts : Time) r => if Time_IsZero ts || Time_After (promapi.End_ r) ts
                                 then promapi.End_ r else ts).
  intros HF. revert ts. induction HF as [|r l Hr HF IH]; intros ts Hts; cbv zeta.
  - simpl. split; [lia|split; [constructor|auto]].
  - cbn [fold_left map In].
    assert (Hf : f ts r = Z.max ts (promapi.End_ r)).
    { unfold f, Time_IsZero, Time_After.
      destruct (Z.eqb_spec ts 0) as [?|_]; [lia|]. simpl.
      destruct (Z.ltb_spec ts (promapi.End_ r)); lia. }
    rewrite Hf.
    destruct (IH (Z.max ts (promapi.End_ r)) ltac:(lia)) as (H1 & H2 & H3).
    cbv zeta in *.
    split; [lia|split; [constructor; [lia|assumption]|]].
    destruct H3 as [H3|H3]; [|auto]. rewrite H3.
    destruct (Z.max_spec ts (promapi.End_ r)) as [[_ ->]|[_ ->]]; auto.
Qed.

(** X2: for ranges that start and end after the zero time, [oldest] is
    the least of their starts and [newest] the greatest of their ends. *)
Theorem oldest_newest_extremes (ranges : list promapi.MetricTimeRange) :
  ranges <> [] ->
  Forall (fun r => 0 < promapi.Start r /\ 0 < promapi.End_ r) ranges ->
  In (oldest ranges) (map promapi.Start ranges) /\
  Forall (fun r => oldest ranges <= promapi.Start r) ranges /\
  In (newest ranges) (map promapi.End_ ranges) /\
  Forall (fun r => promapi.End_ r <= newest ranges) ranges.
Proof.
  intros Hne HF. destruct ranges as [|r l]; [contradiction|].
  inversion HF as [|? ? [Hs He] HF']; subst.
  assert (HFs : Forall (fun r => 0 < promapi.Start r) l)
    by (eapply Forall_impl; [exact HF'|]; simpl; tauto).
  assert (HFe : Forall (fun r => 0 < promapi.End_ r) l)
    by (eapply Forall_impl; [exact HF'|]; simpl; tauto).
  unfold oldest, newest. simpl.
  destruct (oldest_fold l (promapi.Start r) HFs Hs) as (_ & O2 & O3 & O4).
  destruct (newest_fold l (promapi.End_ r) HFe He) as (N1 & N2 & N3).
  repeat split.
  - destruct O4 as [->|O4]; auto.
  - constructor; assumption.
  - destruct N3 as [->|N3]; auto.
  - constructor; assumption.
Qed.

Lemma oldest_newest_extremes_witness :
  In (oldest [promapi.mkMetricTimeRange 0 [] 30 40; promapi.mkMetricTimeRange 0 [] 10 20])
     (map promapi.Start
        [promapi.mkMetricTimeRange 0 [] 30 40; promapi.mkMetricTimeRange 0 [] 10 20]) /\
  Forall (fun r => oldest [promapi.mkMetricTimeRange 0 [] 30 40;
                           promapi.mkMetricTimeRange 0 [] 10 20] <= promapi.Start r)
    [promapi.mkMetricTimeRange 0 [] 30 40; promapi.mkMetricTimeRange 0 [] 10 20] /\
  In (newest [promapi.mkMetricTimeRange 0 [] 30 40; promapi.mkMetricTimeRange 0 [] 10 20])
     (map promapi.End_
        [promapi.mkMetricTimeRange 0 [] 30 40; promapi.mkMetricTimeRange 0 [] 10 20]) /\
  Forall (fun r => promapi.End_ r <= newest [promapi.mkMetricTimeRange 0 [] 30 40;
                                             promapi.mkMetricTimeRange 0 [] 10 20])
    [promapi.mkMetricTimeRange 0 [] 30 40; promapi.mkMetricTimeRange 0 [] 10 20].
Proof.
  apply oldest_newest_extremes; [discriminate|].
  repeat constructor.
Defined.

(** X3: [addNameSelectorIfNeeded] keeps the name and the matchers of the
    selector, adds only matchers on [__name__] taken from the outer
    matchers, adds nothing when the selector has a name or a matcher on
    [__name__], and adds nothing more when applied again. *)
Theorem addNameSelectorIfNeeded_idempotent (s : promParser.VectorSelector)
    (matchers : list labels.Matcher) :
  addNameSelectorIfNeeded (addNameSelectorIfNeeded s matchers) matchers
    = addNameSelectorIfNeeded s matchers /\
  promParser.Name (addNameSelectorIfNeeded s matchers) = promParser.Name s /\
  exists extra,
    promParser.LabelMatchers (addNameSelectorIfNeeded s matchers)
      = promParser.LabelMatchers s ++ extra /\
    Forall (fun lm => In lm matchers /\ labels.Name lm = labels.MetricName) extra /\
    (promParser.Name s <> "" \/
     Exists (fun lm => labels.Name lm = labels.MetricName) (promParser.LabelMatchers s) ->
     extra = []).
Proof.
  destruct s as [n o lms]. unfold addNameSelectorIfNeeded. simpl.
  destruct (String.eqb_spec n "") as [Hn|Hn]; simpl.
  2:{ rewrite (proj2 (String.eqb_neq n "")) by assumption. simpl.
      repeat split. exists []. rewrite app_nil_r. auto. }
  destruct (existsb (fun lm => String.eqb (labels.Name lm) labels.MetricName) lms) eqn:Hex.
  { subst n. simpl. rewrite Hex. repeat split. exists []. rewrite app_nil_r. auto. }
  subst n. simpl. split; [|split; [reflexivity|]].
  - rewrite existsb_app, Hex. simpl.
    destruct (filter (fun lm => labels.Name lm = labels.MetricName) matchers) as [|x l] eqn:Hf.
    + simpl. now rewrite !app_nil_r.
    + assert (Hx : labels.Name x = labels.MetricName).
      { assert (Hin : x ∈ filter (fun lm => labels.Name lm = labels.MetricName) matchers)
          by (rewrite Hf; left).
        apply list_elem_of_filter in Hin. tauto. }
      simpl. rewrite Hx. reflexivity.
  - eexists. split; [reflexivity|]. split.
    + apply Forall_forall. intros x Hx.
      rewrite list_elem_of_filter in Hx.
      destruct Hx as [Hx1 Hx2]. split; [now apply list_elem_of_In | assumption].
    + intros [H|H]; [congruence|]. exfalso.
      apply Exists_exists in H. destruct H as (x & Hx & Hxn).
      assert (existsb (fun lm => String.eqb (labels.Name lm) labels.MetricName) lms = true).
      { apply existsb_exists. exists x.
        split; [first [assumption | now apply list_elem_of_In]|]. now apply String.eqb_eq. }
      congruence.
Qed.

End Helpers2.

Section Helpers3.

Import Notions checks.

Variable E : Env.
Variable prom : promapi.FailoverGroup.

Lemma textAndSeverity_cases (settings : PromqlSeriesSettings)
    (name text : string) (s : Severity) :
  (name = "" \/ Forall (fun re => MatchString E re name = false) (ignoreMetricsRe settings) ->
   textAndSeverity E settings name text s = (text, s)) /\
  (textAndSeverity E settings name text s = (text, s) \/
   exists re,
     In re (ignoreMetricsRe settings) /\ MatchString E re name = true /\ name <> "" /\
     textAndSeverity E settings name text s
       = (text +:+ " Metric name `" +:+ name +:+ "` matches `promql/series` check ignore regexp `"
            +:+ re +:+ "`.", Warning)).
Proof.
  unfold textAndSeverity.
  destruct (find _ (ignoreMetricsRe settings)) as [re|] eqn:Hf.
  - apply find_some in Hf. destruct Hf as [Hin Hm].
    apply andb_true_iff in Hm. destruct Hm as [Hn Hm].
    apply negb_true_iff, String.eqb_neq in Hn.
    split.
    + intros [H|H]; [contradiction|]. rewrite Forall_forall in H.
      rewrite H in Hm by first [assumption | now apply list_elem_of_In]. discriminate.
    + right. exists re. auto.
  - split; auto.
Qed.

Lemma find_first_match {A} (f : A -> bool) (before : list A) (x : A) (after : list A) :
  Forall (fun y => f y = false) before ->
  f x = true ->
  find f (before ++ x :: after) = Some x.
Proof.
  induction 1 as [|y before Hy _ IH]; intros Hx; simpl.
  - now rewrite Hx.
  - rewrite Hy. now apply IH.
Qed.

(** X4: [textAndSeverity] returns the text and the severity it is given
    when the name is empty or matches none of the [ignoreMetrics] regexps;
    for a name that is not empty, when [re] is the first of these regexps
    that matches it, the severity is [Warning] and the text is the given
    one followed by a note that names the metric and [re]. *)
Theorem textAndSeverity_rewrites_ignored (settings : PromqlSeriesSettings)
    (name text : string) (s : Severity) :
  (name = "" \/ Forall (fun re => MatchString E re name = false) (ignoreMetricsRe settings) ->
   textAndSeverity E settings name text s = (text, s)) /\
  (forall before re after,
     name <> "" ->
     ignoreMetricsRe settings = before ++ re :: after ->
     Forall (fun r => MatchString E r name = false) before ->
     MatchString E re name = true ->
     textAndSeverity E settings name text s
       = (text +:+ " Metric name `" +:+ name +:+ "` matches `promql/series` check ignore regexp `"
            +:+ re +:+ "`.", Warning)).
Proof.
  split; [apply textAndSeverity_cases|].
  intros before re after Hn Hl Hb Hm. unfold textAndSeverity. rewrite Hl.
  apply String.eqb_neq in Hn.
  rewrite (find_first_match _ before re after); [reflexivity | | now rewrite Hn, Hm].
  eapply Forall_impl; [exact Hb|]. intros r Hr. simpl in Hr. now rewrite Hr, andb_false_r.
Qed.

Lemma checkOtherServer_fold_text (query : string) (servers : list promapi.FailoverGroup)
    (f : string * Z * State -> promapi.FailoverGroup -> string * Z * State) :
  (forall buf matches st p,
     f (buf, matches, st) p =
     let q := "count(" +:+ query +:+ ")" in
     let st := request (InstantQuery (promapi.Name p) q) st in
     match promapi.Query p q with
     | inl _ => (buf, matches, st)
     | inr qr =>
         if 0 <? sumSamples (promapi.QSeries qr)
         then (buf +:+ "- [" +:+ promapi.Name p +:+ "](" +:+ promapi.PublicURI p +:+
               "/graph?g0.expr=" +:+ query +:+ ")" +:+ nl,
               GoInt.add matches 1, st)
         else (buf, matches, st)
     end) ->
  forall buf matches st st',
    fst (fold_left f servers (buf, matches, st)) = fst (fold_left f servers (buf, matches, st')).
Proof.
  intros Hf. induction servers as [|p l IH]; intros buf matches st st'; [reflexivity|].
  cbn [fold_left]. rewrite !Hf. cbv zeta.
  destruct (promapi.Query p ("count(" +:+ query +:+ ")")) as [e|qr];
    [|destruct (0 <? sumSamples (promapi.QSeries qr))]; apply IH.
Qed.

Lemma checkOtherServer_fold (query : string) (servers : list promapi.FailoverGroup)
    (f : string * Z * State -> promapi.FailoverGroup -> string * Z * State) :
  (forall buf matches st p,
     f (buf, matches, st) p =
     let q := "count(" +:+ query +:+ ")" in
     let st := request (InstantQuery (promapi.Name p) q) st in
     match promapi.Query p q with
     | inl _ => (buf, matches, st)
     | inr qr =>
         if 0 <? sumSamples (promapi.QSeries qr)
         then (buf +:+ "- [" +:+ promapi.Name p +:+ "](" +:+ promapi.PublicURI p +:+
               "/graph?g0.expr=" +:+ query +:+ ")" +:+ nl,
               GoInt.add matches 1, st)
         else (buf, matches, st)
     end) ->
  forall buf matches st,
  snd (fold_left f servers (buf, matches, st))
    = mkState (problems st)
        (requests st ++
         map (fun p => InstantQuery (promapi.Name p) ("count(" +:+ query +:+ ")")) servers) /\
  (Forall (fun p => forall qr, promapi.Query p ("count(" +:+ query +:+ ")") = inr qr ->
                               sumSamples (promapi.QSeries qr) <= 0) servers ->
   snd (fst (fold_left f servers (buf, matches, st))) = matches).
Proof.
  intros Hf. induction servers as [|p l IH]; intros buf matches st.
  - simpl. rewrite app_nil_r. destruct st. auto.
  - cbn [fold_left map]. rewrite Hf. cbv zeta.
    destruct (promapi.Query p ("count(" +:+ query +:+ ")")) as [e|qr] eqn:Hq;
      [|destruct (0 <? sumSamples (promapi.QSeries qr)) eqn:Hpos].
    + destruct (IH buf matches
                  (request (InstantQuery (promapi.Name p) ("count(" +:+ query +:+ ")")) st))
        as [H1 H2]. rewrite H1. simpl. rewrite <- app_assoc. split; [reflexivity|].
      intros HF. inversion HF; subst. auto.
    + split.
      * destruct (IH (buf +:+ "- [" +:+ promapi.Name p +:+ "](" +:+ promapi.PublicURI p +:+
                      "/graph?g0.expr=" +:+ query +:+ ")" +:+ nl) (GoInt.add matches 1)
                    (request (InstantQuery (promapi.Name p) ("count(" +:+ query +:+ ")")) st))
          as [H1 _]. rewrite H1. simpl. now rewrite <- app_assoc.
      * intros HF. inversion HF as [|? ? Hp HF']; subst.
        specialize (Hp qr Hq). apply Z.ltb_lt in Hpos. lia.
    + destruct (IH buf matches
                  (request (InstantQuery (promapi.Name p) ("count(" +:+ query +:+ ")")) st))
        as [H1 H2]. rewrite H1. simpl. rewrite <- app_assoc. split; [reflexivity|].
      intros HF. inversion HF; subst. auto.
Qed.

Lemma checkOtherServer_result (ctx : Context) (query : string) (st : State) :
  snd (checkOtherServer ctx query st)
    = mkState (problems st)
        (requests st ++
         map (fun p => InstantQuery (promapi.Name p) ("count(" +:+ query +:+ ")"))
           (default [] (ctxServers ctx))) /\
  (Forall (fun p => forall qr, promapi.Query p ("count(" +:+ query +:+ ")") = inr qr ->
                               sumSamples (promapi.QSeries qr) <= 0)
     (default [] (ctxServers ctx)) ->
   fst (checkOtherServer ctx query st) = SeriesCheckCommonProblemDetails).
Proof.
  unfold checkOtherServer.
  destruct (ctxServers ctx) as [[|p l]|]; simpl default.
  - simpl. rewrite app_nil_r. destruct st; auto.
  - match goal with
    | |- context [fold_left ?f (p :: l) (?b, 0, st)] =>
        destruct (checkOtherServer_fold query (p :: l) f
                    ltac:(intros; reflexivity) b 0 st) as [H1 H2];
        destruct (fold_left f (p :: l) (b, 0, st)) as [[buf matches] st'] eqn:Hr
    end.
    simpl in H1, H2. subst st'. split.
    + now destruct (0 <? matches).
    + intros HF. rewrite (H2 HF). reflexivity.
  - simpl. rewrite app_nil_r. destruct st; auto.
Qed.

(** The details do not depend on the state. *)
Lemma checkOtherServer_details_state (ctx : Context) (query : string) (st st' : State) :
  fst (checkOtherServer ctx query st) = fst (checkOtherServer ctx query st').
Proof.
  unfold checkOtherServer.
  destruct (ctxServers ctx) as [[|p l]|]; [reflexivity| |reflexivity].
  match goal with
  | |- context [fold_left ?f (p :: l) (?b, 0, st)] =>
      pose proof (checkOtherServer_fold_text query (p :: l) f
                    ltac:(intros; reflexivity) b 0 st st') as H;
      destruct (fold_left f (p :: l) (b, 0, st)) as [[buf matches] s1];
      destruct (fold_left f (p :: l) (b, 0, st')) as [[buf' matches'] s2]
  end.
  simpl in H. inversion H; subst. now destruct (0 <? matches').
Qed.

Lemma find_Forall_none {A} (f : A -> bool) (l : list A) :
  Forall (fun x => f x = false) l -> find f l = None.
Proof. induction 1 as [|x l Hx _ IH]; simpl; [reflexivity|]. now rewrite Hx. Qed.

(** X5: [checkOtherServer] sends [count(query)] once to every server of
    the context, in their order, and reports no problem itself; when no
    server answers with a count above zero (or there is no server) the
    details are the common ones. *)
Theorem checkOtherServer_asks_every_server (ctx : Context) (query : string) (st : State) :
  snd (checkOtherServer ctx query st)
    = mkState (problems st)
        (requests st ++
         map (fun p => InstantQuery (promapi.Name p) ("count(" +:+ query +:+ ")"))
           (default [] (ctxServers ctx))) /\
  (Forall (fun p => forall qr, promapi.Query p ("count(" +:+ query +:+ ")") = inr qr ->
                               sumSamples (promapi.QSeries qr) <= 0)
     (default [] (ctxServers ctx)) ->
   fst (checkOtherServer ctx query st) = SeriesCheckCommonProblemDetails).
Proof. apply checkOtherServer_result. Qed.

End Helpers3.

(** ** What the loop keeps *)

Section Appends.

Import Notions checks.

Variable E : Env.
Variable prom : promapi.FailoverGroup.
Variable ctx : Context.
Variable settings : PromqlSeriesSettings.
Variable rule : parser.Rule.
Variable entries : list discovery.Entry.
Variable expr : parser.PromQLExpr.
Variable params : promapi.RangeParams.

#[local] Abbreviation located :=
  (fun p : Problem =>
     Reporter p = "promql/series" /\
     (Lines p = parser.YLines (parser.EValue expr) \/ Lines p = parser.Lines rule)).

Lemma extends_refl (P : Problem -> Prop) st : extends P st st.
Proof. exists [], []. now rewrite !app_nil_r. Qed.

Lemma extends_trans (P : Problem -> Prop) st1 st2 st3 :
  extends P st1 st2 -> extends P st2 st3 -> extends P st1 st3.
Proof.
  intros (ps & rs & H1 & H2 & H3) (ps' & rs' & H1' & H2' & H3').
  exists (ps ++ ps'), (rs ++ rs').
  rewrite H1', H1, H2', H2, !app_assoc. repeat split. now apply Forall_app.
Qed.

Lemma extends_emit (P : Problem -> Prop) st st' p :
  extends P st st' -> P p -> extends P st (emit p st').
Proof.
  intros H Hp. apply (extends_trans P st st'); [assumption|].
  exists [p], []. simpl. rewrite app_nil_r. auto.
Qed.

Lemma extends_emitAll (P : Problem -> Prop) st st' ps :
  extends P st st' -> Forall P ps -> extends P st (emitAll ps st').
Proof.
  intros H Hp. apply (extends_trans P st st'); [assumption|].
  exists ps, []. simpl. rewrite app_nil_r. auto.
Qed.

Lemma extends_request (P : Problem -> Prop) st st' r :
  extends P st st' -> extends P st (request r st').
Proof.
  intros H. apply (extends_trans P st st'); [assumption|].
  exists [], [r]. simpl. rewrite app_nil_r. auto.
Qed.

Lemma extends_fold {A} (P : Problem -> Prop) (f : State -> A -> State) (l : list A) :
  (forall st x, extends P st (f st x)) ->
  forall st, extends P st (fold_left f l st).
Proof.
  intros Hf. induction l as [|x l IH]; intros st; simpl.
  - apply extends_refl.
  - eapply extends_trans; [apply Hf | apply IH].
Qed.

Lemma queryProblem_located err : located (queryProblem E prom err expr).
Proof.
  unfold queryProblem.
  destruct (textAndSeverityFromError E err Reporter_ (promapi.Name prom) Bug).
  simpl. auto.
Qed.

Lemma fold_left_invariant {A B} (I : A -> Prop) (f : A -> B -> A) (l : list B) (a : A) :
  (forall a x, I a -> I (f a x)) -> I a -> I (fold_left f l a).
Proof.
  intros Hf. revert a. induction l as [|x l IH]; intros a Ha; simpl; [assumption|].
  apply IH, Hf, Ha.
Qed.

Lemma getMinAge_located selector : Forall located (snd (getMinAge E rule selector)).
Proof.
  unfold getMinAge.
  apply (fold_left_invariant (fun a => Forall located (snd a))); [|constructor].
  intros a x Ha.
  apply (fold_left_invariant (fun a => Forall located (snd a))); [|assumption].
  intros b y Hb.
  destruct (HasPrefix x y); [|assumption].
  destruct (ParseDuration E (TrimPrefix x y)); simpl; [|assumption].
  apply Forall_app. split; [assumption|].
  constructor; [split; [reflexivity | right; reflexivity] | constructor].
Qed.

Ltac located_step :=
  first
    [ apply extends_refl
    | apply extends_emit; [| first [apply queryProblem_located | simpl; auto]]
    | apply extends_emitAll; [| apply getMinAge_located]
    | apply extends_request ].

Lemma requiredLabelStep_extends selector promUptime trs st name :
  extends located st (requiredLabelStep E prom expr params selector promUptime trs st name).
Proof.
  unfold requiredLabelStep, rangeQuery.
  destruct (promapi.RangeQuery prom _ params) as [e|r]; [repeat located_step|].
  destruct (negb _); [repeat located_step|].
  destruct (_ && _); repeat located_step.
Qed.

Lemma matcherStep_extends selector promUptime trs st lm :
  extends located st (matcherStep E prom settings rule expr params selector promUptime trs st lm).
Proof.
  unfold matcherStep, rangeQuery.
  destruct (String.eqb _ _); [apply extends_refl|].
  destruct (_ && _); [apply extends_refl|].
  destruct (isLabelValueIgnored _ _ _ _); [apply extends_refl|].
  destruct (promapi.RangeQuery prom _ params) as [e|r]; [repeat located_step|].
  destruct (Nat.eqb _ 0).
  { destruct (textAndSeverity _ _ _ _ _). repeat located_step. }
  destruct (_ && _ && _).
  { destruct (negb _); [repeat located_step|].
    destruct (getMinAge E rule selector) as [minAge p] eqn:Hm.
    assert (Hp : Forall located p).
    { pose proof (getMinAge_located selector) as H. now rewrite Hm in H. }
    destruct (negb _).
    - apply extends_emitAll; [repeat located_step | assumption].
    - destruct (textAndSeverity _ _ _ _ _).
      apply extends_emit; [|simpl; auto].
      apply extends_emitAll; [repeat located_step | assumption]. }
  destruct (_ && _); repeat located_step.
Qed.

Lemma checkHistory_extends selector promUptime trs st :
  extends located st (checkHistory E prom settings rule expr params selector promUptime trs st).
Proof.
  unfold checkHistory.
  pose proof (extends_fold located _ (labelNamesOf (promParser.LabelMatchers selector))
                (requiredLabelStep_extends selector promUptime trs) st) as H1.
  destruct (hasProblems _); [assumption|].
  destruct (_ && _ && _).
  { destruct (getMinAge E rule selector) as [minAge p] eqn:Hm.
    assert (Hp : Forall located p).
    { pose proof (getMinAge_located selector) as H. now rewrite Hm in H. }
    destruct (negb _).
    - now apply extends_emitAll.
    - destruct (textAndSeverity _ _ _ _ _).
      apply extends_emit; [|simpl; auto]. now apply extends_emitAll. }
  match goal with
  | |- context [fold_left ?f ?l ?a] =>
      pose proof (extends_fold located f l (matcherStep_extends selector promUptime trs) a)
        as H2;
      pose proof (extends_trans _ _ _ _ H1 H2) as H3
  end.
  destruct (hasProblems _); [assumption|].
  destruct (_ && _); [|assumption].
  apply extends_emit; [assumption | simpl; auto].
Qed.

Lemma checkNoHistory_extends selector trs st :
  extends located st (checkNoHistory E prom ctx settings entries expr selector trs st).
Proof.
  unfold checkNoHistory.
  destruct (find _ entries); [repeat located_step|].
  destruct (textAndSeverity _ _ _ _ _).
  destruct (checkOtherServer ctx (selString E selector) st) as [details st'] eqn:Ho.
  apply extends_emit; [|simpl; auto].
  pose proof (checkOtherServer_result ctx (selString E selector) st) as [H _].
  rewrite Ho in H. simpl in H. subst st'.
  eexists [], _. simpl. rewrite app_nil_r. auto.
Qed.

Lemma checkSelector_extends selector st :
  extends located st (checkSelector E prom ctx settings rule entries expr params selector st).
Proof.
  unfold checkSelector.
  destruct (isAlertsMetric _).
  { unfold checkAlerts. destruct (negb _); [|apply extends_refl].
    destruct (find _ entries); repeat located_step. }
  unfold checkSeries, instantSeriesCount.
  destruct (promapi.Query prom _) as [e|qr]; [repeat located_step|].
  destruct (0 <? _); [repeat located_step|].
  destruct (uptimeSeries prom params _) as [promUptime st1] eqn:Hup.
  assert (H1 : extends located st st1).
  { apply (f_equal snd) in Hup. rewrite uptimeSeries_requests in Hup. simpl in Hup.
    subst st1. repeat located_step. }
  unfold rangeQuery.
  destruct (promapi.RangeQuery prom _ params) as [e|trs]; [repeat located_step; assumption|].
  destruct (Nat.eqb _ 0).
  - eapply extends_trans; [|apply checkNoHistory_extends]. now apply extends_request.
  - eapply extends_trans; [|apply checkHistory_extends]. now apply extends_request.
Qed.

Lemma checkSelectors_extends (selectors : list promParser.VectorSelector)
    (done : gmap string bool) (st : State) :
  extends located st
    (checkSelectors E prom ctx settings rule entries expr params selectors done st).
Proof.
  revert done st. induction selectors as [|s l IH]; intros done st; simpl.
  - apply extends_refl.
  - destruct (done !! selString E s); [apply IH|].
    destruct (isDisabled E rule s); [apply IH|].
    eapply extends_trans; [apply checkSelector_extends | apply IH].
Qed.

(** X6: the loop over the selectors only appends: the problems and
    requests it starts with stay a prefix of those it ends with, and every
    problem it appends is reported by [promql/series] on the lines of the
    expression or, for a malformed [min-age] comment, on the lines of the
    rule. *)
Theorem checkSelectors_appends (selectors : list promParser.VectorSelector)
    (done : gmap string bool) (st : State) :
  exists ps rs,
    problems (checkSelectors E prom ctx settings rule entries expr params selectors done st)
      = problems st ++ ps /\
    requests (checkSelectors E prom ctx settings rule entries expr params selectors done st)
      = requests st ++ rs /\
    Forall (fun p => Reporter p = "promql/series" /\
                     (Lines p = parser.YLines (parser.EValue expr) \/
                      Lines p = parser.Lines rule)) ps.
Proof. apply checkSelectors_extends. Qed.

End Appends.

(** ** Results of [Check] *)

Section CheckResults.

Import Notions checks.

Variable E : Env.
Variable prom : promapi.FailoverGroup.
Variable ctx : Context.
Variable rule : parser.Rule.
Variable entries : list discovery.Entry.

(** X7: every problem [Check] returns is reported by [promql/series]
    and lies on the lines of the expression of the rule or on the lines of
    the rule. *)
Theorem Check_problems_located (expr : parser.PromQLExpr) (st : State) :
  parser.Rule_Expr rule = Some expr ->
  Check E prom ctx rule entries = Some st ->
  Forall (fun p => Reporter p = "promql/series" /\
                   (Lines p = parser.YLines (parser.EValue expr) \/
                    Lines p = parser.Lines rule))
    (problems st).
Proof.
  intros He Hc. unfold Check in Hc. rewrite He in Hc.
  destruct (parser.SyntaxError expr); [inversion Hc; constructor|].
  destruct (parser.Query expr) as [q|]; [|discriminate].
  inversion Hc as [Hst]. clear Hc.
  match goal with
  | |- context [checkSelectors E prom ctx ?s rule entries expr ?p ?l ?d ?st0] =>
      destruct (checkSelectors_extends E prom ctx s rule entries expr p l d st0)
        as (ps & rs & H1 & _ & H3)
  end.
  rewrite H1. exact H3.
Qed.

End CheckResults.

Section Errors.

Import Notions checks.

Variable E : Env.
Variable prom : promapi.FailoverGroup.
Variable ctx : Context.
Variable settings : PromqlSeriesSettings.
Variable rule : parser.Rule.
Variable entries : list discovery.Entry.
Variable expr : parser.PromQLExpr.
Variable params : promapi.RangeParams.

#[local] Abbreviation loop := (checkSelectors E prom ctx settings rule entries expr params).

(** X9: when the instant query [count(S)] of a selector fails, the
    check reports the error as one problem, sends no other request for the
    selector and goes on with the next selector. *)
Theorem instant_query_error_reported selector rest (done : gmap string bool) st err :
  done !! selString E selector = None ->
  isDisabled E rule selector = false ->
  isAlertsMetric (metricNameOf selector) = false ->
  promapi.Query prom ("count(" +:+ selString E selector +:+ ")") = inl err ->
  loop (selector :: rest) done st
  = loop rest (<[selString E selector := true]> done)
      (emit (queryProblem E prom err expr)
         (request (InstantQuery (promapi.Name prom)
                     ("count(" +:+ selString E selector +:+ ")")) st)).
Proof.
  intros Hd Hdis Ha Hq. rewrite checkSelectors_visit by assumption. f_equal.
  unfold checkSelector. rewrite Ha. unfold checkSeries, instantSeriesCount.
  now rewrite Hq.
Qed.

(** X10: when the range query for the bare selector fails, the check
    reports that error as one problem after its three requests (also when
    the query for the uptime metric failed, which is not reported) and goes
    on with the next selector. *)
Theorem base_query_error_reported selector rest (done : gmap string bool) st qr err :
  done !! selString E selector = None ->
  isDisabled E rule selector = false ->
  isAlertsMetric (metricNameOf selector) = false ->
  promapi.Query prom ("count(" +:+ selString E selector +:+ ")") = inr qr ->
  sumSamples (promapi.QSeries qr) <= 0 ->
  promapi.RangeQuery prom ("count(" +:+ selString E (stripLabels selector) +:+ ")") params
    = inl err ->
  loop (selector :: rest) done st
  = loop rest (<[selString E selector := true]> done)
      (emit (queryProblem E prom err expr)
         (mkState (problems st)
            (requests st ++
             [InstantQuery (promapi.Name prom) ("count(" +:+ selString E selector +:+ ")");
              RangeQuery (promapi.Name prom) ("count(" +:+ promapi.UptimeMetric prom +:+ ")");
              RangeQuery (promapi.Name prom)
                ("count(" +:+ selString E (stripLabels selector) +:+ ")")]))).
Proof.
  intros Hd Hdis Ha Hq Hc Hr. rewrite checkSelectors_visit by assumption. f_equal.
  unfold checkSelector. rewrite Ha. unfold checkSeries, instantSeriesCount.
  rewrite Hq. replace (0 <? sumSamples (promapi.QSeries qr)) with false
    by (symmetry; apply Z.ltb_ge; exact Hc).
  destruct (uptimeSeries prom params _) as [promUptime st1] eqn:Hup.
  apply (f_equal snd) in Hup. rewrite uptimeSeries_requests in Hup. simpl in Hup.
  subst st1. unfold rangeQuery. rewrite Hr. unfold emit, request. simpl.
  now rewrite <- !app_assoc.
Qed.

(** X11: a metric that was never there and that no recording rule
    among the entries generates is reported once, as a [Bug] when its name
    matches no [ignoreMetrics] regexp, with the details [checkOtherServer]
    gives, after the requests to the server and to the other servers. *)
Theorem never_present_metric_is_bug selector rest (done : gmap string bool) st qr trs :
  done !! selString E selector = None ->
  isDisabled E rule selector = false ->
  isAlertsMetric (metricNameOf selector) = false ->
  promapi.Query prom ("count(" +:+ selString E selector +:+ ")") = inr qr ->
  sumSamples (promapi.QSeries qr) <= 0 ->
  promapi.RangeQuery prom ("count(" +:+ selString E (stripLabels selector) +:+ ")") params
    = inr trs ->
  promapi.Ranges (promapi.Series trs) = [] ->
  Forall (fun e => isRecordingRuleNamed (selString E (stripLabels selector)) e = false)
    entries ->
  Forall (fun re => MatchString E re (selString E (stripLabels selector)) = false)
    (ignoreMetricsRe settings) ->
  exists st',
    loop (selector :: rest) done st = loop rest (<[selString E selector := true]> done) st' /\
    problems st' = problems st ++
      [mkProblem (parser.YLines (parser.EValue expr)) "promql/series"
         (promText E (promapi.Name prom) (promapi.RURI trs) +:+
          " didn't have any series for `" +:+ selString E (stripLabels selector) +:+
          "` metric in the last " +:+ sinceDesc E (promapi.From (promapi.Series trs)) +:+ ".")
         (fst (checkOtherServer ctx (selString E selector) st))
         Bug] /\
    requests st' = requests st ++
      [InstantQuery (promapi.Name prom) ("count(" +:+ selString E selector +:+ ")");
       RangeQuery (promapi.Name prom) ("count(" +:+ promapi.UptimeMetric prom +:+ ")");
       RangeQuery (promapi.Name prom)
         ("count(" +:+ selString E (stripLabels selector) +:+ ")")] ++
      map (fun p => InstantQuery (promapi.Name p)
                      ("count(" +:+ selString E selector +:+ ")"))
        (default [] (ctxServers ctx)).
Proof.
  intros Hd Hdis Ha Hq Hc Hr Hnil Hrec Hre.
  rewrite checkSelectors_visit by assumption.
  eexists. split; [reflexivity|].
  unfold checkSelector. rewrite Ha. unfold checkSeries, instantSeriesCount.
  rewrite Hq. replace (0 <? sumSamples (promapi.QSeries qr)) with false
    by (symmetry; apply Z.ltb_ge; exact Hc).
  destruct (uptimeSeries prom params _) as [promUptime st1] eqn:Hup.
  apply (f_equal snd) in Hup. rewrite uptimeSeries_requests in Hup. simpl in Hup.
  subst st1. unfold rangeQuery. rewrite Hr. simpl promapi.Ranges. rewrite Hnil. simpl.
  unfold checkNoHistory.
  rewrite (find_Forall_none _ _ Hrec).
  destruct (textAndSeverity_cases E settings
              (selString E (stripLabels selector))
              (promText E (promapi.Name prom) (promapi.RURI trs) +:+
               " didn't have any series for `" +:+ selString E (stripLabels selector) +:+
               "` metric in the last " +:+ sinceDesc E (promapi.From (promapi.Series trs)) +:+ ".")
              Bug) as [Hts _].
  simpl. rewrite Hts by (right; assumption).
  match goal with
  | |- context [checkOtherServer ctx ?q ?s] =>
      pose proof (checkOtherServer_result ctx q s) as [Ho _];
      pose proof (checkOtherServer_details_state ctx q s st) as Hd';
      destruct (checkOtherServer ctx q s) as [details st'] eqn:Hos
  end.
  simpl in Ho. subst st'. simpl. rewrite <- !app_assoc. simpl.
  split; [|reflexivity]. simpl in Hd'. now rewrite Hd'.
Qed.

End Errors.

Section OnScenarios2.

Import checks Fixture Scenarios.

Lemma textAndSeverity_rewrites_ignored_witness :
  textAndSeverity env (mkSettings "" "" ["^bar$"; "^foo$"] ["^bar$"; "^foo$"; "^foo$"] 0 0)
    "foo" "Gone." Bug
  = ("Gone. Metric name `foo` matches `promql/series` check ignore regexp `^foo$`.", Warning).
Proof.
  destruct (textAndSeverity_rewrites_ignored env
              (mkSettings "" "" ["^bar$"; "^foo$"] ["^bar$"; "^foo$"; "^foo$"] 0 0)
              "foo" "Gone." Bug) as [_ H].
  apply (H ["^bar$"] "^foo$" ["^foo$"]);
    [discriminate | reflexivity | repeat constructor | reflexivity].
Defined.

Lemma Check_problems_located_witness :
  Forall (fun p => Reporter p = "promql/series" /\
                   (Lines p = parser.YLines (parser.EValue alertsMissingExpr) \/
                    Lines p = parser.Lines alertsMissingRule))
    [alertsMissingProblem].
Proof.
  apply (Check_problems_located env promEmpty noContext alertsMissingRule []
           alertsMissingExpr (mkState [alertsMissingProblem] []));
    [reflexivity | vm_compute; reflexivity].
Defined.

Lemma instant_query_error_reported_witness :
  problems (checkSelectors env promDown noContext settings fooRule [] fooExpr params
              [foo] ∅ noState)
  = [queryProblem env promDown "connection refused" fooExpr].
Proof.
  rewrite (instant_query_error_reported env promDown noContext settings fooRule []
             fooExpr params foo [] ∅ noState "connection refused");
    reflexivity.
Defined.

Lemma base_query_error_reported_witness :
  problems (checkSelectors env promRangeDown noContext settings fooRule [] fooExpr params
              [foo] ∅ noState)
  = [queryProblem env promRangeDown "timeout" fooExpr].
Proof.
  rewrite (base_query_error_reported env promRangeDown noContext settings fooRule []
             fooExpr params foo [] ∅ noState (promapi.mkQueryResult "http://prom" [])
             "timeout");
    [reflexivity | reflexivity | reflexivity | reflexivity | reflexivity
    | vm_compute; discriminate | reflexivity].
Defined.

Lemma never_present_metric_is_bug_witness :
  exists p,
    problems (checkSelectors env promEmpty noContext settings fooRule [] fooExpr params
                [foo] ∅ noState) = [p] /\
    Severity_ p = Bug.
Proof.
  destruct (never_present_metric_is_bug env promEmpty noContext settings fooRule []
              fooExpr params foo [] ∅ noState
              (promapi.mkQueryResult "http://prom" [])
              (promapi.mkRangeQueryResult "http://prom"
                 (promapi.mkSeriesTimeRanges (promapi.PStart params) (promapi.PEnd params)
                    (promapi.PStep params) [] [])))
    as (st' & H1 & H2 & _);
    [reflexivity | reflexivity | reflexivity | reflexivity | vm_compute; discriminate
    | reflexivity | reflexivity | constructor | constructor |].
  eexists. rewrite H1. simpl. rewrite H2. split; reflexivity.
Defined.

End OnScenarios2.

(** ** Comments that steer the check *)

Section GoStringFacts.

Lemma prefix_append (p s : string) : String.prefix p (p +:+ s) = true.
Proof.
  induction p as [|c p IH]; simpl; [now destruct s|].
  destruct (ascii_dec c c); [exact IH | contradiction].
Qed.

Lemma length_append (s t : string) :
  String.length (s +:+ t) = (String.length s + String.length t)%nat.
Proof. induction s as [|c s IH]; simpl; [reflexivity | now rewrite IH]. Qed.

Lemma substring_whole (s : string) : String.substring 0 (String.length s) s = s.
Proof. induction s as [|c s IH]; simpl; [reflexivity | now rewrite IH]. Qed.

Lemma substring_append_l (s t : string) :
  String.substring 0 (String.length s) (s +:+ t) = s.
Proof.
  induction s as [|c s IH]; simpl; [now destruct t | now rewrite IH].
Qed.

Lemma substring_append_r (s t : string) :
  String.substring (String.length s) (String.length t) (s +:+ t) = t.
Proof. induction s as [|c s IH]; simpl; [apply substring_whole | exact IH]. Qed.

Lemma HasPrefix_append (p s : string) : HasPrefix (p +:+ s) p = true.
Proof. apply prefix_append. Qed.

Lemma TrimPrefix_append (p s : string) : TrimPrefix (p +:+ s) p = s.
Proof.
  unfold TrimPrefix. rewrite HasPrefix_append, length_append.
  replace (String.length p + String.length s - String.length p)%nat
    with (String.length s) by lia.
  apply substring_append_r.
Qed.

Lemma append_cons (c : ascii) (s t : string) : String c s +:+ t = String c (s +:+ t).
Proof. reflexivity. Qed.

Lemma append_assoc3 (a b c : string) : (a +:+ b) +:+ c = a +:+ (b +:+ c).
Proof.
  induction a as [|x a IH]; [reflexivity|].
  rewrite !append_cons. now rewrite IH.
Qed.

Lemma revString_acc (s acc : string) :
  revString s acc = revString s "" +:+ acc.
Proof.
  revert acc. induction s as [|c s IH]; intros acc; simpl; [reflexivity|].
  rewrite (IH (String c acc)), (IH (String c "")), append_assoc3. reflexivity.
Qed.

Lemma revString_append (s t acc : string) :
  revString (s +:+ t) acc = revString t (revString s acc).
Proof. revert acc. induction s as [|c s IH]; intros acc; simpl; [reflexivity | apply IH]. Qed.

Lemma HasSuffix_append (s t : string) : HasSuffix (s +:+ t) t = true.
Proof.
  unfold HasSuffix. rewrite revString_append, (revString_acc t (revString s "")).
  apply prefix_append.
Qed.

Lemma TrimSuffix_append (s t : string) : TrimSuffix (s +:+ t) t = s.
Proof.
  unfold TrimSuffix. rewrite HasSuffix_append, length_append.
  replace (String.length s + String.length t - String.length t)%nat
    with (String.length s) by lia.
  apply substring_append_l.
Qed.

End GoStringFacts.

Section Comments.

Import Notions checks.

Variable E : Env.
Variable prom : promapi.FailoverGroup.

Lemma OnlyDisable_In (m : string) (cs : list comments.Comment) :
  In (comments.DisableComment m) cs <-> In m (comments.OnlyDisable cs).
Proof.
  induction cs as [|c cs IH]; simpl; [tauto|].
  destruct c as [m'|u m'|v|t]; simpl.
  - split; intros [H|H].
    + left. congruence.
    + right. now apply IH.
    + left. congruence.
    + right. now apply IH.
  - split; [intros [H|H]; [discriminate | now apply IH] | intros H; right; now apply IH].
  - split; [intros [H|H]; [discriminate | now apply IH] | intros H; right; now apply IH].
  - split; [intros [H|H]; [discriminate | now apply IH] | intros H; right; now apply IH].
Qed.

Lemma OnlyRuleSet_In (v : string) (cs : list comments.Comment) :
  In (comments.RuleSetComment v) cs <-> In v (comments.OnlyRuleSet cs).
Proof.
  induction cs as [|c cs IH]; simpl; [tauto|].
  destruct c as [m'|u m'|v'|t]; simpl.
  - split; [intros [H|H]; [discriminate | now apply IH] | intros H; right; now apply IH].
  - split; [intros [H|H]; [discriminate | now apply IH] | intros H; right; now apply IH].
  - split; intros [H|H].
    + left. congruence.
    + right. now apply IH.
    + left. congruence.
    + right. now apply IH.
  - split; [intros [H|H]; [discriminate | now apply IH] | intros H; right; now apply IH].
Qed.

Lemma OnlyRuleSet_app (cs cs' : list comments.Comment) :
  comments.OnlyRuleSet (cs ++ cs') = comments.OnlyRuleSet cs ++ comments.OnlyRuleSet cs'.
Proof.
  induction cs as [|c cs IH]; simpl; [reflexivity|].
  destruct c; simpl; now rewrite IH.
Qed.

Lemma matcherEq_refl (l : labels.Matcher) : matcherEq l l = true.
Proof.
  unfold matcherEq. rewrite bool_decide_true by reflexivity.
  now rewrite !String.eqb_refl.
Qed.

Lemma disable_form (cs : string) :
  HasPrefix (SeriesCheckName +:+ "(" +:+ cs +:+ ")") (SeriesCheckName +:+ "(")
  && HasSuffix (SeriesCheckName +:+ "(" +:+ cs +:+ ")") ")" = true /\
  TrimSuffix (TrimPrefix (SeriesCheckName +:+ "(" +:+ cs +:+ ")") (SeriesCheckName +:+ "("))
    ")" = cs.
Proof.
  assert (H1 : SeriesCheckName +:+ "(" +:+ cs +:+ ")"
               = (SeriesCheckName +:+ "(") +:+ (cs +:+ ")"))
    by (now rewrite append_assoc3).
  assert (H2 : SeriesCheckName +:+ "(" +:+ cs +:+ ")"
               = (SeriesCheckName +:+ "(" +:+ cs) +:+ ")")
    by (now rewrite !append_assoc3).
  split.
  - apply andb_true_iff. split.
    + rewrite H1. apply HasPrefix_append.
    + rewrite H2. apply HasSuffix_append.
  - rewrite H1, TrimPrefix_append. apply TrimSuffix_append.
Qed.

Lemma isDisabledBy_In (disables : list string) (selector : promParser.VectorSelector)
    (cs : string) :
  In (SeriesCheckName +:+ "(" +:+ cs +:+ ")") disables ->
  cs = selString E selector \/ cs = promParser.Name selector \/
  (exists ms, ParseMetricSelector E cs = inr ms /\
              Forall (fun l => In l (promParser.LabelMatchers selector)) ms) ->
  isDisabledBy E disables selector = true.
Proof.
  intros Hin Hcs. destruct (disable_form cs) as [Hform Htrim].
  induction disables as [|m rest IH]; [destruct Hin|].
  cbn [isDisabledBy]. destruct Hin as [->|Hin].
  - rewrite Hform, Htrim.
    destruct Hcs as [->|[->|(ms & Hp & Hall)]].
    + now rewrite String.eqb_refl.
    + rewrite String.eqb_refl. now rewrite orb_true_r.
    + destruct (_ || _); [reflexivity|]. rewrite Hp.
      replace (forallb _ ms) with true; [reflexivity|].
      symmetry. apply forallb_forall. intros l Hl.
      rewrite Forall_forall in Hall.
      apply existsb_exists. exists l. split; [|apply matcherEq_refl].
      apply Hall. first [assumption | now apply list_elem_of_In].
  - specialize (IH Hin). clear Hform Htrim Hcs Hin.
    destruct (HasPrefix m _ && HasSuffix m _); [|exact IH].
    destruct (String.eqb _ _ || String.eqb _ _); [reflexivity|].
    destruct (ParseMetricSelector E _) as [e|ms]; [exact IH|].
    destruct (forallb _ ms); [reflexivity | exact IH].
Qed.

Lemma isDisabledBy_other_form (disables : list string) (selector : promParser.VectorSelector) :
  Forall (fun m => HasPrefix m (SeriesCheckName +:+ "(") && HasSuffix m ")" = false) disables ->
  isDisabledBy E disables selector = false.
Proof.
  induction 1 as [|m rest Hm _ IH]; [reflexivity|].
  cbn [isDisabledBy]. now rewrite Hm.
Qed.

Section Loop.

Variable ctx : Context.
Variable settings : PromqlSeriesSettings.
Variable rule : parser.Rule.
Variable entries : list discovery.Entry.
Variable expr : parser.PromQLExpr.
Variable params : promapi.RangeParams.

#[local] Abbreviation loop := (checkSelectors E prom ctx settings rule entries expr params).

(** X12: a comment [disable promql/series(M)] on the rule disables a
    selector when [M] is the selector as printed, or its metric name, or a
    list of matchers that the selector all carries; the loop then passes
    the selector over without any request and without any problem: it goes
    on with the rest of the selectors in the same state, the selector
    marked as seen. *)
Theorem disable_comment_skips_selector (selector : promParser.VectorSelector) (cs : string) :
  In (comments.DisableComment ("promql/series(" +:+ cs +:+ ")")) (parser.Comments rule) ->
  cs = selString E selector \/ cs = promParser.Name selector \/
  (exists ms, ParseMetricSelector E cs = inr ms /\
              Forall (fun l => In l (promParser.LabelMatchers selector)) ms) ->
  isDisabled E rule selector = true /\
  forall rest (done : gmap string bool) st,
    loop (selector :: rest) done st
    = loop rest
        match done !! selString E selector with
        | Some _ => done
        | None => <[selString E selector := true]> done
        end
        st.
Proof.
  intros Hin Hcs.
  assert (Hdis : isDisabled E rule selector = true).
  { unfold isDisabled. apply (isDisabledBy_In _ _ cs); [|assumption].
    now apply OnlyDisable_In. }
  split; [exact Hdis|]. intros rest done st. simpl.
  destruct (done !! selString E selector); [reflexivity|].
  rewrite Hdis. now rewrite insert_insert_eq.
Qed.

(** X13: [isDisabled] only looks at [disable] comments of the form
    [promql/series(...)]: a rule without such a comment disables no
    selector here. *)
Theorem only_selector_disables_count (selector : promParser.VectorSelector) :
  Forall (fun m => HasPrefix m "promql/series(" && HasSuffix m ")" = false)
    (comments.OnlyDisable (parser.Comments rule)) ->
  isDisabled E rule selector = false.
Proof. intros H. unfold isDisabled. now apply isDisabledBy_other_form. Qed.

End Loop.

End Comments.

Section RuleSetComments.

Import Notions checks.

Variable E : Env.
Variable prom : promapi.FailoverGroup.

(** X14: without [rule-set] comments the minimum age is two hours and
    nothing is reported; a comment [promql/series min-age V] added after
    the comments of a rule replaces the minimum age by [V] when [V] is a
    duration, and otherwise keeps it and adds one [Warning] on the lines of
    the rule: the last well-formed comment wins. *)
Theorem getMinAge_last_comment (rule : parser.Rule) (selector : promParser.VectorSelector)
    (v : string) :
  (comments.OnlyRuleSet (parser.Comments rule) = [] ->
   getMinAge E rule selector = (2 * Hour, [])) /\
  getMinAge E
    (parser.mkRule (parser.AlertingRule_ rule) (parser.RecordingRule_ rule)
       (parser.Error rule)
       (parser.Comments rule ++ [comments.RuleSetComment ("promql/series min-age " +:+ v)])
       (parser.Lines rule))
    selector
  = match ParseDuration E v with
    | inr d => (d, snd (getMinAge E rule selector))
    | inl err =>
        (fst (getMinAge E rule selector),
         snd (getMinAge E rule selector) ++
         [mkProblem (parser.Lines rule) "promql/series"
            ("Failed to parse pint comment as duration: " +:+ err)
            SeriesCheckMinAgeDetails Warning])
    end.
Proof.
  split.
  - intros H. unfold getMinAge. rewrite H. reflexivity.
  - unfold getMinAge. cbn [parser.Comments parser.Lines].
    rewrite OnlyRuleSet_app, fold_left_app.
    cbn [comments.OnlyRuleSet fold_left].
    set (c := "promql/series min-age " +:+ v).
    assert (H1 : HasPrefix c (Reporter_ +:+ " min-age ") = true)
      by apply (HasPrefix_append "promql/series min-age " v).
    assert (T1 : TrimPrefix c (Reporter_ +:+ " min-age ") = v)
      by apply (TrimPrefix_append "promql/series min-age " v).
    assert (H2 : forall x, HasPrefix c (Reporter_ +:+ "(" +:+ x +:+ ") min-age ") = false)
      by (intros x; reflexivity).
    rewrite H1, T1, !H2.
    destruct (ParseDuration E v); reflexivity.
Qed.

(** X15: a comment [promql/series ignore/label-value L] on the rule
    makes the check pass over every matcher on the label [L], of any
    selector, without a request and without a problem. *)
Theorem ignored_label_value_not_queried (settings : PromqlSeriesSettings)
    (rule : parser.Rule) (expr : parser.PromQLExpr) (params : promapi.RangeParams)
    (selector : promParser.VectorSelector) (promUptime : promapi.SeriesTimeRanges)
    (trs : promapi.RangeQueryResult) (st : State) (lm : labels.Matcher) :
  In (comments.RuleSetComment ("promql/series ignore/label-value " +:+ labels.Name lm))
     (parser.Comments rule) ->
  isLabelValueIgnored E rule selector (labels.Name lm) = true /\
  matcherStep E prom settings rule expr params selector promUptime trs st lm = st.
Proof.
  intros Hin.
  assert (H : isLabelValueIgnored E rule selector (labels.Name lm) = true).
  { unfold isLabelValueIgnored. apply existsb_exists.
    exists ("promql/series ignore/label-value " +:+ labels.Name lm). split.
    - now apply OnlyRuleSet_In.
    - cbn [existsb]. change (Reporter_ +:+ " ignore/label-value " +:+ labels.Name lm)
        with ("promql/series ignore/label-value " +:+ labels.Name lm).
      now rewrite String.eqb_refl. }
  split; [exact H|]. unfold matcherStep.
  destruct (String.eqb _ _); [reflexivity|].
  destruct (_ && _); [reflexivity|]. now rewrite H.
Qed.

(** X16: [Validate] returns no error exactly when every [ignoreMetrics]
    pattern compiles between [^] and [$] and the lookback range and step
    are empty or durations; an empty range then means seven days and an
    empty step five minutes. *)
Theorem Validate_error_iff (c : PromqlSeriesSettings) :
  (snd (Validate E c) = None <->
   Forall (fun re => exists r, regexpCompile E ("^" +:+ re +:+ "$") = inr r) (IgnoreMetrics c) /\
   (LookbackRange c = "" \/ exists d, ParseDuration E (LookbackRange c) = inr d) /\
   (LookbackStep c = "" \/ exists d, ParseDuration E (LookbackStep c) = inr d)) /\
  (snd (Validate E c) = None -> LookbackRange c = "" ->
   lookbackRangeDuration (fst (Validate E c)) = 7 * 24 * Hour) /\
  (snd (Validate E c) = None -> LookbackStep c = "" ->
   lookbackStepDuration (fst (Validate E c)) = 5 * Minute).
Proof.
  assert (HC : forall res acc,
            (snd (compileIgnoreMetrics E res acc) = None <->
             Forall (fun re => exists r, regexpCompile E ("^" +:+ re +:+ "$") = inr r) res)).
  { induction res as [|re res IH]; intros acc; simpl.
    - split; [constructor | reflexivity].
    - destruct (regexpCompile E ("^" +:+ re +:+ "$")) as [e|r] eqn:Hr; simpl.
      + split; [discriminate|]. intros H. inversion H as [|? ? [r Hr'] _]; subst. congruence.
      + rewrite IH. split; [intros H; constructor; eauto | intros H; now inversion H]. }
  unfold Validate.
  specialize (HC (IgnoreMetrics c) (ignoreMetricsRe c)).
  destruct (compileIgnoreMetrics E (IgnoreMetrics c) (ignoreMetricsRe c)) as [res err].
  simpl in HC. destruct err as [e|].
  { simpl. split; [split; [discriminate|]|split; discriminate].
    intros [H _]. apply HC in H. discriminate. }
  assert (HF := proj1 HC eq_refl). clear HC.
  destruct (String.eqb_spec (LookbackRange c) "") as [Hr|Hr].
  - destruct (String.eqb_spec (LookbackStep c) "") as [Hs|Hs]; simpl.
    + repeat split; auto.
    + destruct (ParseDuration E (LookbackStep c)) as [e|d] eqn:Hp; simpl.
      * split; [split; [discriminate|]|split; [discriminate|congruence]].
        intros (_ & _ & [?|[d Hd]]); congruence.
      * split; [split; [|reflexivity]|split; [reflexivity|congruence]].
        intros _. repeat split; eauto.
  - destruct (ParseDuration E (LookbackRange c)) as [e|d] eqn:Hp; simpl.
    + split; [split; [discriminate|]|split; discriminate].
      intros (_ & [?|[d Hd]] & _); congruence.
    + destruct (String.eqb_spec (LookbackStep c) "") as [Hs|Hs]; simpl.
      * split; [split; [|reflexivity]|split; [congruence|reflexivity]].
        intros _. repeat split; eauto.
      * destruct (ParseDuration E (LookbackStep c)) as [e|d'] eqn:Hp'; simpl.
        -- split; [split; [discriminate|]|split; [discriminate|congruence]].
           intros (_ & _ & [?|[d0 Hd]]); congruence.
        -- split; [split; [|reflexivity]|split; congruence].
           intros _. repeat split; eauto.
Qed.

End RuleSetComments.

Section Selectors.

Import Notions checks.

Lemma PromQLNode_nested_ind (P : parser.PromQLNode -> Prop) :
  (forall e n children, Forall P children -> P (parser.mkPromQLNode e n children)) ->
  forall t, P t.
Proof.
  intros H. fix IH 1. intros [e n children]. apply H.
  induction children as [|c l IHl]; constructor; [apply IH | exact IHl].
Qed.

Lemma getSelectors_children (children : list parser.PromQLNode) :
  Forall (fun t => Forall (fun vs => promParser.Offset vs = 0) (getSelectors t) /\
                   length (getSelectors t) = countSelectorNodes t /\
                   getSelectors t = map withoutOffset (selectorNodes t)) children ->
  Forall (fun vs => promParser.Offset vs = 0) (flat_map getSelectors children) /\
  length (flat_map getSelectors children) = list_sum (map countSelectorNodes children) /\
  flat_map getSelectors children = map withoutOffset (flat_map selectorNodes children).
Proof.
  induction 1 as [|c l (Ho & Hl & Hc) _ (IHo & IHl & IHc)]; simpl.
  - split; [constructor | split; reflexivity].
  - split; [|split].
    + apply Forall_app. split; assumption.
    + rewrite length_app, Hl, IHl. reflexivity.
    + rewrite map_app, Hc, IHc. reflexivity.
Qed.

(** X17: [getSelectors] returns a selector for every vector selector
    node of the expression and for no other node, parents before their
    children and children in their order, each with the name and the
    matchers of its node and without offset. *)
Theorem getSelectors_preorder (t : parser.PromQLNode) :
  Forall (fun vs => promParser.Offset vs = 0) (getSelectors t) /\
  length (getSelectors t) = countSelectorNodes t /\
  getSelectors t = map withoutOffset (selectorNodes t).
Proof.
  induction t as [e n children IH] using PromQLNode_nested_ind.
  destruct (getSelectors_children children IH) as (HO & HL & HM).
  split; [|split].
  - simpl. destruct n; simpl; [constructor; [reflexivity|]|]; exact HO.
  - simpl. rewrite length_app, HL. now destruct n.
  - simpl. rewrite HM. now destruct n.
Qed.

End Selectors.

Section OnScenarios3.

Import checks Fixture Scenarios.

Lemma disable_comment_skips_selector_witness :
  isDisabled env fooDisabledRule foo = true /\
  checkSelectors env promEmpty noContext settings fooDisabledRule [] fooExpr params
    [foo; bar] ∅ noState
  = checkSelectors env promEmpty noContext settings fooDisabledRule [] fooExpr params
      [bar] {[ "foo" := true ]} noState.
Proof.
  destruct (disable_comment_skips_selector env promEmpty noContext settings fooDisabledRule
              [] fooExpr params foo "foo") as [H1 H2];
    [left; reflexivity | left; reflexivity |].
  split; [exact H1|]. rewrite H2. reflexivity.
Defined.

Lemma only_selector_disables_count_witness :
  isDisabled env checkDisabledRule foo = false.
Proof.
  apply (only_selector_disables_count env checkDisabledRule foo).
  repeat constructor.
Defined.

Lemma ignored_label_value_not_queried_witness :
  isLabelValueIgnored env jobIgnoredRule fooJobX "job" = true.
Proof.
  destruct (ignored_label_value_not_queried env promEmpty settings jobIgnoredRule fooExpr
              params fooJobX (dummyUptime params)
              (promapi.mkRangeQueryResult "http://prom" (dummyUptime params))
              noState jobX) as [H _];
    [left; reflexivity | exact H].
Defined.

End OnScenarios3.

(** * Further properties of the parser's model *)

(** ** Sorting strings *)

Section SortFacts.

Import GoSlices.

Lemma ascii_compare_lt_trans (a b c : ascii) :
  Ascii.compare a b = Lt -> Ascii.compare b c = Lt -> Ascii.compare a c = Lt.
Proof.
  unfold Ascii.compare. rewrite !N.compare_lt_iff. apply N.lt_trans.
Qed.

Lemma string_compare_trans (s1 : string) :
  forall s2 s3 (o : comparison),
    String.compare s1 s2 <> Gt -> String.compare s2 s3 <> Gt -> String.compare s1 s3 <> Gt.
Proof.
  induction s1 as [|a s1 IH]; intros [|b s2] [|c s3] o; simpl; try congruence.
  destruct (Ascii.compare a b) eqn:Hab; try congruence;
    destruct (Ascii.compare b c) eqn:Hbc; try congruence; intros H1 H2.
  - apply Ascii.compare_eq_iff in Hab, Hbc. subst.
    replace (Ascii.compare c c) with Eq
      by (symmetry; unfold Ascii.compare; apply N.compare_refl).
    now apply (IH s2 s3 o).
  - apply Ascii.compare_eq_iff in Hab. subst. now rewrite Hbc.
  - apply Ascii.compare_eq_iff in Hbc. subst. now rewrite Hab.
  - now rewrite (ascii_compare_lt_trans a b c Hab Hbc).
Qed.

Lemma leb_trans (s1 s2 s3 : string) :
  String.leb s1 s2 = true -> String.leb s2 s3 = true -> String.leb s1 s3 = true.
Proof.
  unfold String.leb. intros H1 H2.
  pose proof (string_compare_trans s1 s2 s3 Eq) as H.
  destruct (String.compare s1 s2); destruct (String.compare s2 s3);
    destruct (String.compare s1 s3); try discriminate; try reflexivity;
    exfalso; apply H; congruence.
Qed.

Lemma leb_false_flip (x y : string) : String.leb x y = false -> String.leb y x = true.
Proof. intros H. destruct (String.leb_total x y) as [H'|H']; congruence. Qed.

Lemma insertSorted_comm (x y : string) (l : list string) :
  insertSorted x (insertSorted y l) = insertSorted y (insertSorted x l).
Proof.
  induction l as [|z l IH]; simpl.
  - destruct (String.leb x y) eqn:Hxy, (String.leb y x) eqn:Hyx; try reflexivity.
    + now rewrite (String.leb_antisym x y Hxy Hyx).
    + apply leb_false_flip in Hxy. congruence.
  - destruct (String.leb y z) eqn:Hyz, (String.leb x z) eqn:Hxz; simpl.
    + destruct (String.leb x y) eqn:Hxy, (String.leb y x) eqn:Hyx;
        rewrite ?Hyz, ?Hxz; try reflexivity.
      * now rewrite (String.leb_antisym x y Hxy Hyx).
      * apply leb_false_flip in Hxy. congruence.
    + destruct (String.leb x y) eqn:Hxy.
      * rewrite (leb_trans x y z Hxy Hyz) in Hxz. discriminate.
      * now rewrite Hxz, Hyz.
    + destruct (String.leb y x) eqn:Hyx.
      * rewrite (leb_trans y x z Hyx Hxz) in Hyz. discriminate.
      * now rewrite Hxz, Hyz.
    + now rewrite Hxz, Hyz, IH.
Qed.

Lemma insertSorted_perm (x : string) (l : list string) :
  Permutation (x :: l) (insertSorted x l).
Proof.
  induction l as [|y l IH]; simpl; [reflexivity|].
  destruct (String.leb x y); [reflexivity|].
  rewrite perm_swap. now constructor.
Qed.

Lemma Sort_perm (l : list string) : Permutation l (Sort l).
Proof.
  induction l as [|x l IH]; simpl; [reflexivity|].
  rewrite <- insertSorted_perm. now constructor.
Qed.

Lemma Sort_of_perm (l l' : list string) : Permutation l l' -> Sort l = Sort l'.
Proof.
  induction 1 as [|x l l' _ IH|x y l|l l' l'' _ IH1 _ IH2]; simpl.
  - reflexivity.
  - now rewrite IH.
  - apply insertSorted_comm.
  - congruence.
Qed.

Lemma Equal_eq (a b : list string) : Equal a b = true <-> a = b.
Proof.
  revert b. induction a as [|x a IH]; intros [|y b]; simpl; split;
    try discriminate; try reflexivity.
  - intros H. apply andb_true_iff in H. destruct H as [H1 H2].
    apply String.eqb_eq in H1. apply IH in H2. congruence.
  - intros H. inversion H; subst. rewrite String.eqb_refl. now apply IH.
Qed.

Lemma Sort_nil_inv (l : list string) : Sort l = [] -> l = [].
Proof.
  intros H. pose proof (Sort_perm l) as Hp. rewrite H in Hp.
  now apply Permutation_nil_r in Hp.
Qed.

End SortFacts.

(** ** Maps of the document *)

Section YamlMaps.

Import Notions parser.

(** X18: two maps are identical exactly when their items, written as
    [key: value], are the same up to order; line numbers play no part, and
    a missing map is identical to a map without items and to no other
    map. *)
Theorem YamlMap_IsIdentical_iff_permutation (a b : YamlMap) :
  (YamlMap_IsIdentical (Some a) (Some b) = true <->
   Permutation (map itemText (Items a)) (map itemText (Items b))) /\
  (YamlMap_IsIdentical None (Some b) = true <-> Items b = []) /\
  (YamlMap_IsIdentical (Some a) None = true <-> Items a = []) /\
  YamlMap_IsIdentical None None = true.
Proof.
  unfold YamlMap_IsIdentical, sortedItemTexts. rewrite !Equal_eq.
  split; [|split; [|split; [|reflexivity]]]; split.
  - intros H.
    rewrite (Sort_perm (map itemText (Items a))), H. symmetry. apply Sort_perm.
  - apply Sort_of_perm.
  - intros H. symmetry in H. apply Sort_nil_inv in H.
    now apply map_eq_nil in H.
  - intros ->. reflexivity.
  - intros H. apply Sort_nil_inv in H. now apply map_eq_nil in H.
  - intros ->. reflexivity.
Qed.

(** X19: [GetValue] returns nil exactly when no item has the key, and
    otherwise the value of the first item that has it. *)
Theorem GetValue_first_item (ym : YamlMap) (key : string) :
  (GetValue ym key = None <->
   Forall (fun kv => YValue (KVKey kv) <> key) (Items ym)) /\
  (forall before kv after,
     Items ym = before ++ kv :: after ->
     Forall (fun x => YValue (KVKey x) <> key) before ->
     YValue (KVKey kv) = key ->
     GetValue ym key = Some (KVValue kv)).
Proof.
  unfold GetValue. split.
  - induction (Items ym) as [|x l IH]; simpl; [split; [constructor | reflexivity]|].
    destruct (String.eqb_spec (YValue (KVKey x)) key) as [He|Hne].
    + split; [discriminate|]. intros H. inversion H; subst. contradiction.
    + rewrite IH. split; [intros H; now constructor | intros H; now inversion H].
  - intros before kv after -> Hb Hk.
    induction Hb as [|x l Hx _ IH]; simpl.
    + now rewrite (proj2 (String.eqb_eq _ _) Hk).
    + now rewrite (proj2 (String.eqb_neq _ _) Hx).
Qed.

End YamlMaps.

(** ** Nodes of the document *)

Section YamlNodes.

Import Notions parser.

Lemma nodeLines_small (node : yamlNode) (offset : Z) :
  smallLines node offset ->
  - 2 ^ 32 <= First (nodeLines node offset) <= 2 ^ 33 /\
  Last (nodeLines node offset)
    = First (nodeLines node offset)
      + Z.of_nat (countByte newline (TrimSuffix (Value node) nl)).
Proof.
  intros (HL & HO & HC).
  assert (HB : - 2 ^ 32 <= First (nodeLines node offset) <= 2 ^ 33).
  { unfold nodeLines. cbn [First].
    destruct (String.eqb (Value node) "");
      [|destruct (N.eqb (Style node) LiteralStyle || N.eqb (Style node) FoldedStyle)%bool];
      unwrap64; lia. }
  split; [exact HB|].
  assert (HLast : Last (nodeLines node offset) =
                  GoInt.sub
                    (GoInt.add (First (nodeLines node offset))
                       (Z.of_nat (length (Split1 (TrimSuffix (Value node) nl) newline))))
                    1) by reflexivity.
  rewrite HLast, Split1_length.
  revert HB. generalize (First (nodeLines node offset)). intros f HB.
  unwrap64. lia.
Qed.

(** X20: the node built for a key and its value has the value of the
    value node (of the node it is an alias of, if it is one), and lines
    that cover the lines of the key and of the value; for line numbers far
    from the bounds of [int] its first line is not after its last. *)
Theorem newYamlNodeWithKey_covers (key node : yamlTree) (offset : Z) :
  smallLines (treeFields key) offset ->
  smallLines (treeFields node) offset ->
  YValue (newYamlNodeWithKey key node offset) = YValue (newYamlNode node offset) /\
  First (YLines (newYamlNodeWithKey key node offset))
    <= First (YLines (newYamlNode key offset)) /\
  First (YLines (newYamlNodeWithKey key node offset))
    <= First (YLines (newYamlNode node offset)) /\
  Last (YLines (newYamlNode key offset))
    <= Last (YLines (newYamlNodeWithKey key node offset)) /\
  Last (YLines (newYamlNode node offset))
    <= Last (YLines (newYamlNodeWithKey key node offset)) /\
  First (YLines (newYamlNodeWithKey key node offset))
    <= Last (YLines (newYamlNodeWithKey key node offset)).
Proof.
  intros Hk Hn.
  destruct (nodeLines_small _ _ Hk) as [_ Hkl].
  destruct (nodeLines_small _ _ Hn) as [_ Hnl].
  unfold newYamlNodeWithKey, newYamlNode. cbn [YValue YLines First Last].
  repeat split; lia.
Qed.

Lemma newYamlMap_fold (offset : Z) (content : list yamlTree) :
  (forall items last,
     exists last',
       fst (fold_left (newYamlMapStep offset) content (items, last, None))
       = (items ++ map (fun '(k, v) => mkYamlKeyValue (newYamlNode k offset)
                                        (newYamlNode v offset)) (pairUp content),
          last') /\
       last <= last' /\
       Forall (fun '(k, v) => Last (YLines (newYamlNode v offset)) <= last') (pairUp content)) /\
  (forall x items last,
     exists last',
       fst (fold_left (newYamlMapStep offset) (x :: content) (items, last, None))
       = (items ++ map (fun '(k, v) => mkYamlKeyValue (newYamlNode k offset)
                                        (newYamlNode v offset)) (pairUp (x :: content)),
          last') /\
       last <= last' /\
       Forall (fun '(k, v) => Last (YLines (newYamlNode v offset)) <= last')
         (pairUp (x :: content))).
Proof.
  induction content as [|y content [IH1 IH2]].
  - split.
    + intros items last. exists last. simpl. rewrite app_nil_r.
      split; [reflexivity | split; [lia | constructor]].
    + intros x items last. exists last. simpl. rewrite app_nil_r.
      split; [reflexivity | split; [lia | constructor]].
  - split; [exact (IH2 y)|].
    intros x items last.
    set (kv := mkYamlKeyValue (newYamlNode x offset) (newYamlNode y offset)).
    set (l1 := if last <? Last (YLines (KVValue kv)) then Last (YLines (KVValue kv)) else last).
    destruct (IH1 (items ++ [kv]) l1) as (last' & Hf & Hle & HF).
    exists last'.
    assert (Hl1 : last <= l1 /\ Last (YLines (newYamlNode y offset)) <= l1).
    { unfold l1, kv. cbn [KVValue].
      destruct (Z.ltb_spec last (Last (YLines (newYamlNode y offset)))); lia. }
    split; [|split; [lia|]].
    + change (fold_left (newYamlMapStep offset) (x :: y :: content) (items, last, None))
        with (fold_left (newYamlMapStep offset) content (items ++ [kv], l1, None)).
      rewrite Hf. cbn [pairUp map]. rewrite <- app_assoc. reflexivity.
    + cbn [pairUp]. constructor; [lia | exact HF].
Qed.

(** X21: [newYamlMap] pairs the children of the value node two by two
    into items, in their order, and leaves out a last child without
    partner; its lines start at the line of the key plus the offset, do not
    end before they start, and end no earlier than any value of an item. *)
Theorem newYamlMap_items_and_lines (key value : yamlTree) (offset : Z) :
  Items (newYamlMap key value offset)
    = map (fun '(k, v) => mkYamlKeyValue (newYamlNode k offset) (newYamlNode v offset))
        (pairUp (treeContent value)) /\
  MapKey (newYamlMap key value offset) = newYamlNode key offset /\
  First (MapLines (newYamlMap key value offset))
    = GoInt.add (Line (treeFields key)) offset /\
  First (MapLines (newYamlMap key value offset))
    <= Last (MapLines (newYamlMap key value offset)) /\
  Forall (fun kv => Last (YLines (KVValue kv)) <= Last (MapLines (newYamlMap key value offset)))
    (Items (newYamlMap key value offset)).
Proof.
  unfold newYamlMap.
  destruct (proj1 (newYamlMap_fold offset (treeContent value)) []
              (GoInt.add (Line (treeFields key)) offset)) as (last' & Hf & Hle & HF).
  destruct (fold_left _ (treeContent value) _) as [[items last] ckey].
  simpl in Hf. inversion Hf; subst. cbn [Items MapKey MapLines First Last].
  repeat split; [exact Hle|].
  apply Forall_forall. intros kv Hkv. apply list_elem_of_In, in_map_iff in Hkv.
  destruct Hkv as ([k v] & <- & Hin). cbn [KVValue].
  rewrite Forall_forall in HF. apply (HF (k, v)). now apply list_elem_of_In.
Qed.

Lemma yamlTree_nested_ind (P : yamlTree -> Prop) :
  (forall fields alias head line foot content,
     Forall P content -> P (mkYamlTree fields alias head line foot content)) ->
  forall t, P t.
Proof.
  intros H. fix IH 1. intros [fields alias head line foot content]. apply H.
  induction content as [|c l IHl]; constructor; [apply IH | exact IHl].
Qed.

Lemma In_optional_comment (c x : string) :
  In c (if String.eqb x "" then [] else [x]) <-> c <> "" /\ c = x.
Proof.
  destruct (String.eqb_spec x "") as [->|Hx]; simpl.
  - split; [tauto | intros [? ?]; congruence].
  - split; [intros [<-|[]]; auto | intros [_ ->]; auto].
Qed.

(** X22: [mergeComments] returns the comments of the node and of the
    nodes below it that are not empty, and nothing else: a text is in the
    result exactly when it is not empty and is the head, line or foot
    comment of a node of the tree. *)
Theorem mergeComments_nonempty_comments (t : yamlTree) (c : string) :
  In c (mergeComments t) <->
  c <> "" /\ exists n, In n (treeNodes t) /\ In c (ownComments n).
Proof.
  revert c. induction t as [fields alias head line foot content IH]
    using yamlTree_nested_ind. intros c.
  cbn [mergeComments treeNodes].
  rewrite !in_app_iff, !In_optional_comment, in_flat_map.
  split.
  - intros [H|[H|[H|(x & Hx & Hc)]]].
    + destruct H as [Hne ->]. split; [assumption|]. eexists. split; [left; reflexivity|].
      simpl. auto.
    + destruct H as [Hne ->]. split; [assumption|]. eexists. split; [left; reflexivity|].
      simpl. auto.
    + destruct H as [Hne ->]. split; [assumption|]. eexists. split; [left; reflexivity|].
      simpl. auto.
    + rewrite Forall_forall in IH.
      apply IH in Hc; [|first [assumption | now apply list_elem_of_In]].
      destruct Hc as (Hne & n & Hn & Hcn). split; [assumption|].
      exists n. split; [|assumption]. right. apply in_flat_map. eauto.
  - intros (Hne & n & [<-|Hn] & Hc).
    + simpl in Hc. destruct Hc as [<-|[<-|[<-|[]]]]; auto.
    + apply in_flat_map in Hn. destruct Hn as (x & Hx & Hn).
      right. right. right. exists x. split; [assumption|].
      rewrite Forall_forall in IH.
      apply IH; [first [assumption | now apply list_elem_of_In]|]. eauto.
Qed.

End YamlNodes.

(** ** Line ranges and rules *)

Section LinesAndRules.

Import Notions parser.

Lemma expandFrom_lines (n : nat) :
  forall i, - 2 ^ 61 <= i -> i + Z.of_nat n <= 2 ^ 61 + 1 ->
  length (expandFrom i n) = n /\
  forall x, In x (expandFrom i n) <-> i <= x < i + Z.of_nat n.
Proof.
  induction n as [|n IH]; intros i Hi Hn.
  - simpl. split; [reflexivity|]. intros x. split; [intros [] | lia].
  - cbn [expandFrom]. replace (GoInt.add i 1) with (i + 1) by (unwrap64; reflexivity).
    destruct (IH (i + 1) ltac:(lia) ltac:(lia)) as [Hl Hin].
    split; [simpl; now rewrite Hl|].
    intros x. simpl. rewrite Hin. lia.
Qed.

(** X23: for line numbers far from the bounds of [int], and whatever
    the greatest capacity [maxCap] that [make] gives: [Expand] of a range
    of at most [maxCap] lines gives its lines from the first to the last,
    each once; of a range that ends on the line before its start, no line;
    and it fails for a range that ends earlier than that (a negative
    capacity is passed to [make]) and for a range of more than [maxCap]
    lines (the capacity is out of range). *)
Theorem Expand_lines (maxCap : Z) (lr : LineRange) :
  - 2 ^ 61 <= First lr <= 2 ^ 61 ->
  - 2 ^ 61 <= Last lr <= 2 ^ 61 ->
  (Last lr < First lr - 1 -> Expand maxCap lr = None) /\
  (maxCap < Last lr - First lr + 1 -> Expand maxCap lr = None) /\
  (First lr - 1 <= Last lr -> Last lr - First lr + 1 <= maxCap ->
   exists l, Expand maxCap lr = Some l /\
             Z.of_nat (length l) = Last lr - First lr + 1 /\
             NoDup l /\
             forall x, In x l <-> First lr <= x <= Last lr).
Proof.
  intros HF HL. unfold Expand. cbv zeta.
  replace (GoInt.add (GoInt.sub (Last lr) (First lr)) 1) with (Last lr - First lr + 1)
    by (unwrap64; reflexivity).
  replace (Last lr =? maxInt64) with false
    by (symmetry; apply Z.eqb_neq; unfold maxInt64; lia).
  cbn [andb]. split; [|split].
  - intros H. now rewrite (proj2 (Z.ltb_lt _ _)) by lia.
  - intros H. rewrite (proj2 (Z.ltb_lt maxCap _)) by lia. now rewrite orb_true_r.
  - intros H Hcap. rewrite (proj2 (Z.ltb_ge _ 0)) by lia.
    rewrite (proj2 (Z.ltb_ge maxCap _)) by lia. cbn [orb].
    destruct (expandFrom_lines (Z.to_nat (Last lr - First lr + 1)) (First lr)
                ltac:(lia) ltac:(lia)) as [Hlen Hin].
    eexists. split; [reflexivity|]. split; [rewrite Hlen; lia|]. split.
    + clear Hin Hlen. assert (G : forall n i, - 2 ^ 61 <= i -> i + Z.of_nat n <= 2 ^ 61 + 1 ->
                                  NoDup (expandFrom i n)).
      { induction n as [|n IH]; intros i Hi Hn; cbn [expandFrom]; [constructor|].
        replace (GoInt.add i 1) with (i + 1) by (unwrap64; reflexivity).
        apply NoDup_cons. split; [|apply IH; lia].
        intros Hx. apply list_elem_of_In in Hx.
        apply (expandFrom_lines n (i + 1) ltac:(lia) ltac:(lia)) in Hx. lia. }
      apply G; lia.
    + intros x. rewrite Hin. lia.
Qed.

Lemma Expand_lines_witness :
  Expand (2 ^ 45) (mkLineRange 3 5) = Some [3; 4; 5] /\
  Expand (2 ^ 45) (mkLineRange 5 3) = None /\
  Expand (2 ^ 45) (mkLineRange 0 (2 ^ 61)) = None.
Proof.
  destruct (Expand_lines (2 ^ 45) (mkLineRange 5 3) ltac:(simpl; lia) ltac:(simpl; lia))
    as [H _].
  destruct (Expand_lines (2 ^ 45) (mkLineRange 0 (2 ^ 61)) ltac:(simpl; lia) ltac:(simpl; lia))
    as (_ & H' & _).
  split; [reflexivity | split; [apply H; simpl; lia | apply H'; simpl; lia]].
Defined.

(** X24: a rule is of the invalid type exactly when [Expr] has no
    expression to return for it; for a rule with one body, [Type], [Name]
    and [Expr] all speak of that body. *)
Theorem Rule_Type_agrees (r : Rule) :
  (Rule_Type r = InvalidRuleType <-> Rule_Expr r = None) /\
  (forall rr, RecordingRule_ r = Some rr -> AlertingRule_ r = None ->
     Rule_Type r = RecordingRuleType /\ Rule_Name r = YValue (Record_ rr) /\
     Rule_Expr r = Some (RExpr rr)) /\
  (forall ar, AlertingRule_ r = Some ar -> RecordingRule_ r = None ->
     Rule_Type r = AlertingRuleType /\ Rule_Name r = YValue (Alert ar) /\
     Rule_Expr r = Some (AExpr ar)).
Proof.
  unfold Rule_Type, Rule_Name, Rule_Expr. split; [|split].
  - destruct (AlertingRule_ r), (RecordingRule_ r); split; try discriminate; reflexivity.
  - intros rr -> ->. auto.
  - intros ar -> ->. auto.
Qed.

Lemma newYamlNodeWithKey_covers_witness :
  First (YLines (newYamlNodeWithKey
                   (mkYamlTree (mkYamlNode 0 "expr" 4) None "" "" "" [])
                   (mkYamlTree (mkYamlNode LiteralStyle ("a" +:+ nl +:+ "b" +:+ nl) 4)
                      None "" "" "" [])
                   0))
  <= Last (YLines (newYamlNodeWithKey
                     (mkYamlTree (mkYamlNode 0 "expr" 4) None "" "" "" [])
                     (mkYamlTree (mkYamlNode LiteralStyle ("a" +:+ nl +:+ "b" +:+ nl) 4)
                        None "" "" "" [])
                     0)).
Proof.
  apply (newYamlNodeWithKey_covers
           (mkYamlTree (mkYamlNode 0 "expr" 4) None "" "" "" [])
           (mkYamlTree (mkYamlNode LiteralStyle ("a" +:+ nl +:+ "b" +:+ nl) 4)
              None "" "" "" [])
           0);
    (split; [simpl; lia | split; [lia | vm_compute; discriminate]]).
Defined.

End LinesAndRules.

(** ** Verdicts on a base metric with history *)

Section Verdicts.

Import Notions checks.

Variable E : Env.
Variable prom : promapi.FailoverGroup.
Variable settings : PromqlSeriesSettings.
Variable rule : parser.Rule.
Variable expr : parser.PromQLExpr.
Variable params : promapi.RangeParams.

Lemma labelNamesOf_only_names (lms : list labels.Matcher) :
  Forall (fun lm => labels.Name lm = labels.MetricName) lms -> labelNamesOf lms = [].
Proof.
  unfold labelNamesOf. intros H.
  assert (G : forall acc,
            fold_left
              (fun labelNames lm =>
                 if String.eqb (labels.Name lm) labels.MetricName then labelNames
                 else if bool_decide (labels.Type_ lm = labels.MatchNotEqual)
                         || bool_decide (labels.Type_ lm = labels.MatchNotRegexp)
                 then labelNames
                 else if existsb (String.eqb (labels.Name lm)) labelNames then labelNames
                 else labelNames ++ [labels.Name lm])
              lms acc = acc).
  { induction H as [|lm lms' Hlm _ IH]; intros acc; cbn [fold_left]; [reflexivity|].
    rewrite (proj2 (String.eqb_eq _ _) Hlm). apply IH. }
  apply G.
Qed.

Lemma matcherStep_only_names selector promUptime trs (lms : list labels.Matcher) st :
  Forall (fun lm => labels.Name lm = labels.MetricName) lms ->
  fold_left (matcherStep E prom settings rule expr params selector promUptime trs) lms st = st.
Proof.
  induction 1 as [|lm lms' Hlm _ IH]; cbn [fold_left]; [reflexivity|].
  assert (Hs : matcherStep E prom settings rule expr params selector promUptime trs st lm = st).
  { unfold matcherStep. now rewrite (proj2 (String.eqb_eq _ _) Hlm). }
  rewrite Hs. apply IH.
Qed.

Lemma hasProblems_none st : problems st = [] -> hasProblems st = false.
Proof. unfold hasProblems. now intros ->. Qed.

(** X25: for a rule with no problem reported so far and a selector
    without required labels, a base metric whose one range begins within a
    step of the start of the window and ends more than a step before its
    end is reported as no longer present when the range ended more than
    the minimum age (two hours without [rule-set] comments) before the end
    of the window; when it ended later than that nothing is reported, and
    in both cases the matchers and the gaps of the metric are not looked
    at and no request is sent. *)
Theorem disappeared_metric_min_age selector promUptime trs st r :
  problems st = [] ->
  labelNamesOf (promParser.LabelMatchers selector) = [] ->
  promapi.Ranges (promapi.Series trs) = [r] ->
  0 <= lookbackStepDuration settings <= 2 ^ 62 ->
  promapi.Start r <= promapi.From (promapi.Series trs) + lookbackStepDuration settings ->
  promapi.End_ r < promapi.Until (promapi.Series trs) - lookbackStepDuration settings ->
  comments.OnlyRuleSet (parser.Comments rule) = [] ->
  checkHistory E prom settings rule expr params selector promUptime trs st
  = if promapi.End_ r <? promapi.Until (promapi.Series trs) - 2 * Hour
    then emit
           (mkProblem (parser.YLines (parser.EValue expr)) "promql/series"
              (fst (textAndSeverity E settings (selString E (stripLabels selector))
                      (promText E (promapi.Name prom) (promapi.RURI trs) +:+
                       " doesn't currently have `" +:+ selString E (stripLabels selector) +:+
                       "`, it was last present " +:+ sinceDesc E (promapi.End_ r) +:+ " ago.")
                      Bug))
              SeriesCheckCommonProblemDetails
              (snd (textAndSeverity E settings (selString E (stripLabels selector))
                      (promText E (promapi.Name prom) (promapi.RURI trs) +:+
                       " doesn't currently have `" +:+ selString E (stripLabels selector) +:+
                       "`, it was last present " +:+ sinceDesc E (promapi.End_ r) +:+ " ago.")
                      Bug)))
           st
    else st.
Proof.
  intros Hp Hl Hr Hstep Hs He Hc.
  unfold checkHistory. rewrite Hl, Hr. cbn [fold_left length Nat.eqb].
  rewrite (hasProblems_none st Hp).
  assert (Ho : oldest [r] = promapi.Start r) by reflexivity.
  assert (Hn : newest [r] = promapi.End_ r) by reflexivity.
  rewrite Ho, Hn.
  assert (Hm : GoInt.mul (lookbackStepDuration settings) (-1) = - lookbackStepDuration settings).
  { unwrap64. lia. }
  rewrite Hm. unfold Time_After, Time_Before, Time_Add.
  rewrite (proj2 (Z.ltb_ge _ _)) by lia.
  rewrite (proj2 (Z.ltb_lt _ _)) by lia.
  cbn [negb andb].
  assert (Hg : getMinAge E rule selector = (2 * Hour, [])).
  { unfold getMinAge. rewrite Hc. reflexivity. }
  rewrite Hg.
  assert (He2 : GoInt.mul (2 * Hour) (-1) = - (2 * Hour)) by reflexivity.
  rewrite He2.
  replace (promapi.Until (promapi.Series trs) + - (2 * Hour))
    with (promapi.Until (promapi.Series trs) - 2 * Hour) by lia.
  assert (Hemp : emitAll [] st = st).
  { destruct st as [ps rs]. unfold emitAll. simpl. now rewrite app_nil_r. }
  rewrite Hemp.
  destruct (promapi.End_ r <? promapi.Until (promapi.Series trs) - 2 * Hour);
    cbn [negb]; [|reflexivity].
  now destruct (textAndSeverity _ _ _ _ _).
Qed.

(** X26: for a selector that has only matchers on the metric name, a
    base metric with two or more ranges and with gaps is reported as only
    sometimes present, with a [Warning] that gives the average life of its
    ranges, and no request is sent; without gaps nothing is reported. *)
Theorem intermittent_metric_warned selector promUptime trs st :
  problems st = [] ->
  Forall (fun lm => labels.Name lm = labels.MetricName) (promParser.LabelMatchers selector) ->
  (2 <= length (promapi.Ranges (promapi.Series trs)))%nat ->
  checkHistory E prom settings rule expr params selector promUptime trs st
  = match promapi.Gaps (promapi.Series trs) with
    | [] => st
    | _ :: _ =>
        emit
          (mkProblem (parser.YLines (parser.EValue expr)) "promql/series"
             ("Metric `" +:+ selString E (stripLabels selector) +:+
              "` is only sometimes present on " +:+
              promText E (promapi.Name prom) (promapi.RURI trs) +:+
              " with average life span of " +:+
              HumanizeDuration E (avgLife E (promapi.Ranges (promapi.Series trs))) +:+
              " in the last " +:+ sinceDesc E (promapi.From (promapi.Series trs)) +:+ ".")
             SeriesCheckCommonProblemDetails Warning)
          st
    end.
Proof.
  intros Hp Hn Hlen.
  unfold checkHistory. rewrite (labelNamesOf_only_names _ Hn). cbn [fold_left].
  rewrite (hasProblems_none st Hp).
  destruct (promapi.Ranges (promapi.Series trs)) as [|r1 [|r2 l]] eqn:Hr;
    simpl in Hlen; try lia.
  cbn [length Nat.eqb andb].
  rewrite (matcherStep_only_names selector promUptime trs _ st Hn).
  rewrite (hasProblems_none st Hp).
  destruct (promapi.Gaps (promapi.Series trs)); reflexivity.
Qed.

(** X27: when the series of the base metric with one equality or regexp
    matcher of the selector have no range in the window, and the label is
    not ignored by a comment, the check reports after that one request
    that no series match the matcher, as a [Bug] when the metric matches no
    [ignoreMetrics] regexp. *)
Theorem label_value_never_present selector promUptime trs st lm trsLabel :
  labels.Name lm <> labels.MetricName ->
  labels.Type_ lm = labels.MatchEqual \/ labels.Type_ lm = labels.MatchRegexp ->
  isLabelValueIgnored E rule selector (labels.Name lm) = false ->
  promapi.RangeQuery prom
    ("count(" +:+
     selString E (addNameSelectorIfNeeded
                    (promParser.mkVectorSelector (metricNameOf selector) 0 [lm])
                    (promParser.LabelMatchers selector)) +:+ ")")
    params = inr trsLabel ->
  promapi.Ranges (promapi.Series trsLabel) = [] ->
  Forall (fun re => MatchString E re (selString E (stripLabels selector)) = false)
    (ignoreMetricsRe settings) ->
  matcherStep E prom settings rule expr params selector promUptime trs st lm
  = emit
      (mkProblem (parser.YLines (parser.EValue expr)) "promql/series"
         (promText E (promapi.Name prom) (promapi.RURI trsLabel) +:+
          " has `" +:+ selString E (stripLabels selector) +:+ "` metric with `" +:+
          labels.Name lm +:+ "` label but there are no series matching `{" +:+
          matcherString E lm +:+ "}` in the last " +:+
          sinceDesc E (promapi.From (promapi.Series trs)) +:+ ".")
         SeriesCheckCommonProblemDetails Bug)
      (request
         (RangeQuery (promapi.Name prom)
            ("count(" +:+
             selString E (addNameSelectorIfNeeded
                            (promParser.mkVectorSelector (metricNameOf selector) 0 [lm])
                            (promParser.LabelMatchers selector)) +:+ ")"))
         st).
Proof.
  intros Hn Ht Hi Hq Hr Hre.
  unfold matcherStep.
  rewrite (proj2 (String.eqb_neq _ _) Hn).
  replace (negb (bool_decide (labels.Type_ lm = labels.MatchEqual))
           && negb (bool_decide (labels.Type_ lm = labels.MatchRegexp))) with false
    by (destruct Ht as [-> | ->]; reflexivity).
  rewrite Hi. unfold rangeQuery. rewrite Hq.
  cbn [findGaps withGaps promapi.Ranges]. unfold findGaps, withGaps.
  cbn [promapi.Ranges]. rewrite Hr. cbn [length Nat.eqb].
  destruct (textAndSeverity_cases E settings (selString E (stripLabels selector))
              (promText E (promapi.Name prom) (promapi.RURI trsLabel) +:+
               " has `" +:+ selString E (stripLabels selector) +:+ "` metric with `" +:+
               labels.Name lm +:+ "` label but there are no series matching `{" +:+
               matcherString E lm +:+ "}` in the last " +:+
               sinceDesc E (promapi.From (promapi.Series trs)) +:+ ".")
              Bug) as [Hts _].
  rewrite Hts by (right; assumption). reflexivity.
Qed.

End Verdicts.

Section OnScenarios4.

Import checks Fixture Scenarios.

Lemma disappeared_metric_min_age_witness :
  exists p,
    checkHistory env promEmpty settings fooRule fooExpr params foo (dummyUptime params)
      firstThreeDays noState = emit p noState /\
    Severity_ p = Bug.
Proof.
  rewrite (disappeared_metric_min_age env promEmpty settings fooRule fooExpr params foo
             (dummyUptime params) firstThreeDays noState
             (promapi.mkMetricTimeRange 0 [] windowStart (windowStart + 3 * Day)));
    [ eexists; split; reflexivity
    | reflexivity | reflexivity | reflexivity
    | vm_compute; split; discriminate
    | vm_compute; discriminate
    | vm_compute; reflexivity
    | reflexivity ].
Defined.

Lemma intermittent_metric_warned_witness :
  exists p,
    checkHistory env promEmpty settings fooRule fooExpr params foo (dummyUptime params)
      firstAndFourthDay noState = emit p noState /\
    Severity_ p = Warning.
Proof.
  rewrite (intermittent_metric_warned env promEmpty settings fooRule fooExpr params foo
             (dummyUptime params) firstAndFourthDay noState);
    [ eexists; split; reflexivity
    | reflexivity
    | repeat constructor
    | simpl; lia ].
Defined.

Lemma label_value_never_present_witness :
  exists p,
    problems (matcherStep env promEmpty settings fooJobXRule fooExpr params fooJobX
                (dummyUptime params) firstThreeDays noState jobX) = [p] /\
    Severity_ p = Bug.
Proof.
  rewrite (label_value_never_present env promEmpty settings fooJobXRule fooExpr params
             fooJobX (dummyUptime params) firstThreeDays noState jobX
             (promapi.mkRangeQueryResult "http://prom"
                (promapi.mkSeriesTimeRanges (promapi.PStart params) (promapi.PEnd params)
                   (promapi.PStep params) [] [])));
    [ eexists; split; reflexivity
    | discriminate
    | left; reflexivity
    | reflexivity
    | reflexivity
    | reflexivity
    | constructor ].
Defined.

End OnScenarios4.

Section LabelVerdicts.

Import Notions checks.

Variable E : Env.
Variable prom : promapi.FailoverGroup.
Variable settings : PromqlSeriesSettings.
Variable rule : parser.Rule.
Variable expr : parser.PromQLExpr.
Variable params : promapi.RangeParams.

(** X28: for a required label, the check asks where
    [absent(bare{label=~".+"})] held; when that was one range without gaps
    in the uptime of the server, it reports with a [Bug] that no series of
    the metric has the label if the range overlaps a range of the base
    metric, and reports nothing if it overlaps none. *)
Theorem required_label_never_present selector promUptime trs st name r lr :
  promapi.RangeQuery prom
    ("absent(" +:+
     selString E
       (promParser.mkVectorSelector (promParser.Name (stripLabels selector))
          (promParser.Offset (stripLabels selector))
          (promParser.LabelMatchers (stripLabels selector) ++
           [labels.mkMatcher labels.MatchRegexp name ".+"])) +:+ ")")
    params = inr r ->
  promapi.Ranges (promapi.Series r) = [lr] ->
  FindGaps E (promapi.Series r) promUptime (promapi.From (promapi.Series r))
    (promapi.Until (promapi.Series r)) = [] ->
  requiredLabelStep E prom expr params selector promUptime trs st name
  = let st' :=
      request
        (RangeQuery (promapi.Name prom)
           ("absent(" +:+
            selString E
              (promParser.mkVectorSelector (promParser.Name (stripLabels selector))
                 (promParser.Offset (stripLabels selector))
                 (promParser.LabelMatchers (stripLabels selector) ++
                  [labels.mkMatcher labels.MatchRegexp name ".+"])) +:+ ")"))
        st in
    if existsb (fun str => snd (Overlaps E lr str (promapi.Step (promapi.Series r))))
         (promapi.Ranges (promapi.Series trs))
    then emit
           (mkProblem (parser.YLines (parser.EValue expr)) "promql/series"
              (promText E (promapi.Name prom) (promapi.RURI r) +:+
               " has `" +:+ selString E (stripLabels selector) +:+
               "` metric but there are no series with `" +:+ name +:+
               "` label in the last " +:+ sinceDesc E (promapi.From (promapi.Series r)) +:+ ".")
              SeriesCheckCommonProblemDetails Bug)
           st'
    else st'.
Proof.
  intros Hq Hr Hg. unfold requiredLabelStep, rangeQuery, labels.MustNewMatcher.
  rewrite Hq. unfold findGaps, withGaps. cbn [promapi.Ranges promapi.Gaps promapi.Step promapi.From].
  rewrite Hr, Hg. cbn [existsb length Nat.eqb andb orb].
  rewrite orb_false_r.
  now destruct (existsb _ (promapi.Ranges (promapi.Series trs))).
Qed.

(** X29: when the series of the base metric with one equality or regexp
    matcher of the selector have two or more ranges in the window, the
    check reports after that one request, with a [Warning] that gives
    their average life, that they are only sometimes present if they have
    gaps in the uptime of the server, and reports nothing if they have
    none. *)
Theorem label_value_sometimes_present selector promUptime trs st lm trsLabel :
  labels.Name lm <> labels.MetricName ->
  labels.Type_ lm = labels.MatchEqual \/ labels.Type_ lm = labels.MatchRegexp ->
  isLabelValueIgnored E rule selector (labels.Name lm) = false ->
  promapi.RangeQuery prom
    ("count(" +:+
     selString E (addNameSelectorIfNeeded
                    (promParser.mkVectorSelector (metricNameOf selector) 0 [lm])
                    (promParser.LabelMatchers selector)) +:+ ")")
    params = inr trsLabel ->
  (2 <= length (promapi.Ranges (promapi.Series trsLabel)))%nat ->
  matcherStep E prom settings rule expr params selector promUptime trs st lm
  = let st' :=
      request
        (RangeQuery (promapi.Name prom)
           ("count(" +:+
            selString E (addNameSelectorIfNeeded
                           (promParser.mkVectorSelector (metricNameOf selector) 0 [lm])
                           (promParser.LabelMatchers selector)) +:+ ")"))
        st in
    match FindGaps E (promapi.Series trsLabel) promUptime
            (promapi.From (promapi.Series trsLabel)) (promapi.Until (promapi.Series trsLabel))
    with
    | [] => st'
    | _ :: _ =>
        emit
          (mkProblem (parser.YLines (parser.EValue expr)) "promql/series"
             ("Metric `" +:+ selString E (stripLabels selector) +:+ "` with label `{" +:+
              matcherString E lm +:+ "}` is only sometimes present on " +:+
              promText E (promapi.Name prom) (promapi.RURI trs) +:+
              " with average life span of " +:+
              HumanizeDuration E (avgLife E (promapi.Ranges (promapi.Series trsLabel))) +:+ ".")
             SeriesCheckCommonProblemDetails Warning)
          st'
    end.
Proof.
  intros Hn Ht Hi Hq Hlen.
  unfold matcherStep.
  rewrite (proj2 (String.eqb_neq _ _) Hn).
  replace (negb (bool_decide (labels.Type_ lm = labels.MatchEqual))
           && negb (bool_decide (labels.Type_ lm = labels.MatchRegexp))) with false
    by (destruct Ht as [-> | ->]; reflexivity).
  rewrite Hi. unfold rangeQuery. rewrite Hq.
  unfold findGaps, withGaps. cbn [promapi.Ranges promapi.Gaps].
  destruct (promapi.Ranges (promapi.Series trsLabel)) as [|r1 [|r2 l]] eqn:Hr;
    simpl in Hlen; try lia.
  cbn [length Nat.eqb andb Nat.ltb Nat.leb]. cbv zeta.
  now destruct (FindGaps E _ _ _ _).
Qed.

End LabelVerdicts.

Section OnScenarios5.

Import checks Fixture Scenarios.

Lemma required_label_never_present_witness :
  exists p,
    problems (requiredLabelStep env promJobAbsent fooExpr params fooJobX
                (dummyUptime params) firstThreeDays noState "job") = [p] /\
    Severity_ p = Bug.
Proof.
  rewrite (required_label_never_present env promJobAbsent fooExpr params fooJobX
             (dummyUptime params) firstThreeDays noState "job"
             (promapi.mkRangeQueryResult "http://prom"
                (promapi.mkSeriesTimeRanges (promapi.PStart params) (promapi.PEnd params)
                   (promapi.PStep params)
                   [promapi.mkMetricTimeRange 0 [] windowStart now] []))
             (promapi.mkMetricTimeRange 0 [] windowStart now));
    [ eexists; split; reflexivity
    | reflexivity | reflexivity | vm_compute; reflexivity ].
Defined.

Lemma label_value_sometimes_present_witness :
  exists p,
    problems (matcherStep env promJobXSometimes settings fooJobXRule fooExpr params fooJobX
                (dummyUptime params) firstThreeDays noState jobX) = [p] /\
    Severity_ p = Warning.
Proof.
  rewrite (label_value_sometimes_present env promJobXSometimes settings fooJobXRule fooExpr
             params fooJobX (dummyUptime params) firstThreeDays noState jobX
             (promapi.mkRangeQueryResult "http://prom"
                (promapi.mkSeriesTimeRanges (promapi.PStart params) (promapi.PEnd params)
                   (promapi.PStep params)
                   [promapi.mkMetricTimeRange 0 [] windowStart (windowStart + Day);
                    promapi.mkMetricTimeRange 0 [] (windowStart + 3 * Day)
                      (windowStart + 4 * Day)]
                   [])));
    [ eexists; split; reflexivity
    | discriminate | left; reflexivity | reflexivity | reflexivity | simpl; lia ].
Defined.

End OnScenarios5.
